(** * price-optimisation: the synthetic data script and its logging helper

    A shallow embedding of [src/utils.py] (class [LoggerManager],
    [create_logger]) and of [src/01_generate-synthetic-data.py]
    ([create_output_directories], [generate_synthetic_data],
    [visualize_data_distribution], [save_generated_data] and the main block),
    followed by the properties of both.

    Conventions of the embedding.
    - A Python function that reads or changes the process state is a
      function from a state to a [result] and a state ([M]); [Raise] is a
      raised exception, [Return] a normal return.
    - NumPy's float64 values are read as the rationals they denote ([Q]) and
      the arithmetic on them is exact: the properties below compare, select
      and clip values and none of them rests on rounding.
    - The libraries the scripts call (os, glob, datetime, logging, numpy,
      pandas, matplotlib) are modelled by their documented behaviour, next to
      the call that uses them. *)

From Stdlib Require Import QArith Lqa Ascii String.
From stdpp Require Import gmap strings list sorting.

(** ** Exceptions and results *)

(** The exception classes that occur; every one is a subclass of Python's
    [Exception], which is what the handlers of both files catch. *)
Inductive exc_class :=
| IndexError | ValueError | MemoryError | RuntimeError
| OSError | FileNotFoundError | FileExistsError | PermissionError | IsADirectoryError.

(** [issubclass(c, OSError)]. *)
Definition issubclass_OSError (c : exc_class) : bool :=
  match c with
  | OSError | FileNotFoundError | FileExistsError | PermissionError | IsADirectoryError => true
  | IndexError | ValueError | MemoryError | RuntimeError => false
  end.

(** An exception object: its class and [str(e)], the text an f-string shows. *)
Record Exception := { exc_type : exc_class; exc_str : string }.

#[global] Instance exc_class_eq_dec : EqDecision exc_class.
Proof. solve_decision. Defined.

#[global] Instance Exception_eq_dec : EqDecision Exception.
Proof. solve_decision. Defined.

Inductive result (A : Type) :=
| Return (a : A)
| Raise (e : Exception).
Arguments Return {A} a.
Arguments Raise {A} e.

(** Computations over a state [S]. *)
Definition M (S A : Type) : Type := S -> result A * S.

Definition ret {S A} (a : A) : M S A := fun s => (Return a, s).

Definition raise {S A} (e : Exception) : M S A := fun s => (Raise e, s).

Definition bind {S A B} (m : M S A) (k : A -> M S B) : M S B :=
  fun s =>
    match m s with
    | (Return a, s1) => k a s1
    | (Raise e, s1) => (Raise e, s1)
    end.

(** [try: body  except C as e: handler], where [catches e] is
    [isinstance(e, C)]; an exception the clause does not catch goes on. *)
Definition try_except {S A} (body : M S A) (catches : Exception -> bool)
    (handler : Exception -> M S A) : M S A :=
  fun s =>
    match body s with
    | (Return a, s1) => (Return a, s1)
    | (Raise e, s1) => if catches e then handler e s1 else (Raise e, s1)
    end.

Definition isinstance_Exception (e : Exception) : bool := true.

Definition isinstance_OSError (e : Exception) : bool := issubclass_OSError (exc_type e).

Notation "x <- m ;; k" := (bind m (fun x => k))
  (at level 100, m at next level, right associativity).
Notation "m ;; k" := (bind m (fun _ => k))
  (at level 100, right associativity).

(** ** The process environment: files, streams, the logging registry, the clock *)

(** What a file holds: text lines (a log), the table [DataFrame.to_csv]
    wrote, or the scatter plot [plt.savefig] wrote. *)
Inductive data :=
| Text (lines : list string)
| Csv (header : list string) (rows : list (Q * Q))
| Png (title xlabel ylabel : string) (points : list (Q * Q)).

(** A directory entry that [glob] can list and [open] or [os.remove] can be
    applied to. [locked] entries can be neither removed nor written (a
    permission, an immutable attribute, a directory of that name). *)
Record file := { locked : bool; content : data }.

(** [logging] handlers: where a record goes, and the handler's level. *)
Inductive sink := FileSink (baseFilename : string) | StreamSink.

Record Handler := { target : sink; handler_level : Z }.

Record Logger := { level : Z; handlers : list Handler }.

Record OS := {
  dirs : gset string;            (* directories that exist *)
  files : gmap string file;      (* path -> entry *)
  stdout : list string;          (* lines written by print *)
  stderr : list string;          (* lines written to sys.stderr *)
  loggers : gmap string Logger;  (* logging's registry: getLogger(name) *)
  now : string;                  (* datetime.now().strftime("%Y-%m-%d-%H-%M-%S") *)
  asctime : string;              (* the time logging puts in %(asctime)s *)
  abspath : string -> string     (* os.path.abspath, in the working directory *)
}.

Definition set_dirs (d : gset string) (w : OS) : OS :=
  {| dirs := d; files := files w; stdout := stdout w; stderr := stderr w;
     loggers := loggers w; now := now w; asctime := asctime w;
     abspath := abspath w |}.

Definition set_files (f : gmap string file) (w : OS) : OS :=
  {| dirs := dirs w; files := f; stdout := stdout w; stderr := stderr w;
     loggers := loggers w; now := now w; asctime := asctime w;
     abspath := abspath w |}.

Definition set_stdout (o : list string) (w : OS) : OS :=
  {| dirs := dirs w; files := files w; stdout := o; stderr := stderr w;
     loggers := loggers w; now := now w; asctime := asctime w;
     abspath := abspath w |}.

Definition set_stderr (o : list string) (w : OS) : OS :=
  {| dirs := dirs w; files := files w; stdout := stdout w; stderr := o;
     loggers := loggers w; now := now w; asctime := asctime w;
     abspath := abspath w |}.

Definition set_loggers (l : gmap string Logger) (w : OS) : OS :=
  {| dirs := dirs w; files := files w; stdout := stdout w; stderr := stderr w;
     loggers := l; now := now w; asctime := asctime w;
     abspath := abspath w |}.

(** The environment moves the clock; the code only reads it. *)
Definition set_now (t : string) (w : OS) : OS :=
  {| dirs := dirs w; files := files w; stdout := stdout w; stderr := stderr w;
     loggers := loggers w; now := t; asctime := asctime w;
     abspath := abspath w |}.

(** *** os, os.path, glob, datetime, print *)

Definition startswith (p s : string) : bool := String.prefix p s.

Fixpoint endswith_slash (s : string) : bool :=
  match s with
  | EmptyString => false
  | String c EmptyString => if decide (c = "/"%char) then true else false
  | String _ rest => endswith_slash rest
  end.

(** [os.path.join(a, b)] on POSIX. *)
Definition os_path_join (a b : string) : string :=
  if startswith "/" b then b
  else if decide (a = "") then b
  else if endswith_slash a then a +:+ b
  else a +:+ "/" +:+ b.

(** [os.makedirs(path, exist_ok=True)] for a path that is not empty. The
    model records the directory itself; its ancestors are not tracked. *)
Definition os_makedirs (path : string) : M OS unit :=
  fun w =>
    match files w !! path with
    | Some _ =>
        (Raise {| exc_type := FileExistsError;
                  exc_str := "[Errno 17] File exists: '" +:+ path +:+ "'" |}, w)
    | None => (Return tt, set_dirs ({[ path ]} ∪ dirs w) w)
    end.

(** [os.remove(path)]. *)
Definition os_remove (path : string) : M OS unit :=
  fun w =>
    match files w !! path with
    | None =>
        (Raise {| exc_type := FileNotFoundError;
                  exc_str := "[Errno 2] No such file or directory: '" +:+ path +:+ "'" |}, w)
    | Some f =>
        if locked f
        then (Raise {| exc_type := PermissionError;
                       exc_str := "[Errno 13] Permission denied: '" +:+ path +:+ "'" |}, w)
        else (Return tt, set_files (delete path (files w)) w)
    end.

(** [fnmatch] as [glob.glob] applies it: [glob_match pattern path] says
    whether [glob.glob(pattern)] lists the existing entry [path]. The pattern
    language ([*], [?], [[seq]]) belongs to the library; the code below only
    hands it a pattern, so it stays a parameter of the model. *)
Class Glob := glob_match : string -> string -> bool.

(** [glob.glob(pattern)]: the entries that match, in the directory's order. *)
Definition glob_glob `{Glob} (pattern : string) : M OS (list string) :=
  fun w => (Return (filter (fun p => glob_match pattern p = true) (elements (dom (files w)))), w).

(** [sorted(names)]: strings in code point order. *)
Definition sorted (names : list string) : list string := merge_sort String.le names.

(** [datetime.now().strftime("%Y-%m-%d-%H-%M-%S")]. *)
Definition datetime_now_strftime : M OS string := fun w => (Return (now w), w).

Definition print (line : string) : M OS unit :=
  fun w => (Return tt, set_stdout (stdout w ++ [line]) w).

(** *** logging *)

Definition NOTSET : Z := 0.
Definition INFO : Z := 20.
Definition WARNING : Z := 30.
Definition ERROR : Z := 40.
Definition CRITICAL : Z := 50.

Definition levelname (lvl : Z) : string :=
  if decide (lvl = CRITICAL) then "CRITICAL"
  else if decide (lvl = ERROR) then "ERROR"
  else if decide (lvl = WARNING) then "WARNING"
  else if decide (lvl = INFO) then "INFO"
  else "NOTSET".

(** [logging.Formatter('%(asctime)s - %(levelname)s - %(message)s')]. *)
Definition format (time : string) (lvl : Z) (message : string) : string :=
  time +:+ " - " +:+ levelname lvl +:+ " - " +:+ message.

(** [logging.getLogger(name)]: the one logger of that name, made on first use. *)
Definition logging_getLogger (name : string) : M OS string :=
  fun w =>
    match loggers w !! name with
    | Some _ => (Return name, w)
    | None => (Return name, set_loggers (<[name := {| level := NOTSET; handlers := [] |}]> (loggers w)) w)
    end.

Definition Logger_setLevel (name : string) (lvl : Z) : M OS unit :=
  fun w =>
    (Return tt,
     set_loggers (alter (fun lg => {| level := lvl; handlers := handlers lg |}) name (loggers w)) w).

Definition Logger_addHandler (name : string) (h : Handler) : M OS unit :=
  fun w =>
    (Return tt,
     set_loggers (alter (fun lg => {| level := level lg; handlers := handlers lg ++ [h] |}) name
                    (loggers w)) w).

(** [logging.FileHandler(filename)]: opens the file for appending, which
    creates it when it is not there and leaves an existing one as it is. The
    handler opens [os.path.abspath(filename)], and that is the path an error
    names. *)
Definition logging_FileHandler (filename : string) : M OS Handler :=
  fun w =>
    match files w !! filename with
    | None =>
        (Return {| target := FileSink filename; handler_level := NOTSET |},
         set_files (<[filename := {| locked := false; content := Text [] |}]> (files w)) w)
    | Some f =>
        if locked f
        then (Raise {| exc_type := PermissionError;
                       exc_str := "[Errno 13] Permission denied: '" +:+ abspath w filename +:+
                                  "'" |}, w)
        else (Return {| target := FileSink filename; handler_level := NOTSET |}, w)
    end.

Definition logging_StreamHandler : M OS Handler :=
  ret {| target := StreamSink; handler_level := NOTSET |}.

Definition Handler_setLevel (h : Handler) (lvl : Z) : Handler :=
  {| target := target h; handler_level := lvl |}.

(** One handler writes one formatted line; a handler never raises into the
    caller ([logging] reports its own failures through [handleError]). *)
Definition Handler_emit (line : string) (lvl : Z) (w : OS) (h : Handler) : OS :=
  if decide (handler_level h <= lvl)%Z then
    match target h with
    | StreamSink => set_stderr (stderr w ++ [line]) w
    | FileSink path =>
        match files w !! path with
        | Some {| locked := l; content := Text lines |} =>
            set_files (<[path := {| locked := l; content := Text (lines ++ [line]) |}]> (files w)) w
        | _ => w
        end
    end
  else w.

(** [logger.log(lvl, message)] for the logger called [name]: the record
    goes to the handlers of that logger. Handlers of its ancestors in the
    dotted hierarchy of names, to which a record propagates as well, are not
    modelled. *)
Definition Logger_log (name : string) (lvl : Z) (message : string) : M OS unit :=
  fun w =>
    match loggers w !! name with
    | Some lg =>
        if decide (level lg <= lvl)%Z
        then (Return tt, foldl (Handler_emit (format (asctime w) lvl message) lvl) w (handlers lg))
        else (Return tt, w)
    | None => (Return tt, w)
    end.

#[global] Instance sink_eq_dec : EqDecision sink.
Proof. solve_decision. Defined.

(** The handlers among [hs] that write a record of level [lvl] to the
    console. *)
Definition console_handlers (lvl : Z) (hs : list Handler) : list Handler :=
  filter (fun h => target h = StreamSink /\ (handler_level h <= lvl)%Z) hs.

(** ** utils.py *)

Module LoggerManager.

(** The instance: [self.logger], named by the logger's name in the registry. *)
Record t := { logger : string }.

(** The [while] loop of [_cleanup_old_logs]; [existing_logs.pop(0)] raises
    [IndexError] on an empty list. *)
Fixpoint cleanup_loop (max_log_files : Z) (existing_logs : list string) : M OS unit :=
  fun w =>
    if decide (max_log_files <= Z.of_nat (length existing_logs))%Z then
      match existing_logs with
      | [] => (Raise {| exc_type := IndexError; exc_str := "pop from empty list" |}, w)
      | oldest_log :: existing_logs' =>
          (try_except (os_remove oldest_log) isinstance_OSError
             (fun e => print ("Error removing log file " +:+ oldest_log +:+ ": " +:+ exc_str e)) ;;
           cleanup_loop max_log_files existing_logs') w
      end
    else (Return tt, w).

Definition log_pattern (script_name log_dir : string) : string :=
  os_path_join log_dir (script_name +:+ "-*.log").

Definition _cleanup_old_logs `{Glob} (script_name log_dir : string) (max_log_files : Z) : M OS unit :=
  let log_pattern := log_pattern script_name log_dir in
  found <- glob_glob log_pattern ;;
  let existing_logs := sorted found in
  cleanup_loop max_log_files existing_logs.

Definition log_filename (script_name log_dir timestamp : string) : string :=
  os_path_join log_dir (script_name +:+ "-" +:+ timestamp +:+ ".log").

Definition __init__ `{Glob} (script_name : string) (max_log_files : Z) (log_dir : string) : M OS t :=
  os_makedirs log_dir ;;
  timestamp <- datetime_now_strftime ;;
  let log_filename := log_filename script_name log_dir timestamp in
  _cleanup_old_logs script_name log_dir max_log_files ;;
  logger <- logging_getLogger script_name ;;
  Logger_setLevel logger INFO ;;
  file_handler <- logging_FileHandler log_filename ;;
  let file_handler := Handler_setLevel file_handler INFO in
  console_handler <- logging_StreamHandler ;;
  let console_handler := Handler_setLevel console_handler INFO in
  Logger_addHandler logger file_handler ;;
  Logger_addHandler logger console_handler ;;
  ret {| logger := logger |}.

Definition info (self : t) (message : string) : M OS unit := Logger_log (logger self) INFO message.

Definition warning (self : t) (message : string) : M OS unit := Logger_log (logger self) WARNING message.

Definition error (self : t) (message : string) : M OS unit := Logger_log (logger self) ERROR message.

Definition critical (self : t) (message : string) : M OS unit := Logger_log (logger self) CRITICAL message.

End LoggerManager.

(** [LoggerManager(script_name)] with the defaults [max_log_files=3] and
    [log_dir='logs']. *)
Definition create_logger `{Glob} (script_name : string) : M OS LoggerManager.t :=
  LoggerManager.__init__ script_name 3 "logs".

(** ** NumPy, pandas and matplotlib, as far as the script uses them *)

Definition ndarray := list Q.

(** The global [numpy.random] state. [random_sample] is the next double of
    the half-open interval [0, 1), [standard_exponential] and
    [standard_normal] the next variates of the two standard distributions;
    each returns the advanced state. The ranges are the library's. The
    normal variates come from the polar method on doubles of 53 random
    bits: a variate is f * x with x * x <= r < 1, r >= 2^-104 and
    f = sqrt(-2 ln(r) / r), so its absolute value is at most
    sqrt(208 ln 2) < 12.01; the range below rounds this up to 13. *)
Class RandomState (G : Type) := {
  seed : Z -> G;
  random_sample : G -> Q * G;
  standard_exponential : G -> Q * G;
  standard_normal : G -> Q * G;
  random_sample_range : forall g, (0 <= fst (random_sample g))%Q /\ (fst (random_sample g) < 1)%Q;
  standard_exponential_range : forall g, (0 <= fst (standard_exponential g))%Q;
  standard_normal_range :
    forall g, (-13 <= fst (standard_normal g))%Q /\ (fst (standard_normal g) <= 13)%Q
}.

(** [size] successive draws. *)
Fixpoint sample {G} (draw : G -> Q * G) (size : nat) (g : G) : ndarray * G :=
  match size with
  | O => ([], g)
  | S size' =>
      let (x, g1) := draw g in
      let (xs, g2) := sample draw size' g1 in
      (x :: xs, g2)
  end.

(** [np.random.exponential(scale, size)]: [scale] times a standard variate. *)
Definition exponential `{RandomState G} (scale : Q) (size : nat) (g : G) : ndarray * G :=
  sample (fun g => let (e, g') := standard_exponential g in ((scale * e)%Q, g')) size g.

(** [np.random.normal(loc, scale, size)]: [loc + scale * z]. *)
Definition normal `{RandomState G} (loc scale : Q) (size : nat) (g : G) : ndarray * G :=
  sample (fun g => let (z, g') := standard_normal g in ((loc + scale * z)%Q, g')) size g.

(** [np.random.uniform(low, high, size)]: [low + (high - low) * u]. *)
Definition uniform `{RandomState G} (low high : Q) (size : nat) (g : G) : ndarray * G :=
  sample (fun g => let (u, g') := random_sample g in ((low + (high - low) * u)%Q, g')) size g.

#[global] Instance Qle_dec (x y : Q) : Decision (x <= y)%Q.
Proof. unfold Qle. apply _. Defined.

#[global] Instance Qlt_dec (x y : Q) : Decision (x < y)%Q.
Proof. unfold Qlt. apply _. Defined.

#[global] Instance Qle_total : Total Qle.
Proof.
  intros x y. destruct (Qlt_le_dec x y) as [Hlt|Hle]; [left; by apply Qlt_le_weak|by right].
Qed.

#[global] Instance Qle_transitive : Transitive Qle.
Proof. intros x y z. apply Qle_trans. Qed.

(** [np.sort(a)]: ascending. *)
Definition sort (a : ndarray) : ndarray := merge_sort Qle a.

(** [np.maximum] on two scalars. *)
Definition maximum (x m : Q) : Q := if Qle_bool m x then x else m.

(** [a.clip(min=m)]. *)
Definition clip (a : ndarray) (m : Q) : ndarray := map (fun x => maximum x m) a.

(** A scalar on the left of an array: [c * a], [c - a], [c + a]. *)
Definition scalar_mul (c : Q) (a : ndarray) : ndarray := map (fun x => (c * x)%Q) a.

Definition scalar_sub (c : Q) (a : ndarray) : ndarray := map (fun x => (c - x)%Q) a.

Definition scalar_add (c : Q) (a : ndarray) : ndarray := map (fun x => (c + x)%Q) a.

(** [a + b] on one-dimensional arrays: equal lengths add pointwise, an array
    of length one is broadcast, anything else is a [ValueError]. *)
Definition add (a b : ndarray) : result ndarray :=
  if decide (length a = length b) then Return (zip_with Qplus a b)
  else match a, b with
       | [x], _ => Return (map (fun y => (x + y)%Q) b)
       | _, [y] => Return (map (fun x => (x + y)%Q) a)
       | _, _ =>
           Raise {| exc_type := ValueError;
                    exc_str := "operands could not be broadcast together" |}
       end.

(** [np.concatenate([a, b])]. *)
Definition concatenate (a b : ndarray) : ndarray := a ++ b.

(** A frame of the two columns the script builds. *)
Record DataFrame := { Price : ndarray; Quantity : ndarray }.

(** [pd.DataFrame({'Price': price, 'Quantity': quantity})]. *)
Definition pd_DataFrame (price quantity : ndarray) : result DataFrame :=
  if decide (length price = length quantity)
  then Return {| Price := price; Quantity := quantity |}
  else Raise {| exc_type := ValueError; exc_str := "All arrays must be of the same length" |}.

(** [column >= c]: the boolean mask. *)
Definition ge_mask (column : ndarray) (c : Q) : list bool := map (fun x => Qle_bool c x) column.

(** The entries of [column] at the positions where [mask] is true. *)
Fixpoint compress (mask : list bool) (column : ndarray) : ndarray :=
  match mask, column with
  | b :: mask', x :: column' => if b then x :: compress mask' column' else compress mask' column'
  | _, _ => []
  end.

(** [df[mask]]: the rows where the mask is true. *)
Definition getitem_mask (df : DataFrame) (mask : list bool) : result DataFrame :=
  if decide (length mask = length (Price df))
  then Return {| Price := compress mask (Price df); Quantity := compress mask (Quantity df) |}
  else Raise {| exc_type := ValueError; exc_str := "Item wrong length" |}.

(** The rows of a frame, as [to_csv] writes them and [scatter] plots them. *)
Definition rows (df : DataFrame) : list (Q * Q) := zip (Price df) (Quantity df).

(** [pyplot]'s current figure. *)
Record Figure := { points : list (Q * Q); xlabel : string; ylabel : string; title : string }.

(** ** The state of a run of the script *)

(** [os] is the process environment, [rng] NumPy's global random state,
    [pyplot] the current figure. [faults] is the environment's part in the
    calls into NumPy, pandas, matplotlib and os: the head says whether the
    next such call raises (out of memory, a full disk, ...) and what. *)
Record World (G : Type) := {
  os : OS;
  rng : G;
  pyplot : Figure;
  faults : list (option Exception)
}.
Arguments os {G} w.
Arguments rng {G} w.
Arguments pyplot {G} w.
Arguments faults {G} w.

Definition set_os {G} (o : OS) (w : World G) : World G :=
  {| os := o; rng := rng w; pyplot := pyplot w; faults := faults w |}.

Definition set_rng {G} (g : G) (w : World G) : World G :=
  {| os := os w; rng := g; pyplot := pyplot w; faults := faults w |}.

Definition set_pyplot {G} (f : Figure) (w : World G) : World G :=
  {| os := os w; rng := rng w; pyplot := f; faults := faults w |}.

Definition set_faults {G} (fs : list (option Exception)) (w : World G) : World G :=
  {| os := os w; rng := rng w; pyplot := pyplot w; faults := fs |}.

(** A computation on the environment, run inside the script. *)
Definition in_os {G A} (m : M OS A) : M (World G) A :=
  fun w => let (r, o) := m (os w) in (r, set_os o w).

(** A call into a library: it raises when the environment says so, and
    otherwise does what the library does. *)
Definition external {G A} (m : M (World G) A) : M (World G) A :=
  fun w =>
    match head (faults w) with
    | Some (Some e) => (Raise e, set_faults (tail (faults w)) w)
    | _ => m (set_faults (tail (faults w)) w)
    end.

(** A library call whose outcome depends on its arguments only. *)
Definition call {G A} (r : result A) : M (World G) A := external (fun w => (r, w)).

(** A library call that draws from the global random state. *)
Definition draw {G A} (f : G -> A * G) : M (World G) A :=
  external (fun w => let (a, g) := f (rng w) in (Return a, set_rng g w)).

(** A [pyplot] call that changes the current figure. *)
Definition plot {G} (f : Figure -> Figure) : M (World G) unit :=
  external (fun w => (Return tt, set_pyplot (f (pyplot w)) w)).

(** The part of [path] before its last slash, if it has one. *)
Fixpoint before_last_slash (path : string) : option string :=
  match path with
  | EmptyString => None
  | String c rest =>
      match before_last_slash rest with
      | Some d => Some (String c d)
      | None => if decide (c = "/"%char) then Some EmptyString else None
      end
  end.

(** [os.path.dirname(path)] of a relative path that ends in a file name. *)
Definition os_path_dirname (path : string) : string := default "" (before_last_slash path).

(** [os.path.isdir(path)]; the empty name stands for the working directory. *)
Definition isdir (path : string) (w : OS) : bool := bool_decide (path = "" \/ path ∈ dirs w).

(** Opening [path] for writing and writing the whole of [d], in a directory
    that exists. *)
Definition write_file (path : string) (d : data) : M OS unit :=
  fun w =>
    match files w !! path with
    | Some f =>
        if locked f
        then (Raise {| exc_type := PermissionError;
                       exc_str := "[Errno 13] Permission denied: '" +:+ path +:+ "'" |}, w)
        else (Return tt, set_files (<[path := {| locked := false; content := d |}]> (files w)) w)
    | None => (Return tt, set_files (<[path := {| locked := false; content := d |}]> (files w)) w)
    end.

(** [plt.savefig(path)]: the file is opened for writing, which fails with
    [FileNotFoundError] when its directory does not exist. A write that
    fails half way, leaving part of a file, is not modelled: a fault of the
    environment strikes before the file is opened. *)
Definition savefig (path : string) (d : data) : M OS unit :=
  fun w =>
    if isdir (os_path_dirname path) w then write_file path d w
    else (Raise {| exc_type := FileNotFoundError;
                   exc_str := "[Errno 2] No such file or directory: '" +:+ path +:+ "'" |}, w).

(** [df.to_csv(path, index=False)]: pandas checks the parent directory
    before it opens the file. *)
Definition to_csv (path : string) (d : data) : M OS unit :=
  fun w =>
    if isdir (os_path_dirname path) w then write_file path d w
    else (Raise {| exc_type := OSError;
                   exc_str := "Cannot save file into a non-existent directory: '" +:+
                              os_path_dirname path +:+ "'" |}, w).

Definition tab : string := String (ascii_of_nat 9) EmptyString.

(** ** 01_generate-synthetic-data.py *)

Section Script.

Context `{RandomState G}.

(** The module's global [log = create_logger(SCRIPT_NAME)]. *)
Variable log : LoggerManager.t.

Definition log_info (message : string) : M (World G) unit := in_os (LoggerManager.info log message).

Definition log_error (message : string) : M (World G) unit := in_os (LoggerManager.error log message).

Definition log_critical (message : string) : M (World G) unit :=
  in_os (LoggerManager.critical log message).

(** The [try] block of [create_output_directories]. *)
Definition create_output_directories_try : M (World G) unit :=
  log_info "Creating output directories" ;;
  external (in_os (os_makedirs "data/raw")) ;;
  external (in_os (os_makedirs "artifacts/charts")) ;;
  log_info (tab +:+ "Output directories created successfully").

Definition create_output_directories : M (World G) unit :=
  try_except create_output_directories_try isinstance_Exception
    (fun e =>
       log_error (tab +:+ "Failed to create output directories: " +:+ exc_str e) ;;
       raise e).

(** The [try] block of [generate_synthetic_data]. In
    [1000 - 5 * price + np.random.normal(...)] the left operand is computed
    before the noise is drawn. *)
Definition generate_synthetic_data_try : M (World G) DataFrame :=
  log_info "Generating synthetic data" ;;
  let n := 100%nat in
  price <- draw (exponential 100 n) ;;
  price <- call (Return (sort price)) ;;
  t <- call (Return (scalar_mul 5 price)) ;;
  t <- call (Return (scalar_sub 1000 t)) ;;
  noise <- draw (normal 0 50 n) ;;
  quantity <- call (add t noise) ;;
  quantity <- call (Return (clip quantity 0)) ;;
  let n_outliers := 10%nat in
  outlier_prices <- draw (uniform 5 50 n_outliers) ;;
  noise <- draw (normal 0 50 n_outliers) ;;
  outlier_quantity <- call (Return (scalar_add 1100 noise)) ;;
  price <- call (Return (concatenate price outlier_prices)) ;;
  quantity <- call (Return (concatenate quantity outlier_quantity)) ;;
  let n_outliers := 10%nat in
  outlier_prices <- draw (uniform 51 100 n_outliers) ;;
  noise <- draw (normal 0 50 n_outliers) ;;
  outlier_quantity <- call (Return (scalar_add 900 noise)) ;;
  price <- call (Return (concatenate price outlier_prices)) ;;
  quantity <- call (Return (concatenate quantity outlier_quantity)) ;;
  df <- call (pd_DataFrame price quantity) ;;
  mask <- call (Return (ge_mask (Price df) 5)) ;;
  df <- call (getitem_mask df mask) ;;
  log_info (tab +:+ "Synthetic data generation completed") ;;
  ret df.

Definition generate_synthetic_data : M (World G) DataFrame :=
  try_except generate_synthetic_data_try isinstance_Exception
    (fun e =>
       log_error (tab +:+ "Error in generating synthetic data: " +:+ exc_str e) ;;
       raise e).

(** [plt.scatter(x, y)] wants as many [x] as [y]. *)
Definition scatter (x y : ndarray) (f : Figure) : result Figure :=
  if decide (length x = length y)
  then Return {| points := points f ++ zip x y; xlabel := xlabel f; ylabel := ylabel f;
                 title := title f |}
  else Raise {| exc_type := ValueError; exc_str := "x and y must be the same size" |}.

(** The [try] block of [visualize_data_distribution]. *)
Definition visualize_data_distribution_try (df : DataFrame) : M (World G) unit :=
  log_info "Creating data distribution visualizations" ;;
  plot (fun _ => {| points := []; xlabel := ""; ylabel := ""; title := "" |}) ;;
  external (fun w =>
    match scatter (Price df) (Quantity df) (pyplot w) with
    | Return f => (Return tt, set_pyplot f w)
    | Raise e => (Raise e, w)
    end) ;;
  plot (fun f => {| points := points f; xlabel := "Price"; ylabel := ylabel f; title := title f |}) ;;
  plot (fun f => {| points := points f; xlabel := xlabel f; ylabel := "Quantity"; title := title f |}) ;;
  plot (fun f => {| points := points f; xlabel := xlabel f; ylabel := ylabel f;
                    title := "Data Distribution" |}) ;;
  let fig_filepath := "artifacts/charts/raw_data_distribution.png" in
  external (fun w =>
    in_os (savefig fig_filepath
             (Png (title (pyplot w)) (xlabel (pyplot w)) (ylabel (pyplot w)) (points (pyplot w)))) w) ;;
  log_info (tab +:+ "Data distribution visualizations saved to " +:+ fig_filepath).

Definition visualize_data_distribution (df : DataFrame) : M (World G) unit :=
  try_except (visualize_data_distribution_try df) isinstance_Exception
    (fun e =>
       log_error (tab +:+ "Error in creating visualizations: " +:+ exc_str e) ;;
       raise e).

(** The [try] block of [save_generated_data]. *)
Definition save_generated_data_try (df : DataFrame) : M (World G) unit :=
  let output_path := "data/raw/synthetic_pricing_data.csv" in
  external (in_os (to_csv output_path (Csv ["Price"; "Quantity"] (rows df)))) ;;
  log_info ("Data saved to " +:+ output_path).

Definition save_generated_data (df : DataFrame) : M (World G) unit :=
  try_except (save_generated_data_try df) isinstance_Exception
    (fun e =>
       log_error ("Error saving data: " +:+ exc_str e) ;;
       raise e).

(** The [try] block of the main block: the four phases in order. *)
Definition main_try : M (World G) unit :=
  log_info "Starting data generation script" ;;
  create_output_directories ;;
  synthetic_data <- generate_synthetic_data ;;
  visualize_data_distribution synthetic_data ;;
  save_generated_data synthetic_data ;;
  log_info "Data generation completed successfully".

(** [if __name__ == '__main__':] *)
Definition main : M (World G) unit :=
  try_except main_try isinstance_Exception
    (fun e => log_critical ("Script execution failed: " +:+ exc_str e)).

End Script.

Definition SCRIPT_NAME : string := "01_generate-synthetic-data".

(** The module run as a script: the logger is made, the random state is
    seeded with 1, then the main block runs. *)
Definition script `{Glob} `{RandomState G} : M (World G) unit :=
  log <- in_os (create_logger SCRIPT_NAME) ;;
  external (fun w => (Return tt, set_rng (seed 1) w)) ;;
  main log.

(** ** The generator as the specification words it

    The draws of one run, in the order the code makes them, and the dataset
    built from them row by row: base rows from the sorted prices and the
    linear demand model with clipped quantity, then the low-price outliers,
    then the mid/high-price outliers, then the price filter. *)

Record Draws := {
  base_price : ndarray;   (* exponential(scale=100), 100 draws, as drawn *)
  base_noise : ndarray;   (* normal(0, 50), 100 draws *)
  low_price : ndarray;    (* uniform(5, 50), 10 draws *)
  low_noise : ndarray;    (* normal(0, 50), 10 draws *)
  high_price : ndarray;   (* uniform(51, 100), 10 draws *)
  high_noise : ndarray    (* normal(0, 50), 10 draws *)
}.

Definition draws_of `{RandomState G} (g : G) : Draws * G :=
  let (bp, g1) := exponential 100 100 g in
  let (bn, g2) := normal 0 50 100 g1 in
  let (lp, g3) := uniform 5 50 10 g2 in
  let (ln, g4) := normal 0 50 10 g3 in
  let (hp, g5) := uniform 51 100 10 g4 in
  let (hn, g6) := normal 0 50 10 g5 in
  ({| base_price := bp; base_noise := bn; low_price := lp; low_noise := ln;
      high_price := hp; high_noise := hn |}, g6).

(** Quantity clipped to a minimum of 0. *)
Definition spec_clip (q : Q) : Q := if decide (q < 0)%Q then 0%Q else q.

Definition spec_base_rows (d : Draws) : list (Q * Q) :=
  zip_with (fun p z => (p, spec_clip (1000 - 5 * p + z)%Q)) (sort (base_price d)) (base_noise d).

Definition spec_low_outliers (d : Draws) : list (Q * Q) :=
  zip_with (fun p z => (p, (1100 + z)%Q)) (low_price d) (low_noise d).

Definition spec_high_outliers (d : Draws) : list (Q * Q) :=
  zip_with (fun p z => (p, (900 + z)%Q)) (high_price d) (high_noise d).

Definition spec_concatenated (d : Draws) : list (Q * Q) :=
  spec_base_rows d ++ spec_low_outliers d ++ spec_high_outliers d.

Definition spec_dataset (d : Draws) : list (Q * Q) :=
  filter (fun r => (5 <= fst r)%Q) (spec_concatenated d).

(** ** Scenarios *)

(** Loggers constructed one after the other for one component, the clock
    reading [stamp] at each construction. *)
Fixpoint construct_all `{Glob} (script_name : string) (max_log_files : Z) (log_dir : string)
    (stamps : list string) : M OS (list LoggerManager.t) :=
  match stamps with
  | [] => ret []
  | stamp :: stamps' =>
      fun w =>
        (lm <- LoggerManager.__init__ script_name max_log_files log_dir ;;
         lms <- construct_all script_name max_log_files log_dir stamps' ;;
         ret (lm :: lms)) (set_now stamp w)
  end.

(** The log files of a component that exist: what its pattern lists. *)
Definition component_logs `{Glob} (script_name log_dir : string) (w : OS) : list string :=
  filter (fun p => glob_match (LoggerManager.log_pattern script_name log_dir) p = true)
    (elements (dom (files w))).

(** *** Words for the cleanup *)

(** [existing_logs] as [_cleanup_old_logs] computes it. *)
Definition existing_logs `{Glob} (script_name log_dir : string) (w : OS) : list string :=
  sorted (component_logs script_name log_dir w).

(** The entries the loop pops and tries to remove: it runs while
    [len(existing_logs) >= max_log_files], from the front. *)
Definition attempted (max_log_files : Z) (existing_logs : list string) : list string :=
  take (Z.to_nat (Z.of_nat (length existing_logs) - max_log_files + 1)) existing_logs.

(** What [os.remove(path)] raises on these files, if anything. *)
Definition remove_error (fs : gmap string file) (path : string) : option Exception :=
  match fs !! path with
  | None =>
      Some {| exc_type := FileNotFoundError;
              exc_str := "[Errno 2] No such file or directory: '" +:+ path +:+ "'" |}
  | Some f =>
      if locked f
      then Some {| exc_type := PermissionError;
                   exc_str := "[Errno 13] Permission denied: '" +:+ path +:+ "'" |}
      else None
  end.

(** The line the [except OSError] clause prints. *)
Definition report (path : string) (e : Exception) : string :=
  "Error removing log file " +:+ path +:+ ": " +:+ exc_str e.

(** One turn of the loop on the state: the removal, or the printed line. *)
Definition try_remove (w : OS) (path : string) : OS :=
  (try_except (os_remove path) isinstance_OSError (fun e => print (report path e)) w).2.

(** The state the cleanup leaves, from the state it starts in. *)
Definition cleaned `{Glob} (script_name log_dir : string) (max_log_files : Z) (w : OS) : OS :=
  foldl try_remove w (attempted max_log_files (existing_logs script_name log_dir w)).

(** The entries still in the loop's list when it stops. *)
Definition kept (max_log_files : Z) (existing_logs : list string) : list string :=
  drop (Z.to_nat (Z.of_nat (length existing_logs) - max_log_files + 1)) existing_logs.

(** Every log file of the component can be removed. *)
Definition deletable `{Glob} (script_name log_dir : string) (w : OS) : Prop :=
  Forall (fun p => remove_error (files w) p = None) (component_logs script_name log_dir w).

(** The file names of loggers still to be constructed are free in [w] and
    are log file names of the component. *)
Definition fresh_names `{Glob} (script_name log_dir : string) (stamps : list string) (w : OS) : Prop :=
  Forall (fun stamp =>
            files w !! LoggerManager.log_filename script_name log_dir stamp = None /\
            glob_match (LoggerManager.log_pattern script_name log_dir)
              (LoggerManager.log_filename script_name log_dir stamp) = true) stamps.

(** How the loop ends: normally, or in [pop(0)] on the emptied list when
    [max_log_files] is not positive. *)
Definition cleanup_outcome (max_log_files : Z) : result unit :=
  if decide (1 <= max_log_files)%Z then Return tt
  else Raise {| exc_type := IndexError; exc_str := "pop from empty list" |}.

(** [logging.FileHandler] on the files: the log file is there afterwards. *)
Definition opened (filename : string) (fs : gmap string file) : gmap string file :=
  match fs !! filename with
  | Some _ => fs
  | None => <[filename := {| locked := false; content := Text [] |}]> fs
  end.

(** An exception [e] leaves one of the four phases of the main block, the
    phases before it having returned; [w'] is the state it leaves behind. *)
Inductive phase_raises `{RandomState G} (log : LoggerManager.t) (w : World G) (e : Exception)
    (w' : World G) : Prop :=
| raises_directory_setup w1 :
    log_info log "Starting data generation script" w = (Return tt, w1) ->
    create_output_directories log w1 = (Raise e, w') ->
    phase_raises log w e w'
| raises_generation w1 w2 :
    log_info log "Starting data generation script" w = (Return tt, w1) ->
    create_output_directories log w1 = (Return tt, w2) ->
    generate_synthetic_data log w2 = (Raise e, w') ->
    phase_raises log w e w'
| raises_visualization w1 w2 w3 synthetic_data :
    log_info log "Starting data generation script" w = (Return tt, w1) ->
    create_output_directories log w1 = (Return tt, w2) ->
    generate_synthetic_data log w2 = (Return synthetic_data, w3) ->
    visualize_data_distribution log synthetic_data w3 = (Raise e, w') ->
    phase_raises log w e w'
| raises_save w1 w2 w3 w4 synthetic_data :
    log_info log "Starting data generation script" w = (Return tt, w1) ->
    create_output_directories log w1 = (Return tt, w2) ->
    generate_synthetic_data log w2 = (Return synthetic_data, w3) ->
    visualize_data_distribution log synthetic_data w3 = (Return tt, w4) ->
    save_generated_data log synthetic_data w4 = (Raise e, w') ->
    phase_raises log w e w'.

(** ** Words for what a run leaves behind *)

(** What log records do to a file: lines appended to a text file, nothing
    to a file of another kind. *)
Definition appended (more : list string) (f : file) : file :=
  match content f with
  | Text lines => {| locked := locked f; content := Text (lines ++ more) |}
  | _ => f
  end.

(** The entry at [path] is what it was, apart from log lines appended. *)
Definition entry_kept (path : string) (o o' : OS) : Prop :=
  exists more, files o' !! path = appended more <$> files o !! path.

(** The state a log record leaves. *)
Definition log_record (name : string) (lvl : Z) (message : string) (o : OS) : OS :=
  (Logger_log name lvl message o).2.

(** The two handlers a construction adds, and the registry it leaves. *)
Definition file_handler (filename : string) : Handler :=
  {| target := FileSink filename; handler_level := INFO |}.

Definition console_handler : Handler := {| target := StreamSink; handler_level := INFO |}.

Definition handlers_of (name : string) (registry : gmap string Logger) : list Handler :=
  default [] (handlers <$> registry !! name).

Definition configured (name filename : string) (registry : gmap string Logger) : gmap string Logger :=
  <[name := {| level := INFO;
               handlers := handlers_of name registry ++ [file_handler filename; console_handler] |}]>
    registry.

(** The files the script writes. *)
Definition fig_filepath : string := "artifacts/charts/raw_data_distribution.png".

Definition output_path : string := "data/raw/synthetic_pricing_data.csv".

(** The chart and the table of the rows of a frame, as [savefig] and [to_csv]
    write them. *)
Definition chart_of (points : list (Q * Q)) : data :=
  Png "Data Distribution" "Price" "Quantity" points.

Definition table_of (rows : list (Q * Q)) : data := Csv ["Price"; "Quantity"] rows.

(** [path] can be written: no locked entry is in the way. *)
Definition writable (path : string) (o : OS) : Prop :=
  forall f, files o !! path = Some f -> locked f = false.

(** A computation keeps a relation between the state before and after,
    however it ends. *)
Definition preserves {S A} (R : relation S) (m : M S A) : Prop := forall s, R s (m s).2.

(** A relation between run states that neither the bookkeeping of faults,
    nor a change of figure, nor a log record breaks. *)
Class Frame {G} (R : relation (World G)) := {
  frame_preorder :: PreOrder R;
  frame_faults : forall w, R w (set_faults (tail (faults w)) w);
  frame_pyplot : forall w f, R w (set_pyplot f w);
  frame_log : forall w name lvl message, R w (set_os (log_record name lvl message (os w)) w)
}.

(** ... that a draw from the random state keeps, *)
Class RngFrame {G} (R : relation (World G)) :=
  frame_rng : forall w g, R w (set_rng g w).

(** ... that a new directory keeps, *)
Class DirsFrame {G} (R : relation (World G)) :=
  frame_dirs : forall w path, R w (set_os (set_dirs ({[ path ]} ∪ dirs (os w)) (os w)) w).

(** ... that writing the file [target] keeps. *)
Class WriteFrame {G} (target : string) (R : relation (World G)) :=
  frame_write : forall w d,
    R w (set_os (set_files (<[target := {| locked := false; content := d |}]> (files (os w)))
                   (os w)) w).

(** The entry at [path] is kept. *)
Definition os_kept {G} (path : string) : relation (World G) :=
  fun w w' => entry_kept path (os w) (os w').

(** The random state is kept. *)
Definition rng_kept {G} : relation (World G) := fun w w' => rng w' = rng w.

(** No fault is pending afterwards if none was before. *)
Definition quiet {G} : relation (World G) := fun w w' => faults w = [] -> faults w' = [].

(** Directories are only added, and standard output is not written to. *)
Definition dirs_grow {G} : relation (World G) :=
  fun w w' => dirs (os w) ⊆ dirs (os w') /\ stdout (os w') = stdout (os w).

Lemma entry_kept_None (path : string) (o o' : OS) :
  entry_kept path o o' -> files o !! path = None -> files o' !! path = None.
Proof. intros [more ->] ->. reflexivity. Qed.

(** The logging registry is kept. *)
Definition registry_kept {G} : relation (World G) :=
  fun w w' => loggers (os w') = loggers (os w).

(** The two output files after a run, against the state before it. *)
Inductive outputs (dataset : list (Q * Q)) (o o' : OS) : Prop :=
| outputs_untouched :
    entry_kept output_path o o' -> entry_kept fig_filepath o o' -> outputs dataset o o'
| outputs_chart_only :
    entry_kept output_path o o' ->
    files o' !! fig_filepath = Some {| locked := false; content := chart_of dataset |} ->
    outputs dataset o o'
| outputs_both :
    files o' !! output_path = Some {| locked := false; content := table_of dataset |} ->
    files o' !! fig_filepath = Some {| locked := false; content := chart_of dataset |} ->
    outputs dataset o o'.

(** The only logger registered is the one a construction for [name]
    configured, and its log file [filename] is a text file. *)
Definition sole_logger (name filename : string) (o : OS) : Prop :=
  loggers o =
    {[ name := {| level := INFO; handlers := [file_handler filename; console_handler] |} ]} /\
  exists lk lines, files o !! filename = Some {| locked := lk; content := Text lines |}.

(** What went to the console also went to the log file, and nothing else did. *)
Definition mirrored {G} (name filename : string) : relation (World G) :=
  fun w w' =>
    sole_logger name filename (os w) ->
    sole_logger name filename (os w') /\
    exists lines,
      stderr (os w') = stderr (os w) ++ lines /\
      files (os w') !! filename = appended lines <$> files (os w) !! filename.

(** ** Timestamps

    The clock reading of a construction is a [datetime] formatted by
    [strftime]; [now] above is its result. *)

(** [datetime.now()], down to the second. *)
Record datetime := {
  year : nat; month : nat; day : nat; hour : nat; minute : nat; second : nat
}.

(** The decimal digit [n] as a character. *)
Definition digit (n : nat) : ascii := ascii_of_nat (48 + n).

(** [%m], [%d], [%H], [%M], [%S]: two digits, zero-padded. *)
Definition two_digits (n : nat) : string :=
  String (digit (n / 10)) (String (digit (n mod 10)) EmptyString).

(** [%Y] for a year of four digits. *)
Definition four_digits (n : nat) : string := two_digits (n / 100) +:+ two_digits (n mod 100).

(** [t.strftime("%Y-%m-%d-%H-%M-%S")]. *)
Definition strftime (t : datetime) : string :=
  four_digits (year t) +:+ "-" +:+ two_digits (month t) +:+ "-" +:+ two_digits (day t) +:+ "-" +:+
  two_digits (hour t) +:+ "-" +:+ two_digits (minute t) +:+ "-" +:+ two_digits (second t).

(** The field ranges of a [datetime] whose year has four digits. *)
Definition datetime_valid (t : datetime) : Prop :=
  10 * 100 <= year t < 100 * 100 /\ 1 <= month t <= 12 /\ 1 <= day t <= 31 /\
  hour t <= 23 /\ minute t <= 59 /\ second t <= 59.

Definition fields (t : datetime) : list nat :=
  [year t; month t; day t; hour t; minute t; second t].

Fixpoint lex_compare (l1 l2 : list nat) : comparison :=
  match l1, l2 with
  | [], [] => Eq
  | [], _ :: _ => Lt
  | _ :: _, [] => Gt
  | x :: l1', y :: l2' =>
      match Nat.compare x y with
      | Eq => lex_compare l1' l2'
      | c => c
      end
  end.

(** [t1 <= t2] on [datetime]: year first, then month, day, hour, minute,
    second. *)
Definition datetime_le (t1 t2 : datetime) : Prop :=
  lex_compare (fields t1) (fields t2) ≠ Gt.

(** ** Instances to run the model on *)

(** A matcher for patterns whose only special character is [*] (any run of
    characters other than the path separator). *)
Fixpoint star_match (pattern name : string) : bool :=
  match pattern with
  | EmptyString => if decide (name = "") then true else false
  | String c pattern' =>
      if decide (c = "*"%char) then
        (fix skip (name : string) : bool :=
           star_match pattern' name
           || match name with
              | EmptyString => false
              | String d name' => if decide (d = "/"%char) then false else skip name'
              end) name
      else
        match name with
        | EmptyString => false
        | String d name' => if decide (c = d) then star_match pattern' name' else false
        end
  end.

Definition star_glob : Glob := star_match.

(** A counter as random state; its standard normal variates lie in
    [-2, 2]. *)
Definition counter_sample (n : nat) : Q * nat := (Z.of_nat (n mod 8) # 8, S n).

Definition counter_exponential (n : nat) : Q * nat := (Z.of_nat (n mod 7) # 50, S n).

Definition counter_normal (n : nat) : Q * nat := ((Z.of_nat (n mod 5) - 2)%Z # 1, S n).

Lemma counter_sample_range (n : nat) :
  (0 <= fst (counter_sample n))%Q /\ (fst (counter_sample n) < 1)%Q.
Proof.
  pose proof (Nat.mod_upper_bound n 8 ltac:(lia)) as Hlt.
  unfold counter_sample, Qle, Qlt; simpl. lia.
Qed.

Lemma counter_exponential_range (n : nat) : (0 <= fst (counter_exponential n))%Q.
Proof. unfold counter_exponential, Qle; simpl. lia. Qed.

Lemma counter_normal_range (n : nat) :
  (-13 <= fst (counter_normal n))%Q /\ (fst (counter_normal n) <= 13)%Q.
Proof.
  pose proof (Nat.mod_upper_bound n 5 ltac:(lia)) as Hlt.
  unfold counter_normal, Qle; simpl. lia.
Qed.

#[global] Instance counter_rng : RandomState nat := {|
  seed := Z.to_nat;
  random_sample := counter_sample;
  standard_exponential := counter_exponential;
  standard_normal := counter_normal;
  random_sample_range := counter_sample_range;
  standard_exponential_range := counter_exponential_range;
  standard_normal_range := counter_normal_range
|}.

Definition empty_os : OS :=
  {| dirs := ∅; files := ∅; stdout := []; stderr := []; loggers := ∅;
     now := "2024-01-01-00-00-00"; asctime := "2024-01-01 00:00:00,000";
     abspath := String.append "/srv/" |}.

(** A fresh process: nothing on disk, no pending fault. *)
Definition world0 (g : nat) : World nat :=
  {| os := empty_os; rng := g;
     pyplot := {| points := []; xlabel := ""; ylabel := ""; title := "" |};
     faults := [] |}.

Definition the_log : LoggerManager.t := {| LoggerManager.logger := SCRIPT_NAME |}.

(** The environment after [log = create_logger(SCRIPT_NAME)] in a fresh
    process, and a run state on it with given faults to come. *)
Definition logged_os : OS := (@create_logger star_glob SCRIPT_NAME empty_os).2.

Definition world1 (g : nat) (fs : list (option Exception)) : World nat :=
  {| os := logged_os; rng := g;
     pyplot := {| points := []; xlabel := ""; ylabel := ""; title := "" |};
     faults := fs |}.

Definition out_of_memory : Exception := {| exc_type := MemoryError; exc_str := "out of memory" |}.

(** What a run returned ([default] when it raised). *)
Definition returned {A} (r : result A) (default : A) : A :=
  match r with
  | Return a => a
  | Raise _ => default
  end.

Definition no_frame : DataFrame := {| Price := []; Quantity := [] |}.

(** The generator in a fresh process, from random state 0. *)
Definition run0 : result DataFrame * World nat := generate_synthetic_data the_log (world0 0).

Definition frame0 : DataFrame := returned run0.1 no_frame.

(** A log directory holding three logs of the component [app] (the oldest
    one locked or not), a log of another component and a file that is no
    log; the clock reads the 4th of January. *)
Definition log_dir_os (oldest_locked : bool) : OS :=
  {| dirs := {[ "logs" ]};
     files :=
       list_to_map
         [("logs/app-2024-01-01-00-00-00.log", {| locked := oldest_locked; content := Text ["a"] |});
          ("logs/app-2024-01-02-00-00-00.log", {| locked := false; content := Text ["b"] |});
          ("logs/app-2024-01-03-00-00-00.log", {| locked := false; content := Text ["c"] |});
          ("logs/web-2024-01-01-00-00-00.log", {| locked := false; content := Text ["d"] |});
          ("logs/notes.txt", {| locked := false; content := Text ["e"] |})];
     stdout := []; stderr := []; loggers := ∅;
     now := "2024-01-04-00-00-00"; asctime := "2024-01-04 00:00:00,000";
     abspath := String.append "/srv/" |}.

Definition oldest_log : string := "logs/app-2024-01-01-00-00-00.log".

(** Five constructions, one second apart. *)
Definition five_stamps : list string :=
  ["2024-01-04-00-00-00"; "2024-01-04-00-00-01"; "2024-01-04-00-00-02";
   "2024-01-04-00-00-03"; "2024-01-04-00-00-04"].

(** A log directory that already holds logs named for the last two of these
    timestamps. *)
Definition future_os : OS :=
  {| dirs := {[ "logs" ]};
     files :=
       list_to_map
         [("logs/app-2024-01-04-00-00-03.log", {| locked := false; content := Text ["x"] |});
          ("logs/app-2024-01-04-00-00-04.log", {| locked := false; content := Text ["y"] |})];
     stdout := []; stderr := []; loggers := ∅;
     now := "2024-01-03-00-00-00"; asctime := "2024-01-03 00:00:00,000";
     abspath := String.append "/srv/" |}.

(** A log directory that holds three logs of the component [app-web] and
    none of [app]. *)
Definition web_dir_os : OS :=
  {| dirs := {[ "logs" ]};
     files :=
       list_to_map
         [("logs/app-web-2024-01-01-00-00-00.log", {| locked := false; content := Text ["a"] |});
          ("logs/app-web-2024-01-02-00-00-00.log", {| locked := false; content := Text ["b"] |});
          ("logs/app-web-2024-01-03-00-00-00.log", {| locked := false; content := Text ["c"] |})];
     stdout := []; stderr := []; loggers := ∅;
     now := "2024-01-04-00-00-00"; asctime := "2024-01-04 00:00:00,000";
     abspath := String.append "/srv/" |}.

(** A directory [lib] that holds three files named like logs of [app]. *)
Definition lib_os : OS :=
  {| dirs := {[ "lib" ]};
     files :=
       list_to_map
         [("lib/app-2024-01-01-00-00-00.log", {| locked := false; content := Text ["a"] |});
          ("lib/app-2024-01-02-00-00-00.log", {| locked := false; content := Text ["b"] |});
          ("lib/app-2024-01-03-00-00-00.log", {| locked := false; content := Text ["c"] |})];
     stdout := []; stderr := []; loggers := ∅;
     now := "2024-01-04-00-00-00"; asctime := "2024-01-04 00:00:00,000";
     abspath := String.append "/srv/" |}.

(** *** Further fixtures *)

Definition app_log : LoggerManager.t := {| LoggerManager.logger := "app" |}.

(** A frame of two rows. *)
Definition small_frame : DataFrame := {| Price := [6; 7]; Quantity := [970; 965] |}%Q.

(** The environment of [logged_os] with a file where the directory
    [data/raw], or [artifacts/charts], is to be made. *)
Definition blocked_os (path : string) : OS := (write_file path (Text []) logged_os).2.

(** The run state once [create_output_directories] has made both
    directories. *)
Definition made_world : World nat := (create_output_directories the_log (world1 0 [])).2.

(** One construction for [app] in the log directory, [max_log_files = 3]. *)
Definition init_app : result LoggerManager.t * OS :=
  @LoggerManager.__init__ star_glob "app" 3 "logs" (log_dir_os false).

(** * Properties *)

(** ** The monad *)

Lemma bind_Return_inv {S A B} (m : M S A) (k : A -> M S B) s b s' :
  bind m k s = (Return b, s') ->
  exists a s1, m s = (Return a, s1) /\ k a s1 = (Return b, s').
Proof.
  unfold bind. destruct (m s) as [[a|e] s1]; [eauto|discriminate].
Qed.

Lemma bind_Return {S A B} (m : M S A) (k : A -> M S B) s a s1 :
  m s = (Return a, s1) -> bind m k s = k a s1.
Proof. unfold bind. intros ->. reflexivity. Qed.

Lemma bind_Raise {S A B} (m : M S A) (k : A -> M S B) s e s1 :
  m s = (Raise e, s1) -> bind m k s = (Raise e, s1).
Proof. unfold bind. intros ->. reflexivity. Qed.


(** ** What a log record does to the console *)

Lemma Handler_emit_stderr (line : string) (lvl : Z) (hs : list Handler) (o : OS) :
  stderr (foldl (Handler_emit line lvl) o hs) =
  stderr o ++ replicate (length (console_handlers lvl hs)) line.
Proof.
  revert o. induction hs as [|h hs IH]; intros o; [by rewrite app_nil_r|].
  cbn [foldl]. rewrite IH. unfold console_handlers. rewrite filter_cons.
  unfold Handler_emit. destruct h as [[path|] hl]; cbn [target handler_level].
  - rewrite (decide_False (P := FileSink path = StreamSink /\ _))
      by (intros [Hx _]; discriminate).
    destruct (decide (hl <= lvl)%Z); [|done]. destruct (files o !! path) as [[? []]|]; done.
  - destruct (decide (hl <= lvl)%Z) as [Hle|Hgt].
    + rewrite (decide_True (P := StreamSink = StreamSink /\ _)) by done.
      cbn. by rewrite <- app_assoc.
    + rewrite (decide_False (P := StreamSink = StreamSink /\ _)) by (intros [_ ?]; done).
      done.
Qed.

Lemma Logger_log_stderr (name : string) (lvl : Z) (message : string) (o : OS) (lg : Logger) :
  loggers o !! name = Some lg ->
  (level lg <= lvl)%Z ->
  stderr (Logger_log name lvl message o).2 =
  stderr o ++ replicate (length (console_handlers lvl (handlers lg))) (format (asctime o) lvl message).
Proof.
  intros Hlg Hlvl. unfold Logger_log. rewrite Hlg, decide_True by done. cbn [snd].
  apply Handler_emit_stderr.
Qed.

Section ScriptFacts.

Context `{RandomState G}.
Variable log : LoggerManager.t.

Lemma Logger_log_Return name lvl message (o : OS) :
  fst (Logger_log name lvl message o) = Return tt.
Proof.
  unfold Logger_log. destruct (loggers o !! name); [|reflexivity].
  destruct (decide _); reflexivity.
Qed.

Lemma in_os_log name lvl message (w : World G) :
  in_os (Logger_log name lvl message) w =
  (Return tt, set_os (snd (Logger_log name lvl message (os w))) w).
Proof.
  unfold in_os. pose proof (Logger_log_Return name lvl message (os w)) as Hr.
  destruct (Logger_log name lvl message (os w)) as [r o]. simpl in *. by subst.
Qed.

Lemma log_info_eq message (w : World G) :
  log_info log message w =
  (Return tt, set_os (snd (Logger_log (LoggerManager.logger log) INFO message (os w))) w).
Proof. apply in_os_log. Qed.

Lemma call_Return_inv {A} (r : result A) (w w' : World G) a :
  call r w = (Return a, w') -> r = Return a /\ rng w' = rng w.
Proof.
  unfold call, external.
  destruct (head (faults w)) as [[e|]|]; intros Heq; simplify_eq; done.
Qed.

Lemma draw_Return_inv {A} (f : G -> A * G) (w w' : World G) a :
  draw f w = (Return a, w') -> f (rng w) = (a, rng w').
Proof.
  unfold draw, external.
  destruct (head (faults w)) as [[e|]|]; simpl; destruct (f (rng w)); intros Heq; simplify_eq; done.
Qed.

Lemma log_info_Return_inv message (w w' : World G) u :
  log_info log message w = (Return u, w') -> rng w' = rng w.
Proof. rewrite log_info_eq. intros Heq; simplify_eq. done. Qed.

End ScriptFacts.

(** ** Arrays and frames *)

Lemma sample_length {G} (draw : G -> Q * G) size g : length (fst (sample draw size g)) = size.
Proof.
  revert g. induction size as [|n IH]; intros g; simpl; [reflexivity|].
  destruct (draw g) as [x g1]. specialize (IH g1).
  destruct (sample draw n g1) as [xs g2]. simpl in *. by rewrite IH.
Qed.

Lemma sort_length (a : ndarray) : length (sort a) = length a.
Proof. unfold sort. by rewrite merge_sort_Permutation. Qed.

Lemma maximum_spec_clip (q : Q) : maximum q 0 = spec_clip q.
Proof.
  unfold maximum, spec_clip.
  destruct (Qle_bool 0 q) eqn:Hle; destruct (decide (q < 0)%Q) as [Hlt|Hge]; try reflexivity.
  - apply Qle_bool_iff in Hle. exfalso. lra.
  - exfalso. apply Hge. destruct (Qlt_le_dec q 0) as [?|Hq]; [done|].
    apply Qle_bool_iff in Hq. congruence.
Qed.

Lemma zip_base_rows (xs zs : ndarray) :
  zip xs (clip (zip_with Qplus (scalar_sub 1000 (scalar_mul 5 xs)) zs) 0) =
  zip_with (fun p z => (p, spec_clip (1000 - 5 * p + z)%Q)) xs zs.
Proof.
  revert zs. induction xs as [|x xs IH]; intros [|z zs]; simpl; try reflexivity.
  rewrite maximum_spec_clip. f_equal. apply IH.
Qed.

Lemma zip_outliers (c : Q) (ps zs : ndarray) :
  zip ps (scalar_add c zs) = zip_with (fun p z => (p, (c + z)%Q)) ps zs.
Proof.
  revert zs. induction ps as [|p ps IH]; intros [|z zs]; simpl; try reflexivity.
  f_equal. apply IH.
Qed.

Lemma zip_compress (c : Q) (ps ys : ndarray) :
  zip (compress (ge_mask ps c) ps) (compress (ge_mask ps c) ys) =
  filter (fun r => (c <= fst r)%Q) (zip ps ys).
Proof.
  revert ys. induction ps as [|p ps IH]; intros [|y ys]; simpl; try reflexivity.
  - destruct (Qle_bool c p); simpl; by rewrite ?zip_with_nil_r.
  - rewrite filter_cons. simpl. destruct (Qle_bool c p) eqn:Hle.
    + apply Qle_bool_iff in Hle. rewrite decide_True by done. simpl. f_equal. apply IH.
    + rewrite decide_False; [apply IH|]. intros Hc. apply Qle_bool_iff in Hc. congruence.
Qed.

Lemma fst_zip_compress (mask : list bool) (ps ys : ndarray) :
  length ps = length ys ->
  (zip (compress mask ps) (compress mask ys)).*1 = compress mask ps /\
  (zip (compress mask ps) (compress mask ys)).*2 = compress mask ys.
Proof.
  revert ps ys. induction mask as [|b mask IH]; intros [|p ps] [|y ys] Hlen; simpl in *;
    try done.
  destruct (IH ps ys ltac:(lia)) as [H1 H2].
  destruct b; [|done]. cbn. split; f_equal; assumption.
Qed.

(** ** What a returning run of the generator computes *)

Ltac bind_inv H :=
  let a := fresh "a" in
  let s := fresh "w" in
  let Hs := fresh "Hs" in
  apply bind_Return_inv in H as (a & s & Hs & H); cbv beta zeta in H;
  first [ apply log_info_Return_inv in Hs
        | apply draw_Return_inv in Hs
        | apply call_Return_inv in Hs as [Hs ?] ].

Lemma sample_length_eq {G} (draw : G -> Q * G) size g a g' :
  sample draw size g = (a, g') -> length a = size.
Proof. intros Heq. pose proof (sample_length draw size g) as Hl. by rewrite Heq in Hl. Qed.

Section GenerateFacts.

Context `{RandomState G}.
Variable log : LoggerManager.t.

Lemma generate_try_Return_inv (w w' : World G) (df : DataFrame) :
  generate_synthetic_data_try log w = (Return df, w') ->
  rows df = spec_dataset (fst (draws_of (rng w))) /\
  Price df = (rows df).*1 /\ Quantity df = (rows df).*2 /\
  rng w' = snd (draws_of (rng w)).
Proof.
  intros Hrun. unfold generate_synthetic_data_try in Hrun.
  repeat bind_inv Hrun. unfold ret in Hrun. simplify_eq.
  repeat match goal with Hx : rng _ = rng _ |- _ => rewrite Hx in *; clear Hx end.
  match goal with Hx : exponential _ _ _ = (?a, _) |- _ =>
    pose proof (sample_length_eq _ _ _ _ _ Hx) as Hbp; rename a into bp, Hx into Ebp end.
  match goal with Hx : normal _ _ 100 _ = (?a, _) |- _ =>
    pose proof (sample_length_eq _ _ _ _ _ Hx) as Hbn; rename a into bn, Hx into Ebn end.
  match goal with Hx : uniform 5 _ _ _ = (?a, _) |- _ =>
    pose proof (sample_length_eq _ _ _ _ _ Hx) as Hlp; rename a into lp, Hx into Elp end.
  match goal with Hx : normal _ _ 10 _ = (?a, rng ?v), Hy : uniform 51 _ _ (rng ?v) = _ |- _ =>
    pose proof (sample_length_eq _ _ _ _ _ Hx) as Hln; rename a into ln, Hx into Eln end.
  match goal with Hx : uniform 51 _ _ _ = (?a, _) |- _ =>
    pose proof (sample_length_eq _ _ _ _ _ Hx) as Hhp; rename a into hp, Hx into Ehp end.
  match goal with Hx : normal _ _ 10 (rng ?v) = (?a, _), Hy : uniform 51 _ _ _ = (_, rng ?v) |- _ =>
    pose proof (sample_length_eq _ _ _ _ _ Hx) as Hhn; rename a into hn, Hx into Ehn end.
  unfold draws_of. rewrite Ebp, Ebn, Elp, Eln, Ehp, Ehn. cbn [fst snd].
  match goal with Hx : add _ _ = Return _ |- _ =>
    unfold add in Hx; rewrite decide_True in Hx
      by (unfold scalar_sub, scalar_mul; rewrite !length_map, sort_length; lia);
    injection Hx as <- end.
  match goal with Hx : pd_DataFrame _ _ = Return _ |- _ =>
    unfold pd_DataFrame in Hx; destruct (decide _) as [Hlen|]; [injection Hx as <-|discriminate] end.
  match goal with Hx : getitem_mask _ _ = Return _ |- _ =>
    unfold getitem_mask in Hx; destruct (decide _); [injection Hx as <-|discriminate] end.
  cbn [Price Quantity] in *. unfold rows. cbn [Price Quantity].
  destruct (fst_zip_compress (ge_mask (concatenate (concatenate (sort bp) lp) hp) 5) _ _ Hlen)
    as [Hfst Hsnd].
  split; [|by split_and!].
  rewrite zip_compress. unfold spec_dataset, spec_concatenated, concatenate. f_equal.
  rewrite <- !app_assoc.
  rewrite zip_with_app
    by (unfold clip, scalar_sub, scalar_mul;
        rewrite length_map, length_zip_with, !length_map, sort_length; lia).
  rewrite zip_with_app by (unfold scalar_add; rewrite length_map; lia).
  by rewrite zip_base_rows, !zip_outliers.
Qed.

Lemma external_no_fault {A} (m : M (World G) A) (w : World G) :
  faults w = [] -> external m w = m w.
Proof. destruct w as [o g p f]; simpl; intros ->. reflexivity. Qed.

Lemma call_no_fault {A} (r : result A) (w : World G) : faults w = [] -> call r w = (r, w).
Proof. intros Hf. unfold call. by rewrite external_no_fault. Qed.

Lemma draw_no_fault {A} (f : G -> A * G) (w : World G) :
  faults w = [] -> draw f w = (Return (f (rng w)).1, set_rng (f (rng w)).2 w).
Proof. intros Hf. unfold draw. rewrite external_no_fault by done. by destruct (f (rng w)). Qed.

Lemma add_same_length (a b : ndarray) :
  length a = length b -> add a b = Return (zip_with Qplus a b).
Proof. intros Hl. unfold add. by rewrite decide_True. Qed.

Ltac no_fault := simpl; assumption.

Ltac run_step :=
  erewrite bind_Return;
  [ | first [ apply log_info_eq
            | apply draw_no_fault; no_fault
            | apply call_no_fault; no_fault ] ];
  cbv beta zeta.

Ltac lengths :=
  unfold concatenate, clip, scalar_add, scalar_sub, scalar_mul, ge_mask, exponential, normal,
    uniform;
  repeat first [ rewrite length_app | rewrite length_map | rewrite length_zip_with
               | rewrite sort_length | rewrite sample_length ];
  try lia.

Lemma generate_try_no_fault (w : World G) :
  faults w = [] -> exists df w', generate_synthetic_data_try log w = (Return df, w').
Proof.
  intros Hf. unfold generate_synthetic_data_try.
  do 6 run_step.
  rewrite add_same_length by lengths.
  do 12 run_step.
  unfold pd_DataFrame. rewrite decide_True by lengths.
  do 2 run_step.
  unfold getitem_mask. rewrite decide_True by (cbn [Price]; lengths).
  do 2 run_step.
  unfold ret. eauto.
Qed.

End GenerateFacts.

Section GeneratorTheorems.

Context `{RandomState G}.
Variable log : LoggerManager.t.

Lemma log_error_eq message (w : World G) :
  log_error log message w =
  (Return tt, set_os (snd (Logger_log (LoggerManager.logger log) ERROR message (os w))) w).
Proof. apply in_os_log. Qed.

Lemma log_critical_eq message (w : World G) :
  log_critical log message w =
  (Return tt, set_os (snd (Logger_log (LoggerManager.logger log) CRITICAL message (os w))) w).
Proof. apply in_os_log. Qed.

(** A handler of the shape [log.error(...); raise]. *)
Lemma log_and_reraise {A} (body : M (World G) A) message (w : World G) :
  try_except body isinstance_Exception (fun e => log_error log (message e) ;; raise e) w =
  match body w with
  | (Return a, w1) => (Return a, w1)
  | (Raise e, w1) =>
      (Raise e, set_os (snd (Logger_log (LoggerManager.logger log) ERROR (message e) (os w1))) w1)
  end.
Proof.
  unfold try_except. destruct (body w) as [[a|e] w1]; [reflexivity|].
  simpl. by rewrite (bind_Return _ _ _ _ _ (log_error_eq _ _)).
Qed.

Lemma generate_Return_inv (w w' : World G) (df : DataFrame) :
  generate_synthetic_data log w = (Return df, w') ->
  generate_synthetic_data_try log w = (Return df, w').
Proof.
  unfold generate_synthetic_data. rewrite log_and_reraise.
  destruct (generate_synthetic_data_try log w) as [[a|e] w1]; [done|discriminate].
Qed.

Lemma sample_Forall (P : Q -> Prop) (draw : G -> Q * G) size g :
  (forall g, P (draw g).1) -> Forall P (sample draw size g).1.
Proof.
  intros Hd. revert g. induction size as [|n IH]; intros g; simpl; [constructor|].
  pose proof (Hd g) as Hx. destruct (draw g) as [x g1]. specialize (IH g1).
  destruct (sample draw n g1) as [xs g2]. constructor; assumption.
Qed.

Lemma uniform_range (low high : Q) size g :
  (low < high)%Q -> Forall (fun x => (low <= x)%Q /\ (x < high)%Q) (uniform low high size g).1.
Proof.
  intros Hlh. apply (sample_Forall (fun x => (low <= x)%Q /\ (x < high)%Q)). intros g0.
  destruct (random_sample_range g0) as [H0 H1].
  destruct (random_sample g0) as [u g1]. simpl in *. split; nra.
Qed.

Lemma exponential_nonneg (scale : Q) size g :
  (0 <= scale)%Q -> Forall (fun x => (0 <= x)%Q) (exponential scale size g).1.
Proof.
  intros Hs. apply sample_Forall. intros g0.
  pose proof (standard_exponential_range g0) as H0.
  destruct (standard_exponential g0) as [e g1]. simpl in *. nra.
Qed.

Lemma normal_range (loc scale : Q) size g :
  (0 <= scale)%Q ->
  Forall (fun x => (loc - 13 * scale <= x)%Q /\ (x <= loc + 13 * scale)%Q)
    (normal loc scale size g).1.
Proof.
  intros Hs.
  apply (sample_Forall (fun x => (loc - 13 * scale <= x)%Q /\ (x <= loc + 13 * scale)%Q)).
  intros g0. destruct (standard_normal_range g0) as [H0 H1].
  destruct (standard_normal g0) as [z g1]. simpl in *. split; nra.
Qed.

End GeneratorTheorems.

(** ** The draws and the rows built from them *)

Lemma filter_all {A} (P : A -> Prop) `{forall x, Decision (P x)} (l : list A) :
  Forall P l -> filter P l = l.
Proof.
  induction 1 as [|x l Hx _ IH]; [reflexivity|]. by rewrite filter_cons_True, IH.
Qed.

Lemma filter_zip_with_fst_length {A} (P : Q -> Prop) `{forall x, Decision (P x)}
    (f : Q -> A -> Q) (ps : list Q) (zs : list A) :
  length ps = length zs ->
  length (filter (fun r : Q * Q => P r.1) (zip_with (fun p z => (p, f p z)) ps zs)) =
  length (filter P ps).
Proof.
  revert zs. induction ps as [|p ps IH]; intros [|z zs] Hlen; simpl in *; try done.
  rewrite !filter_cons. simpl. destruct (decide (P p)); simpl; rewrite IH by lia; done.
Qed.

Section DrawsFacts.

Context `{RandomState G}.

Lemma draws_of_sizes (g : G) :
  let d := (draws_of g).1 in
  length (base_price d) = 100 /\ length (base_noise d) = 100 /\
  length (low_price d) = 10 /\ length (low_noise d) = 10 /\
  length (high_price d) = 10 /\ length (high_noise d) = 10.
Proof.
  unfold draws_of.
  destruct (exponential 100 100 g) as [bp g1] eqn:E1.
  destruct (normal 0 50 100 g1) as [bn g2] eqn:E2.
  destruct (uniform 5 50 10 g2) as [lp g3] eqn:E3.
  destruct (normal 0 50 10 g3) as [ln g4] eqn:E4.
  destruct (uniform 51 100 10 g4) as [hp g5] eqn:E5.
  destruct (normal 0 50 10 g5) as [hn g6] eqn:E6.
  cbn. repeat split;
    match goal with E : _ = (?a, _) |- length ?a = _ => exact (sample_length_eq _ _ _ _ _ E) end.
Qed.

Lemma draws_of_base_price (g : G) : base_price (draws_of g).1 = (exponential 100 100 g).1.
Proof.
  unfold draws_of.
  destruct (exponential 100 100 g) as [bp g1].
  destruct (normal 0 50 100 g1) as [bn g2].
  destruct (uniform 5 50 10 g2) as [lp g3].
  destruct (normal 0 50 10 g3) as [ln g4].
  destruct (uniform 51 100 10 g4) as [hp g5].
  destruct (normal 0 50 10 g5) as [hn g6]. reflexivity.
Qed.

Lemma draws_of_outlier_prices (g : G) :
  Forall (fun p => (5 <= p)%Q /\ (p < 50)%Q) (low_price (draws_of g).1) /\
  Forall (fun p => (51 <= p)%Q /\ (p < 100)%Q) (high_price (draws_of g).1).
Proof.
  unfold draws_of.
  destruct (exponential 100 100 g) as [bp g1].
  destruct (normal 0 50 100 g1) as [bn g2].
  pose proof (uniform_range 5 50 10 g2 ltac:(lra)) as Hlow.
  destruct (uniform 5 50 10 g2) as [lp g3].
  destruct (normal 0 50 10 g3) as [ln g4].
  pose proof (uniform_range 51 100 10 g4 ltac:(lra)) as Hhigh.
  destruct (uniform 51 100 10 g4) as [hp g5].
  destruct (normal 0 50 10 g5) as [hn g6]. done.
Qed.

Lemma draws_of_noise (g : G) :
  let d := (draws_of g).1 in
  Forall (fun z => (-650 <= z)%Q /\ (z <= 650)%Q)
    (base_noise d ++ low_noise d ++ high_noise d).
Proof.
  unfold draws_of.
  destruct (exponential 100 100 g) as [bp g1].
  pose proof (normal_range 0 50 100 g1 ltac:(lra)) as Hbase.
  destruct (normal 0 50 100 g1) as [bn g2].
  destruct (uniform 5 50 10 g2) as [lp g3].
  pose proof (normal_range 0 50 10 g3 ltac:(lra)) as Hlow.
  destruct (normal 0 50 10 g3) as [ln g4].
  destruct (uniform 51 100 10 g4) as [hp g5].
  pose proof (normal_range 0 50 10 g5 ltac:(lra)) as Hhigh.
  destruct (normal 0 50 10 g5) as [hn g6]. cbn in *.
  rewrite !Forall_app. split_and!;
    (eapply Forall_impl; [eassumption|]; intros z [? ?]; split; lra).
Qed.

Lemma spec_base_rows_clipped (d : Draws) : Forall (fun r => (0 <= r.2)%Q) (spec_base_rows d).
Proof.
  unfold spec_base_rows. generalize (sort (base_price d)) as ps. generalize (base_noise d) as zs.
  intros zs ps. revert zs. induction ps as [|p ps IH]; intros [|z zs]; simpl; try constructor.
  - unfold spec_clip. destruct (decide _) as [|Hn]; simpl; [lra|].
    destruct (Qlt_le_dec (1000 - 5 * p + z) 0); [done|lra].
  - apply IH.
Qed.

Lemma spec_base_rows_prices (d : Draws) :
  length (base_price d) = length (base_noise d) ->
  (spec_base_rows d).*1 = sort (base_price d).
Proof.
  intros Hl. unfold spec_base_rows. rewrite <- sort_length in Hl. revert Hl.
  generalize (sort (base_price d)) as ps. generalize (base_noise d) as zs.
  intros zs ps. revert zs. induction ps as [|p ps IH]; intros [|z zs] Hl; simpl in *; try done.
  cbn. f_equal. apply IH. lia.
Qed.

End DrawsFacts.

Section GeneratorProperties.

Context `{RandomState G}.

Lemma generate_returns log (w : World G) :
  faults w = [] -> exists df w', generate_synthetic_data log w = (Return df, w').
Proof.
  intros Hf. destruct (generate_try_no_fault log w Hf) as (df & w' & Hrun).
  exists df, w'. unfold generate_synthetic_data. by rewrite log_and_reraise, Hrun.
Qed.

Lemma generate_Return_spec log (w w' : World G) (df : DataFrame) :
  generate_synthetic_data log w = (Return df, w') ->
  rows df = spec_dataset (draws_of (rng w)).1 /\
  Price df = (rows df).*1 /\ Quantity df = (rows df).*2 /\
  rng w' = (draws_of (rng w)).2.
Proof. intros Hrun. by apply (generate_try_Return_inv log), generate_Return_inv. Qed.

(** C1. Every row of a dataset that [generate_synthetic_data] returns has
    Price >= 5, whatever was drawn. *)
Theorem generate_price_at_least_5 log (w w' : World G) (df : DataFrame) :
  generate_synthetic_data log w = (Return df, w') ->
  Forall (fun p => (5 <= p)%Q) (Price df).
Proof.
  intros Hrun. destruct (generate_Return_spec _ _ _ _ Hrun) as (Hrows & -> & _ & _).
  rewrite Hrows. apply Forall_fmap, Forall_forall. intros r Hr.
  apply list_elem_of_filter in Hr as [Hr _]. exact Hr.
Qed.

(** C2. Every row of a dataset that [generate_synthetic_data] returns has
    Quantity >= 0, the 20 outlier rows included, whatever is drawn. The rows
    kept from the 100 base rows come first, and their quantity is clipped at
    0. The outlier rows follow; they are not clipped, but a noise term is 50
    times a standard normal variate and so lies in [-650, 650], which leaves
    the quantities 1100 + noise and 900 + noise at 250 or more. *)
Theorem generate_quantity_nonnegative log (w w' : World G) (df : DataFrame) :
  generate_synthetic_data log w = (Return df, w') ->
  let d := (draws_of (rng w)).1 in
  let kept := filter (fun r : Q * Q => (5 <= r.1)%Q) in
  rows df = kept (spec_base_rows d) ++ kept (spec_low_outliers d ++ spec_high_outliers d) /\
  Forall (fun r => (0 <= r.2)%Q) (kept (spec_base_rows d)) /\
  Forall (fun z => (-650 <= z)%Q /\ (z <= 650)%Q)
    (base_noise d ++ low_noise d ++ high_noise d) /\
  Forall (fun r => (250 <= r.2)%Q) (spec_low_outliers d ++ spec_high_outliers d) /\
  Forall (fun q => (0 <= q)%Q) (Quantity df).
Proof.
  intros Hrun d kept. destruct (generate_Return_spec _ _ _ _ Hrun) as (Hrows & _ & Hq & _).
  fold d in Hrows. unfold spec_dataset, spec_concatenated in Hrows.
  rewrite filter_app in Hrows. fold kept in Hrows.
  assert (Forall (fun r : Q * Q => (0 <= r.2)%Q) (kept (spec_base_rows d))) as Hbase.
  { apply Forall_forall. intros r Hr. apply list_elem_of_filter in Hr as [_ Hr].
    revert r Hr. apply Forall_forall, spec_base_rows_clipped. }
  pose proof (draws_of_noise (rng w)) as Hnoise. fold d in Hnoise.
  assert (Forall (fun r : Q * Q => (250 <= r.2)%Q)
            (spec_low_outliers d ++ spec_high_outliers d)) as Hout.
  { rewrite !Forall_app in Hnoise. destruct Hnoise as (_ & Hlow & Hhigh).
    rewrite Forall_forall in Hlow, Hhigh. apply Forall_app. split; apply Forall_forall; intros r Hr.
    - unfold spec_low_outliers in Hr. apply elem_of_zip_with in Hr as (p & z & -> & _ & Hz).
      destruct (Hlow z Hz). simpl. lra.
    - unfold spec_high_outliers in Hr. apply elem_of_zip_with in Hr as (p & z & -> & _ & Hz).
      destruct (Hhigh z Hz). simpl. lra. }
  split_and!; [done..|].
  rewrite Hq, Hrows. apply Forall_fmap. apply Forall_app. split; [done|].
  apply Forall_forall. intros r Hr. apply list_elem_of_filter in Hr as [_ Hr].
  rewrite Forall_forall in Hout. specialize (Hout r Hr). simpl. lra.
Qed.

(** C3. A returned dataset has as many rows as there are base price draws
    that are >= 5, plus 20: the 10 low-price outlier prices lie in [5, 50)
    and the 10 mid/high-price outlier prices in [51, 100), so the filter
    keeps all 20 outlier rows. *)
Theorem generate_row_count log (w w' : World G) (df : DataFrame) :
  generate_synthetic_data log w = (Return df, w') ->
  let d := (draws_of (rng w)).1 in
  length (rows df) = length (filter (fun p => (5 <= p)%Q) (base_price d)) + 20 /\
  length (Price df) = length (rows df) /\ length (Quantity df) = length (rows df) /\
  length (base_price d) = 100 /\
  length (low_price d) = 10 /\
  Forall (fun p => (5 <= p)%Q /\ (p < 50)%Q) (low_price d) /\
  length (high_price d) = 10 /\
  Forall (fun p => (51 <= p)%Q /\ (p < 100)%Q) (high_price d) /\
  filter (fun r : Q * Q => (5 <= r.1)%Q) (spec_low_outliers d ++ spec_high_outliers d) =
  spec_low_outliers d ++ spec_high_outliers d.
Proof.
  intros Hrun d. destruct (generate_Return_spec _ _ _ _ Hrun) as (Hrows & Hprice & Hqty & _).
  fold d in Hrows.
  destruct (draws_of_sizes (rng w)) as (Hbp & Hbn & Hlp & Hln & Hhp & Hhn).
  fold d in Hbp, Hbn, Hlp, Hln, Hhp, Hhn.
  destruct (draws_of_outlier_prices (rng w)) as [Hlow Hhigh]. fold d in Hlow, Hhigh.
  assert (filter (fun r : Q * Q => (5 <= r.1)%Q) (spec_low_outliers d ++ spec_high_outliers d) =
          spec_low_outliers d ++ spec_high_outliers d) as Hall.
  { apply filter_all, Forall_app. split; apply Forall_forall; intros r Hr.
    - unfold spec_low_outliers in Hr. apply elem_of_zip_with in Hr as (p & z & -> & Hp & _).
      rewrite Forall_forall in Hlow. exact (proj1 (Hlow p Hp)).
    - unfold spec_high_outliers in Hr. apply elem_of_zip_with in Hr as (p & z & -> & Hp & _).
      rewrite Forall_forall in Hhigh. destruct (Hhigh p Hp) as [Hge _]. simpl. lra. }
  split_and!; try done; [|by rewrite Hprice, length_fmap|by rewrite Hqty, length_fmap].
  rewrite Hrows. unfold spec_dataset, spec_concatenated. rewrite filter_app, Hall, !length_app.
  unfold spec_base_rows.
  rewrite (filter_zip_with_fst_length (fun p => (5 <= p)%Q)) by (rewrite sort_length; lia).
  unfold sort at 1. rewrite merge_sort_Permutation.
  unfold spec_low_outliers, spec_high_outliers. rewrite !length_zip_with.
  rewrite Hlp, Hln, Hhp, Hhn. reflexivity.
Qed.

(** C4. [generate_synthetic_data] follows the algorithm. A run in which no
    library call fails returns a dataset, and a returned dataset is the one
    the algorithm describes. Its rows are the base rows, then the 10
    low-price outlier rows, then the 10 mid/high-price outlier rows,
    filtered by Price >= 5 after the concatenation. The base rows pair the
    100 exponential draws (scale 100), sorted ascending, with
    1000 - 5 * price + noise clipped at 0, the noise being the 100 draws of
    normal(0, 50) that follow. *)
Theorem generate_follows_algorithm log (w : World G) :
  let d := (draws_of (rng w)).1 in
  (faults w = [] -> exists df w', generate_synthetic_data log w = (Return df, w')) /\
  (forall df w',
     generate_synthetic_data log w = (Return df, w') ->
     rows df = filter (fun r : Q * Q => (5 <= r.1)%Q)
                 (spec_base_rows d ++ spec_low_outliers d ++ spec_high_outliers d) /\
     Price df = (rows df).*1 /\ Quantity df = (rows df).*2 /\
     base_price d = (exponential 100 100 (rng w)).1 /\
     Forall (fun p => (0 <= p)%Q) (base_price d) /\
     (spec_base_rows d).*1 = sort (base_price d) /\
     StronglySorted Qle (sort (base_price d)) /\ sort (base_price d) ≡ₚ base_price d /\
     length (spec_base_rows d) = 100 /\
     length (spec_low_outliers d) = 10 /\ length (spec_high_outliers d) = 10 /\
     rng w' = (draws_of (rng w)).2).
Proof.
  intros d. split; [apply generate_returns|].
  intros df w' Hrun. destruct (generate_Return_spec _ _ _ _ Hrun) as (Hrows & Hp & Hq & Hg).
  destruct (draws_of_sizes (rng w)) as (Hbp & Hbn & Hlp & Hln & Hhp & Hhn).
  fold d in Hrows, Hbp, Hbn, Hlp, Hln, Hhp, Hhn.
  split_and!; try done.
  - apply draws_of_base_price.
  - unfold d. rewrite draws_of_base_price. apply exponential_nonneg. lra.
  - apply spec_base_rows_prices. congruence.
  - apply (StronglySorted_merge_sort Qle).
  - apply merge_sort_Permutation.
  - unfold spec_base_rows. rewrite length_zip_with, sort_length. lia.
  - unfold spec_low_outliers. rewrite length_zip_with. lia.
  - unfold spec_high_outliers. rewrite length_zip_with. lia.
Qed.

(** C6. The dataset depends on the random state alone: two runs that start
    from the same random state and return, return the same Price and
    Quantity columns and leave the same random state, whatever else differs
    between them (files, log output, the logger used, faults still to
    come). In particular so do two runs right after [np.random.seed(1)]. *)
Theorem generate_deterministic log1 log2 (w1 w2 w1' w2' : World G) (df1 df2 : DataFrame) :
  rng w1 = rng w2 ->
  generate_synthetic_data log1 w1 = (Return df1, w1') ->
  generate_synthetic_data log2 w2 = (Return df2, w2') ->
  Price df1 = Price df2 /\ Quantity df1 = Quantity df2 /\ df1 = df2 /\ rng w1' = rng w2'.
Proof.
  intros Hrng Hrun1 Hrun2.
  destruct (generate_Return_spec _ _ _ _ Hrun1) as (Hrows1 & Hp1 & Hq1 & Hg1).
  destruct (generate_Return_spec _ _ _ _ Hrun2) as (Hrows2 & Hp2 & Hq2 & Hg2).
  rewrite Hrng in Hrows1, Hg1.
  assert (Price df1 = Price df2) as HP by congruence.
  assert (Quantity df1 = Quantity df2) as HQ by congruence.
  split_and!; [done|done| |congruence].
  destruct df1, df2; simpl in *; congruence.
Qed.

(** C7. An exception raised in the body of [generate_synthetic_data] is
    logged once at level ERROR with the message of the [except] clause, and
    the same exception leaves the function. Nothing else happens: the state
    is the one the body left, with the log record added (the random state
    and the faults to come are those the body left, the body is not run
    again). With the logger set up, each of its console handlers writes the
    ERROR line to standard error. *)
Theorem generate_logs_and_reraises log (w w1 : World G) (e : Exception) :
  generate_synthetic_data_try log w = (Raise e, w1) ->
  let message := tab +:+ "Error in generating synthetic data: " +:+ exc_str e in
  exists w',
    generate_synthetic_data log w = (Raise e, w') /\
    w' = set_os (Logger_log (LoggerManager.logger log) ERROR message (os w1)).2 w1 /\
    rng w' = rng w1 /\ faults w' = faults w1 /\
    (forall lg,
       loggers (os w1) !! LoggerManager.logger log = Some lg ->
       (level lg <= ERROR)%Z ->
       stderr (os w') =
       stderr (os w1) ++
       replicate (length (console_handlers ERROR (handlers lg)))
         (format (asctime (os w1)) ERROR message)).
Proof.
  intros Hbody message. eexists. split_and!; [|reflexivity|reflexivity|reflexivity|].
  - unfold generate_synthetic_data. by rewrite log_and_reraise, Hbody.
  - intros lg Hlg Hlvl. cbn [os set_os]. by apply Logger_log_stderr.
Qed.

Lemma main_unfold log (w : World G) :
  main log w =
  match main_try log w with
  | (Return u, w1) => (Return u, w1)
  | (Raise e, w1) =>
      (Return tt,
       set_os (Logger_log (LoggerManager.logger log) CRITICAL
                 ("Script execution failed: " +:+ exc_str e) (os w1)).2 w1)
  end.
Proof.
  unfold main, try_except. destruct (main_try log w) as [[u|e] w1]; [reflexivity|].
  simpl. apply log_critical_eq.
Qed.

Lemma main_never_raises log (w : World G) : (main log w).1 = Return tt.
Proof.
  rewrite main_unfold. destruct (main_try log w) as [[[]|e] w1]; reflexivity.
Qed.


(** C8. Whichever phase of the main block an exception leaves (directory
    setup, generation, visualization, save), the main block logs it at
    level CRITICAL and returns normally: nothing is raised further. With
    the logger set up, each of its console handlers writes the CRITICAL
    line to standard error. *)
Theorem main_catches_and_logs log (w w1 : World G) (e : Exception) :
  phase_raises log w e w1 ->
  let message := "Script execution failed: " +:+ exc_str e in
  exists w',
    main log w = (Return tt, w') /\
    w' = set_os (Logger_log (LoggerManager.logger log) CRITICAL message (os w1)).2 w1 /\
    (forall lg,
       loggers (os w1) !! LoggerManager.logger log = Some lg ->
       (level lg <= CRITICAL)%Z ->
       stderr (os w') =
       stderr (os w1) ++
       replicate (length (console_handlers CRITICAL (handlers lg)))
         (format (asctime (os w1)) CRITICAL message)).
Proof.
  intros Hphase message. eexists. split_and!; [|reflexivity|].
  - rewrite main_unfold. unfold main_try.
    destruct Hphase as [w2 H1 H2|w2 w3 H1 H2 H3|w2 w3 w4 df H1 H2 H3 H4
                       |w2 w3 w4 w5 df H1 H2 H3 H4 H5];
      rewrite (bind_Return _ _ _ _ _ H1).
    + by rewrite (bind_Raise _ _ _ _ _ H2).
    + rewrite (bind_Return _ _ _ _ _ H2). by rewrite (bind_Raise _ _ _ _ _ H3).
    + rewrite (bind_Return _ _ _ _ _ H2), (bind_Return _ _ _ _ _ H3).
      by rewrite (bind_Raise _ _ _ _ _ H4).
    + rewrite (bind_Return _ _ _ _ _ H2), (bind_Return _ _ _ _ _ H3),
        (bind_Return _ _ _ _ _ H4).
      by rewrite (bind_Raise _ _ _ _ _ H5).
  - intros lg Hlg Hlvl. cbn [os set_os]. by apply Logger_log_stderr.
Qed.

End GeneratorProperties.

(** ** The generator on concrete runs *)

(** A run from random state 0 in a fresh process: 56 of the 100 base prices
    are >= 5, and 76 rows are returned. *)
Lemma generate_price_at_least_5_witness :
  run0 = (Return frame0, run0.2) /\
  length (Price frame0) = 76 /\ Forall (fun p => (5 <= p)%Q) (Price frame0).
Proof.
  assert (run0 = (Return frame0, run0.2)) as Hrun by (vm_compute; reflexivity).
  split; [exact Hrun|]. split; [vm_compute; reflexivity|].
  exact (generate_price_at_least_5 the_log (world0 0) run0.2 frame0 Hrun).
Defined.

Lemma generate_quantity_nonnegative_witness :
  run0 = (Return frame0, run0.2) /\ Forall (fun q => (0 <= q)%Q) (Quantity frame0).
Proof.
  assert (run0 = (Return frame0, run0.2)) as Hrun by (vm_compute; reflexivity).
  split; [exact Hrun|].
  exact (proj2 (proj2 (proj2 (proj2
           (generate_quantity_nonnegative the_log (world0 0) run0.2 frame0 Hrun))))).
Defined.

Lemma generate_row_count_witness :
  run0 = (Return frame0, run0.2) /\ length (rows frame0) = 56 + 20.
Proof.
  assert (run0 = (Return frame0, run0.2)) as Hrun by (vm_compute; reflexivity).
  split; [exact Hrun|].
  destruct (generate_row_count the_log (world0 0) run0.2 frame0 Hrun) as [Hcount _].
  rewrite Hcount. vm_compute. reflexivity.
Defined.

Lemma generate_follows_algorithm_witness :
  run0 = (Return frame0, run0.2) /\
  rows frame0 = spec_dataset (draws_of 0).1 /\
  take 2 (rows frame0) = [(300 # 50, 53500 # 50); (300 # 50, 43500 # 50)]%Q.
Proof.
  assert (run0 = (Return frame0, run0.2)) as Hrun by (vm_compute; reflexivity).
  split; [exact Hrun|]. split; [|vm_compute; reflexivity].
  exact (proj1 (proj2 (generate_follows_algorithm the_log (world0 0)) frame0 run0.2 Hrun)).
Defined.

(** Two runs from random state 7: one in a fresh process with no logger
    registered, one with the logger set up and a call that will not fail. *)
Lemma generate_deterministic_witness :
  let run1 := generate_synthetic_data the_log (world0 7) in
  let run2 := generate_synthetic_data the_log (world1 7 [None]) in
  stderr (os run1.2) <> stderr (os run2.2) /\
  returned run1.1 no_frame = returned run2.1 no_frame.
Proof.
  intros run1 run2. split; [vm_compute; discriminate|].
  apply (generate_deterministic the_log the_log (world0 7) (world1 7 [None]) run1.2 run2.2);
    [reflexivity|vm_compute; reflexivity..].
Defined.

(** The third library call of the generation runs out of memory. *)
Lemma generate_logs_and_reraises_witness :
  let run := generate_synthetic_data the_log (world1 0 [None; None; Some out_of_memory]) in
  (exists w', run = (Raise out_of_memory, w') /\ rng w' = 100) /\
  stderr (os run.2) =
    [format (asctime logged_os) INFO "Generating synthetic data";
     format (asctime logged_os) ERROR
       (tab +:+ "Error in generating synthetic data: out of memory")].
Proof.
  intros run. split; [|vm_compute; reflexivity].
  destruct (generate_logs_and_reraises the_log (world1 0 [None; None; Some out_of_memory])
              (generate_synthetic_data_try the_log (world1 0 [None; None; Some out_of_memory])).2
              out_of_memory)
    as (w' & Hrun & _ & Hrng & _); [vm_compute; reflexivity|].
  exists w'. split; [exact Hrun|]. rewrite Hrng. vm_compute. reflexivity.
Defined.

(** The same failure inside a whole run of the main block. *)
Lemma main_catches_and_logs_witness :
  let run := main the_log (world1 0 [None; None; None; Some out_of_memory]) in
  (exists w', run = (Return tt, w')) /\
  last (stderr (os run.2)) =
    Some (format (asctime logged_os) CRITICAL "Script execution failed: out of memory").
Proof.
  intros run. split; [|vm_compute; reflexivity].
  set (w := world1 0 [None; None; None; Some out_of_memory]).
  set (w1 := (log_info the_log "Starting data generation script" w).2).
  set (w2 := (create_output_directories the_log w1).2).
  destruct (main_catches_and_logs the_log w (generate_synthetic_data the_log w2).2 out_of_memory)
    as (w' & Hrun & _).
  { apply (raises_generation the_log w out_of_memory _ w1 w2); vm_compute; reflexivity. }
  exists w'. exact Hrun.
Defined.

(** The directory setup fails when [data/raw] is there as a file; no fault
    is injected. *)
Example main_directory_setup_fails :
  let w := set_os (write_file "data/raw" (Text []) logged_os).2 (world1 0 []) in
  (main the_log w).1 = Return tt /\
  last (stderr (os (main the_log w).2)) =
  Some (format (asctime logged_os) CRITICAL
          "Script execution failed: [Errno 17] File exists: 'data/raw'").
Proof. split; vm_compute; reflexivity. Qed.

(** A whole run of the script in a fresh process, whatever random state it
    starts with: the state is seeded with 1, and the CSV file holds the
    dataset of that seed under the header [Price,Quantity]. *)
Example script_run :
  let run := @script star_glob nat _ (world0 5) in
  run.1 = Return tt /\
  content <$> files (os run.2) !! "data/raw/synthetic_pricing_data.csv" =
    Some (Csv ["Price"; "Quantity"] (spec_dataset (draws_of (seed 1)).1)) /\
  length (stderr (os run.2)) = 9.
Proof. intros run. split_and!; vm_compute; reflexivity. Qed.

(** ** The log directory and the cleanup loop *)

Section CleanupFacts.

Context `{Glob}.

Lemma elem_of_component_logs script_name log_dir (w : OS) (p : string) :
  p ∈ component_logs script_name log_dir w <->
  is_Some (files w !! p) /\ glob_match (LoggerManager.log_pattern script_name log_dir) p = true.
Proof.
  unfold component_logs. rewrite list_elem_of_filter, elem_of_elements, elem_of_dom. tauto.
Qed.

Lemma NoDup_component_logs script_name log_dir (w : OS) :
  NoDup (component_logs script_name log_dir w).
Proof. unfold component_logs. apply NoDup_filter, NoDup_elements. Qed.

Lemma existing_logs_Permutation script_name log_dir (w : OS) :
  existing_logs script_name log_dir w ≡ₚ component_logs script_name log_dir w.
Proof. unfold existing_logs, sorted. apply merge_sort_Permutation. Qed.

Lemma os_remove_eq (path : string) (w : OS) :
  os_remove path w =
  match remove_error (files w) path with
  | Some e => (Raise e, w)
  | None => (Return tt, set_files (delete path (files w)) w)
  end.
Proof.
  unfold os_remove, remove_error. destruct (files w !! path) as [f|]; [|reflexivity].
  destruct (locked f); reflexivity.
Qed.

Lemma remove_error_OSError fs path e :
  remove_error fs path = Some e -> isinstance_OSError e = true.
Proof.
  unfold remove_error. destruct (fs !! path) as [f|]; [destruct (locked f)|];
    intros Heq; simplify_eq; reflexivity.
Qed.

Lemma try_remove_eq (w : OS) (path : string) :
  try_remove w path =
  match remove_error (files w) path with
  | Some e => set_stdout (stdout w ++ [report path e]) w
  | None => set_files (delete path (files w)) w
  end.
Proof.
  unfold try_remove, try_except. rewrite os_remove_eq.
  destruct (remove_error (files w) path) as [e|] eqn:He; [|reflexivity].
  by rewrite (remove_error_OSError _ _ _ He).
Qed.

Lemma try_remove_run (w : OS) (path : string) :
  try_except (os_remove path) isinstance_OSError
    (fun e => print ("Error removing log file " +:+ path +:+ ": " +:+ exc_str e)) w =
  (Return tt, try_remove w path).
Proof.
  rewrite try_remove_eq. unfold try_except. rewrite os_remove_eq.
  destruct (remove_error (files w) path) as [e|] eqn:He; [|reflexivity].
  by rewrite (remove_error_OSError _ _ _ He).
Qed.

Lemma attempted_cons max_log_files p l :
  (max_log_files <= Z.of_nat (length (p :: l)))%Z ->
  attempted max_log_files (p :: l) = p :: attempted max_log_files l.
Proof.
  intros Hle. unfold attempted. simpl length in *.
  replace (Z.to_nat (Z.of_nat (S (length l)) - max_log_files + 1))
    with (S (Z.to_nat (Z.of_nat (length l) - max_log_files + 1))) by lia.
  reflexivity.
Qed.

Lemma attempted_nil max_log_files l :
  ¬ (max_log_files <= Z.of_nat (length l))%Z -> attempted max_log_files l = [].
Proof.
  intros Hlt. unfold attempted.
  replace (Z.to_nat (Z.of_nat (length l) - max_log_files + 1)) with 0 by lia. reflexivity.
Qed.

(** The loop, once and for all: its outcome depends on [max_log_files]
    alone, and its effect is one [try_remove] per popped entry, in order. *)
Lemma cleanup_loop_eq max_log_files (l : list string) (w : OS) :
  LoggerManager.cleanup_loop max_log_files l w =
  (cleanup_outcome max_log_files, foldl try_remove w (attempted max_log_files l)).
Proof.
  revert w. induction l as [|p l IH]; intros w.
  - unfold cleanup_outcome, attempted. rewrite take_nil. cbn.
    repeat case_decide; try lia; reflexivity.
  - cbn [LoggerManager.cleanup_loop]. destruct (decide _) as [Hle|Hlt].
    + rewrite attempted_cons by done. cbn [foldl].
      rewrite (bind_Return _ _ _ _ _ (try_remove_run w p)). apply IH.
    + rewrite attempted_nil by done. unfold cleanup_outcome. simpl length in Hlt.
      rewrite decide_True by lia. reflexivity.
Qed.

Lemma cleanup_eq script_name log_dir max_log_files (w : OS) :
  LoggerManager._cleanup_old_logs script_name log_dir max_log_files w =
  (cleanup_outcome max_log_files,
   foldl try_remove w (attempted max_log_files (existing_logs script_name log_dir w))).
Proof.
  unfold LoggerManager._cleanup_old_logs, bind, glob_glob. cbv zeta. apply cleanup_loop_eq.
Qed.

End CleanupFacts.

(** ** The effect of the attempts *)

Lemma omap_ext_elem_of {A B} (f g : A -> option B) (l : list A) :
  (forall x, x ∈ l -> f x = g x) -> omap f l = omap g l.
Proof.
  induction l as [|x l IH]; intros Hfg; [reflexivity|]. cbn.
  rewrite (Hfg x) by left. rewrite IH; [reflexivity|]. intros y Hy. apply Hfg. by right.
Qed.

Lemma remove_error_try_remove (w : OS) (p q : string) :
  q ≠ p -> remove_error (files (try_remove w p)) q = remove_error (files w) q.
Proof.
  intros Hne. rewrite try_remove_eq. unfold remove_error.
  destruct (match files w !! p with Some _ => _ | None => _ end); simpl; [reflexivity|].
  by rewrite lookup_delete_ne.
Qed.

Lemma try_remove_untouched (w : OS) (p : string) :
  dirs (try_remove w p) = dirs w /\ stderr (try_remove w p) = stderr w /\
  loggers (try_remove w p) = loggers w /\ now (try_remove w p) = now w /\
  asctime (try_remove w p) = asctime w.
Proof. rewrite try_remove_eq. destruct (remove_error (files w) p); done. Qed.

Lemma attempts_untouched (l : list string) (w : OS) :
  dirs (foldl try_remove w l) = dirs w /\ stderr (foldl try_remove w l) = stderr w /\
  loggers (foldl try_remove w l) = loggers w /\ now (foldl try_remove w l) = now w /\
  asctime (foldl try_remove w l) = asctime w.
Proof.
  revert w. induction l as [|p l IH]; intros w; [done|]. cbn [foldl].
  destruct (IH (try_remove w p)) as (-> & -> & -> & -> & ->). apply try_remove_untouched.
Qed.

Lemma attempts_stdout (l : list string) (w : OS) :
  NoDup l ->
  stdout (foldl try_remove w l) =
  stdout w ++ omap (fun p => report p <$> remove_error (files w) p) l.
Proof.
  revert w. induction l as [|p l IH]; intros w Hnd; [by rewrite app_nil_r|].
  apply NoDup_cons in Hnd as [Hp Hnd]. cbn [foldl]. rewrite IH by done.
  rewrite (omap_ext_elem_of _ (fun p => report p <$> remove_error (files w) p)).
  2:{ intros q Hq. rewrite remove_error_try_remove; [done|]. intros ->. done. }
  cbn [omap list_omap]. rewrite try_remove_eq.
  destruct (remove_error (files w) p) as [e|]; simpl; [by rewrite <- app_assoc|done].
Qed.

Lemma attempts_files (l : list string) (w : OS) (q : string) :
  NoDup l ->
  files (foldl try_remove w l) !! q =
  if decide (q ∈ l /\ remove_error (files w) q = None) then None else files w !! q.
Proof.
  revert w. induction l as [|p l IH]; intros w Hnd.
  - cbn [foldl]. rewrite decide_False; [done|]. intros [Hq _]. by apply elem_of_nil in Hq.
  - apply NoDup_cons in Hnd as [Hp Hnd]. cbn [foldl]. rewrite IH by done.
    destruct (decide (q = p)) as [->|Hne].
    + rewrite decide_False by (intros [Hq _]; done).
      rewrite try_remove_eq. destruct (remove_error (files w) p) as [e|] eqn:He; simpl.
      * rewrite decide_False; [done|]. intros [_ ?]; done.
      * rewrite decide_True by (split; [left|done]). apply lookup_delete_eq.
    + rewrite remove_error_try_remove by done.
      assert (files (try_remove w p) !! q = files w !! q) as ->.
      { rewrite try_remove_eq. destruct (remove_error (files w) p); simpl; [done|].
        by apply lookup_delete_ne. }
      destruct (decide (q ∈ l /\ remove_error (files w) q = None)) as [[Hq He]|Hn].
      * rewrite decide_True; [done|]. split; [by right|done].
      * rewrite decide_False; [done|]. intros [Hq He]. apply Hn. split; [|done].
        apply elem_of_cons in Hq as [?|?]; done.
Qed.

(** ** Construction of a [LoggerManager] *)

Section InitFacts.

Context `{Glob}.

Lemma try_remove_set_dirs (D : gset string) (w : OS) (p : string) :
  try_remove (set_dirs D w) p = set_dirs D (try_remove w p).
Proof. rewrite !try_remove_eq. simpl. destruct (remove_error (files w) p); reflexivity. Qed.

Lemma attempts_set_dirs (D : gset string) (l : list string) (w : OS) :
  foldl try_remove (set_dirs D w) l = set_dirs D (foldl try_remove w l).
Proof.
  revert w. induction l as [|p l IH]; intros w; [reflexivity|].
  cbn [foldl]. by rewrite try_remove_set_dirs, IH.
Qed.

Lemma init_cases script_name max_log_files log_dir (w : OS) r w' :
  LoggerManager.__init__ script_name max_log_files log_dir w = (r, w') ->
  let new := LoggerManager.log_filename script_name log_dir (now w) in
  let w1 := cleaned script_name log_dir max_log_files w in
  (is_Some (files w !! log_dir) /\ (exists e, r = Raise e) /\ w' = w) \/
  (files w !! log_dir = None /\ ¬ (1 <= max_log_files)%Z /\ (exists e, r = Raise e) /\
   files w' = files w1 /\ stdout w' = stdout w1 /\ stderr w' = stderr w1) \/
  (files w !! log_dir = None /\ (1 <= max_log_files)%Z /\
   (exists f, files w1 !! new = Some f /\ locked f = true) /\ (exists e, r = Raise e) /\
   files w' = files w1 /\ stdout w' = stdout w1 /\ stderr w' = stderr w1) \/
  (files w !! log_dir = None /\ (1 <= max_log_files)%Z /\
   (forall f, files w1 !! new = Some f -> locked f = false) /\
   r = Return {| LoggerManager.logger := script_name |} /\
   files w' = opened new (files w1) /\ stdout w' = stdout w1 /\ stderr w' = stderr w1 /\
   now w' = now w).
Proof.
  intros Hinit new w1.
  assert (now w1 = now w) as Hnow by (unfold w1, cleaned; apply attempts_untouched).
  unfold LoggerManager.__init__ in Hinit.
  unfold bind at 1 in Hinit. unfold os_makedirs in Hinit.
  destruct (files w !! log_dir) as [f0|] eqn:Hdir.
  { left. simplify_eq. eauto. }
  right. unfold bind at 1 in Hinit. unfold datetime_now_strftime in Hinit. cbv zeta in Hinit.
  unfold bind at 1 in Hinit. rewrite cleanup_eq in Hinit.
  change (existing_logs script_name log_dir (set_dirs ({[log_dir]} ∪ dirs w) w))
    with (existing_logs script_name log_dir w) in Hinit.
  rewrite attempts_set_dirs in Hinit. fold (cleaned script_name log_dir max_log_files w) in Hinit.
  fold w1 in Hinit. cbn [now set_dirs] in Hinit. fold new in Hinit.
  unfold cleanup_outcome in Hinit. destruct (decide (1 <= max_log_files)%Z) as [Hmax|Hmax].
  2:{ left. simplify_eq. repeat split; eauto. }
  right. unfold bind, logging_getLogger, Logger_setLevel, logging_FileHandler,
    logging_StreamHandler, Logger_addHandler, ret in Hinit.
  assert (files w1 !! new = None \/ exists f, files w1 !! new = Some f) as [Hnew|[f Hnew]]
    by (destruct (files w1 !! new); eauto).
  - right. split_and!; [done|done|by intros f; rewrite Hnew|..];
      destruct (loggers (set_dirs ({[log_dir]} ∪ dirs w) w1) !! script_name);
      cbn in Hinit; rewrite Hnew in Hinit; simplify_eq; cbn; unfold opened; by rewrite ?Hnew.
  - destruct (locked f) eqn:Hlocked.
    + left. split_and!; [done|done|by eauto|..];
        destruct (loggers (set_dirs ({[log_dir]} ∪ dirs w) w1) !! script_name);
        cbn in Hinit; rewrite Hnew, Hlocked in Hinit; simplify_eq; cbn; eauto.
    + right. split_and!; [done|done|by intros f'; rewrite Hnew; intros [= <-]|..];
        destruct (loggers (set_dirs ({[log_dir]} ∪ dirs w) w1) !! script_name);
        cbn in Hinit; rewrite Hnew, Hlocked in Hinit; simplify_eq; cbn; unfold opened;
        by rewrite ?Hnew.
Qed.

End InitFacts.

(** ** Counting the log files of a component *)

Section CountFacts.

Context `{Glob}.

Lemma component_logs_files script_name log_dir (w w' : OS) :
  files w' = files w ->
  component_logs script_name log_dir w' = component_logs script_name log_dir w.
Proof. unfold component_logs. by intros ->. Qed.

Lemma NoDup_existing_logs script_name log_dir (w : OS) :
  NoDup (existing_logs script_name log_dir w).
Proof. rewrite existing_logs_Permutation. apply NoDup_component_logs. Qed.

Lemma attempted_kept max_log_files (l : list string) :
  attempted max_log_files l ++ kept max_log_files l = l.
Proof. apply take_drop. Qed.

Lemma kept_length max_log_files (l : list string) :
  (1 <= max_log_files)%Z ->
  length (kept max_log_files l) = length l `min` (Z.to_nat max_log_files - 1).
Proof. intros Hmax. unfold kept. rewrite length_drop. lia. Qed.

Lemma cleaned_files script_name log_dir max_log_files (w : OS) (q : string) :
  files (cleaned script_name log_dir max_log_files w) !! q =
  if decide (q ∈ attempted max_log_files (existing_logs script_name log_dir w) /\
             remove_error (files w) q = None)
  then None else files w !! q.
Proof.
  unfold cleaned. apply attempts_files.
  pose proof (NoDup_existing_logs script_name log_dir w) as Hnd.
  rewrite <- (attempted_kept max_log_files) in Hnd. by apply NoDup_app in Hnd as [? _].
Qed.

(** With every log file removable, the log files left by the cleanup are
    the entries the loop kept in its list. *)
Lemma cleaned_component_logs script_name log_dir max_log_files (w : OS) :
  deletable script_name log_dir w ->
  component_logs script_name log_dir (cleaned script_name log_dir max_log_files w) ≡ₚ
  kept max_log_files (existing_logs script_name log_dir w).
Proof.
  intros Hdel. set (l := existing_logs script_name log_dir w).
  pose proof (NoDup_existing_logs script_name log_dir w) as Hnd. fold l in Hnd.
  rewrite <- (attempted_kept max_log_files l) in Hnd.
  apply NoDup_app in Hnd as (Hnd1 & Hdisj & Hnd2).
  apply NoDup_Permutation; [apply NoDup_component_logs|done|].
  intros p. rewrite elem_of_component_logs, cleaned_files. fold l. split.
  - intros [Hsome Hmatch]. case_decide as Hcase; [by destruct Hsome|].
    assert (p ∈ l) as Hp.
    { unfold l. rewrite existing_logs_Permutation. by apply elem_of_component_logs. }
    rewrite <- (attempted_kept max_log_files l) in Hp. apply elem_of_app in Hp as [Hp|Hp]; [|done].
    exfalso. apply Hcase. split; [done|]. unfold deletable in Hdel.
    rewrite Forall_forall in Hdel. apply Hdel. by apply elem_of_component_logs.
  - intros Hp.
    assert (p ∈ l) as Hpl by (rewrite <- (attempted_kept max_log_files l); set_solver).
    unfold l in Hpl. rewrite existing_logs_Permutation in Hpl.
    apply elem_of_component_logs in Hpl as [Hsome Hmatch].
    rewrite decide_False; [done|]. intros [Hin _]. by apply (Hdisj p).
Qed.

Lemma cleaned_count script_name log_dir max_log_files (w : OS) :
  (1 <= max_log_files)%Z ->
  deletable script_name log_dir w ->
  length (component_logs script_name log_dir (cleaned script_name log_dir max_log_files w)) =
  length (component_logs script_name log_dir w) `min` (Z.to_nat max_log_files - 1).
Proof.
  intros Hmax Hdel. rewrite cleaned_component_logs by done. rewrite kept_length by done.
  by rewrite existing_logs_Permutation.
Qed.

(** Opening the new log file adds at most that one entry. *)
Lemma opened_elem_of script_name log_dir new (w1 w' : OS) (p : string) :
  files w' = opened new (files w1) ->
  p ∈ component_logs script_name log_dir w' ->
  p = new \/ p ∈ component_logs script_name log_dir w1.
Proof.
  intros Hfiles. rewrite !elem_of_component_logs, Hfiles. unfold opened.
  destruct (files w1 !! new) eqn:Hnew; [tauto|].
  destruct (decide (p = new)) as [->|Hne]; [tauto|]. rewrite lookup_insert_ne by done. tauto.
Qed.

Lemma opened_count_le script_name log_dir new (w1 w' : OS) :
  files w' = opened new (files w1) ->
  length (component_logs script_name log_dir w') <=
  S (length (component_logs script_name log_dir w1)).
Proof.
  intros Hfiles.
  change (S (length (component_logs script_name log_dir w1)))
    with (length (new :: component_logs script_name log_dir w1)).
  apply submseteq_length, NoDup_submseteq; [apply NoDup_component_logs|].
  intros p Hp. apply (opened_elem_of _ _ _ _ _ _ Hfiles) in Hp as [->|Hp]; [left|by right].
Qed.

Lemma opened_fresh_count script_name log_dir new (w1 w' : OS) :
  files w' = opened new (files w1) ->
  files w1 !! new = None ->
  glob_match (LoggerManager.log_pattern script_name log_dir) new = true ->
  length (component_logs script_name log_dir w') =
  S (length (component_logs script_name log_dir w1)).
Proof.
  intros Hfiles Hnew Hmatch.
  change (S (length (component_logs script_name log_dir w1)))
    with (length (new :: component_logs script_name log_dir w1)).
  apply Permutation_length, NoDup_Permutation; [apply NoDup_component_logs| |].
  - apply NoDup_cons. split; [|apply NoDup_component_logs].
    rewrite elem_of_component_logs, Hnew. intros [[? ?] _]. done.
  - intros p. split; [intros Hp|].
    + apply (opened_elem_of _ _ _ _ _ _ Hfiles) in Hp as [->|Hp]; [left|by right].
    + rewrite elem_of_cons, !elem_of_component_logs, Hfiles. unfold opened. rewrite Hnew.
      intros [->|[Hsome Hm]].
      * rewrite lookup_insert_eq. eauto.
      * split; [|done]. rewrite lookup_insert_ne; [done|]. intros <-.
        rewrite Hnew in Hsome. by destruct Hsome.
Qed.

End CountFacts.

(** ** File names *)

Lemma append_length (s1 s2 : string) :
  String.length (s1 +:+ s2) = String.length s1 + String.length s2.
Proof. induction s1 as [|c s1 IH]; simpl; [reflexivity|]. by rewrite IH. Qed.

Lemma append_inj_r (suffix s1 s2 : string) : s1 +:+ suffix = s2 +:+ suffix -> s1 = s2.
Proof.
  revert s2. induction s1 as [|c s1 IH]; intros [|d s2] Heq; simpl in Heq.
  - reflexivity.
  - apply (f_equal String.length) in Heq. rewrite !append_length in Heq. simpl in Heq. lia.
  - apply (f_equal String.length) in Heq. rewrite !append_length in Heq. simpl in Heq. lia.
  - injection Heq as -> Heq. f_equal. by apply IH.
Qed.

Lemma startswith_slash_name (script_name rest1 rest2 : string) :
  startswith "/" (script_name +:+ "-" +:+ rest1) = startswith "/" (script_name +:+ "-" +:+ rest2).
Proof.
  unfold startswith. destruct script_name as [|c s]; [reflexivity|].
  assert (forall x, String.prefix "/" (String c x) = if ascii_dec "/" c then true else false)
    as Hhead.
  { intros x.
    change (String.prefix "/" (String c x))
      with (if ascii_dec "/" c then String.prefix "" x else false).
    destruct x; reflexivity. }
  change (String c s +:+ "-" +:+ rest1) with (String c (s +:+ "-" +:+ rest1)).
  change (String c s +:+ "-" +:+ rest2) with (String c (s +:+ "-" +:+ rest2)).
  by rewrite !Hhead.
Qed.

Lemma log_filename_inj (script_name log_dir t1 t2 : string) :
  LoggerManager.log_filename script_name log_dir t1 =
  LoggerManager.log_filename script_name log_dir t2 ->
  t1 = t2.
Proof.
  unfold LoggerManager.log_filename, os_path_join.
  rewrite (startswith_slash_name script_name (t1 +:+ ".log") (t2 +:+ ".log")).
  intros Heq. apply (append_inj_r ".log").
  repeat match goal with
         | Hx : context [if ?b then _ else _] |- _ => destruct b
         end;
    repeat match goal with
           | Hx : _ +:+ _ = _ +:+ _ |- _ => apply String.app_inj in Hx
           end; done.
Qed.

(** ** One construction after another *)

Section SequenceFacts.

Context `{Glob}.

Lemma attempted_elem_of script_name log_dir max_log_files (w : OS) (p : string) :
  p ∈ attempted max_log_files (existing_logs script_name log_dir w) ->
  is_Some (files w !! p) /\ glob_match (LoggerManager.log_pattern script_name log_dir) p = true.
Proof.
  intros Hp. apply elem_of_component_logs. rewrite <- existing_logs_Permutation.
  rewrite <- (attempted_kept max_log_files). apply elem_of_app. by left.
Qed.

Lemma cleaned_lookup_None script_name log_dir max_log_files (w : OS) (p : string) :
  files w !! p = None -> files (cleaned script_name log_dir max_log_files w) !! p = None.
Proof. intros Hp. rewrite cleaned_files. by case_decide. Qed.

Lemma cleaned_lookup_Some script_name log_dir max_log_files (w : OS) (p : string) f :
  files (cleaned script_name log_dir max_log_files w) !! p = Some f -> files w !! p = Some f.
Proof. rewrite cleaned_files. by case_decide. Qed.

Lemma remove_error_lookup (fs1 fs2 : gmap string file) (p : string) :
  fs1 !! p = fs2 !! p -> remove_error fs1 p = remove_error fs2 p.
Proof. unfold remove_error. by intros ->. Qed.

(** A construction whose file name is new and is a log file name of the
    component: the count goes up by one, capped at [max_log_files]. *)
Lemma init_step script_name max_log_files log_dir (w w' : OS) lm :
  (1 <= max_log_files)%Z ->
  deletable script_name log_dir w ->
  let new := LoggerManager.log_filename script_name log_dir (now w) in
  files w !! new = None ->
  glob_match (LoggerManager.log_pattern script_name log_dir) new = true ->
  LoggerManager.__init__ script_name max_log_files log_dir w = (Return lm, w') ->
  length (component_logs script_name log_dir w') =
    S (length (component_logs script_name log_dir w)) `min` Z.to_nat max_log_files /\
  deletable script_name log_dir w' /\
  (forall p, p ≠ new -> files w !! p = None -> files w' !! p = None).
Proof.
  intros Hmax Hdel new Hnew Hmatch Hinit.
  apply init_cases in Hinit as [(_ & [e ?] & _)|[(_ & _ & [e ?] & _)|[(_ & _ & _ & [e ?] & _)|Hok]]];
    try discriminate.
  destruct Hok as (_ & _ & _ & _ & Hfiles & _). fold new in Hfiles.
  set (w1 := cleaned script_name log_dir max_log_files w) in *.
  assert (files w1 !! new = None) as Hnew1 by by apply cleaned_lookup_None.
  assert (forall p, p ≠ new -> files w' !! p = files w1 !! p) as Hother.
  { intros p Hp. rewrite Hfiles. unfold opened. rewrite Hnew1. by rewrite lookup_insert_ne. }
  split_and!.
  - rewrite (opened_fresh_count _ _ _ _ _ Hfiles Hnew1 Hmatch).
    unfold w1. rewrite cleaned_count by done. lia.
  - unfold deletable. apply Forall_forall. intros p Hp.
    apply (opened_elem_of _ _ _ _ _ _ Hfiles) in Hp as [->|Hp].
    + unfold remove_error. rewrite Hfiles. unfold opened. rewrite Hnew1.
      by rewrite lookup_insert_eq.
    + apply elem_of_component_logs in Hp as [[f Hf] Hm].
      assert (p ≠ new) as Hne by (intros ->; congruence).
      pose proof (cleaned_lookup_Some _ _ _ _ _ _ Hf) as Hfw.
      rewrite (remove_error_lookup (files w') (files w) p) by (rewrite Hother by done; congruence).
      unfold deletable in Hdel. rewrite Forall_forall in Hdel. apply Hdel.
      apply elem_of_component_logs. eauto.
  - intros p Hp Hnone. rewrite Hother by done. by apply cleaned_lookup_None.
Qed.

Lemma construct_all_count script_name max_log_files log_dir (stamps : list string) :
  (1 <= max_log_files)%Z ->
  NoDup stamps ->
  forall (w w' : OS) lms,
    deletable script_name log_dir w ->
    fresh_names script_name log_dir stamps w ->
    construct_all script_name max_log_files log_dir stamps w = (Return lms, w') ->
    length (component_logs script_name log_dir w') =
    match stamps with
    | [] => length (component_logs script_name log_dir w)
    | _ :: _ =>
        (length (component_logs script_name log_dir w) + length stamps) `min`
        Z.to_nat max_log_files
    end.
Proof.
  intros Hmax Hnd. induction stamps as [|t stamps IH]; intros w w' lms Hdel Hfresh Hrun.
  - cbn in Hrun. unfold ret in Hrun. by simplify_eq.
  - apply NoDup_cons in Hnd as [Ht Hnd]. cbn [construct_all] in Hrun.
    apply bind_Return_inv in Hrun as (lm & w1 & Hinit & Hrun).
    apply bind_Return_inv in Hrun as (lms' & w2 & Hrest & Hrun).
    unfold ret in Hrun. simplify_eq.
    unfold fresh_names in Hfresh. apply Forall_cons in Hfresh as [[Hnew Hmatch] Hfresh].
    destruct (init_step script_name max_log_files log_dir (set_now t w) w1 lm Hmax Hdel Hnew Hmatch
                Hinit) as (Hcount & Hdel1 & Hkeep).
    change (component_logs script_name log_dir (set_now t w))
      with (component_logs script_name log_dir w) in Hcount.
    assert (fresh_names script_name log_dir stamps w1) as Hfresh1.
    { unfold fresh_names. apply Forall_forall. intros t' Ht'.
      rewrite Forall_forall in Hfresh. destruct (Hfresh t' Ht') as [Hnew' Hmatch'].
      split; [|done]. apply Hkeep; [|done].
      intros Heq. apply log_filename_inj in Heq. subst t'. done. }
    rewrite (IH Hnd w1 w' lms' Hdel1 Hfresh1 Hrest), Hcount.
    destruct stamps; cbn [length]; lia.
Qed.

End SequenceFacts.

Section LoggerProperties.

Context `{Glob}.

Lemma init_Return_inv script_name max_log_files log_dir (w w' : OS) lm :
  LoggerManager.__init__ script_name max_log_files log_dir w = (Return lm, w') ->
  (1 <= max_log_files)%Z /\ files w !! log_dir = None /\
  files w' =
    opened (LoggerManager.log_filename script_name log_dir (now w))
      (files (cleaned script_name log_dir max_log_files w)) /\
  stdout w' = stdout (cleaned script_name log_dir max_log_files w) /\
  stderr w' = stderr w.
Proof.
  intros Hinit.
  apply init_cases in Hinit as [(_ & [e ?] & _)|[(_ & _ & [e ?] & _)|[(_ & _ & _ & [e ?] & _)|Hok]]];
    try discriminate.
  destruct Hok as (Hdir & Hmax & _ & _ & Hfiles & Hout & Herr & _).
  split_and!; try done. rewrite Herr. unfold cleaned. apply attempts_untouched.
Qed.

Lemma init_returns script_name max_log_files log_dir (w : OS) :
  (1 <= max_log_files)%Z ->
  files w !! log_dir = None ->
  (forall f, files w !! LoggerManager.log_filename script_name log_dir (now w) = Some f ->
             locked f = false) ->
  exists lm w', LoggerManager.__init__ script_name max_log_files log_dir w = (Return lm, w').
Proof.
  intros Hmax Hdir Hnew.
  destruct (LoggerManager.__init__ script_name max_log_files log_dir w) as [r w'] eqn:Hinit.
  pose proof Hinit as Hcases.
  apply init_cases in Hcases as [([f Hf] & _)|[(_ & Hn & _)|[(_ & _ & (f & Hf & Hl) & _)|Hok]]].
  - congruence.
  - done.
  - apply cleaned_lookup_Some in Hf. rewrite (Hnew f Hf) in Hl. discriminate.
  - destruct Hok as (_ & _ & _ & -> & _). eauto.
Qed.

Lemma construct_all_returns script_name max_log_files log_dir (stamps : list string) :
  (1 <= max_log_files)%Z ->
  NoDup stamps ->
  Forall (fun stamp => LoggerManager.log_filename script_name log_dir stamp ≠ log_dir) stamps ->
  forall w : OS,
    files w !! log_dir = None ->
    Forall (fun stamp => files w !! LoggerManager.log_filename script_name log_dir stamp = None)
      stamps ->
    exists lms w', construct_all script_name max_log_files log_dir stamps w = (Return lms, w').
Proof.
  intros Hmax Hnd Hdirs. induction stamps as [|t stamps IH]; intros w Hdir Hfresh.
  - cbn. unfold ret. eauto.
  - apply NoDup_cons in Hnd as [Ht Hnd]. apply Forall_cons in Hdirs as [Htd Hdirs].
    apply Forall_cons in Hfresh as [Hnew Hfresh]. cbn [construct_all].
    destruct (init_returns script_name max_log_files log_dir (set_now t w) Hmax Hdir) as (lm & w1 & Hinit).
    { cbn. intros f Hf. congruence. }
    rewrite (bind_Return _ _ _ _ _ Hinit).
    apply init_Return_inv in Hinit as (_ & _ & Hfiles & _). cbn [now set_now] in Hfiles.
    assert (forall p, p ≠ LoggerManager.log_filename script_name log_dir t ->
                      files w !! p = None -> files w1 !! p = None) as Hkeep.
    { intros p Hp Hnone. rewrite Hfiles. unfold opened.
      pose proof (cleaned_lookup_None script_name log_dir max_log_files (set_now t w) p Hnone) as Hc.
      destruct (files (cleaned script_name log_dir max_log_files (set_now t w))
                  !! LoggerManager.log_filename script_name log_dir t); [done|].
      by rewrite lookup_insert_ne. }
    destruct (IH Hnd Hdirs w1) as (lms & w' & Hrest).
    + apply Hkeep; [|done]. congruence.
    + apply Forall_forall. intros t' Ht'. rewrite Forall_forall in Hfresh.
      apply Hkeep; [|by apply Hfresh]. intros Heq. apply log_filename_inj in Heq. by subst.
    + rewrite (bind_Return _ _ _ _ _ Hrest). unfold ret. eauto.
Qed.

(** C5, as amended. Let [max_log_files >= 1] and let every log file of the
    component be removable. Then the cleanup step removes the oldest log
    files by name and leaves min(n, max_log_files - 1) of the n there were;
    a construction that completes leaves at most [max_log_files]; and
    constructions in a row, at pairwise distinct timestamps whose file names
    are new and match the component's pattern, all complete (when the log
    directory can be made) and leave min(n + k, max_log_files) after k >= 1
    of them: exactly [max_log_files] after [max_log_files + 2]. *)
Theorem logger_retention script_name log_dir max_log_files (w : OS) :
  (1 <= max_log_files)%Z ->
  deletable script_name log_dir w ->
  let logs := component_logs script_name log_dir in
  let popped := attempted max_log_files (existing_logs script_name log_dir w) in
  (exists w1,
     LoggerManager._cleanup_old_logs script_name log_dir max_log_files w = (Return tt, w1) /\
     logs w1 ≡ₚ kept max_log_files (existing_logs script_name log_dir w) /\
     length (logs w1) = length (logs w) `min` (Z.to_nat max_log_files - 1) /\
     (forall p, p ∈ popped -> files w1 !! p = None) /\
     (forall p q, p ∈ popped -> q ∈ logs w1 -> String.le p q)) /\
  (forall lm w',
     LoggerManager.__init__ script_name max_log_files log_dir w = (Return lm, w') ->
     length (logs w') <= Z.to_nat max_log_files) /\
  (forall stamps,
     NoDup stamps ->
     fresh_names script_name log_dir stamps w ->
     (files w !! log_dir = None ->
      Forall (fun stamp => LoggerManager.log_filename script_name log_dir stamp ≠ log_dir) stamps ->
      exists lms w',
        construct_all script_name max_log_files log_dir stamps w = (Return lms, w')) /\
     (forall lms w',
        construct_all script_name max_log_files log_dir stamps w = (Return lms, w') ->
        (stamps ≠ [] ->
         length (logs w') = (length (logs w) + length stamps) `min` Z.to_nat max_log_files) /\
        (length stamps = Z.to_nat max_log_files + 2 ->
         length (logs w') = Z.to_nat max_log_files))).
Proof.
  intros Hmax Hdel logs popped. split_and!.
  - exists (cleaned script_name log_dir max_log_files w).
    pose proof (cleaned_component_logs script_name log_dir max_log_files w Hdel) as Hperm.
    split_and!.
    + rewrite cleanup_eq. unfold cleanup_outcome. by rewrite decide_True.
    + done.
    + by apply cleaned_count.
    + intros p Hp. rewrite cleaned_files. rewrite decide_True; [done|]. split; [done|].
      unfold deletable in Hdel. rewrite Forall_forall in Hdel. apply Hdel.
      apply elem_of_component_logs. by apply (attempted_elem_of _ _ max_log_files).
    + intros p q Hp Hq. unfold logs in Hq. rewrite Hperm in Hq.
      apply (StronglySorted_app_1_elem_of String.le popped
               (kept max_log_files (existing_logs script_name log_dir w))); [|done..].
      unfold popped. rewrite attempted_kept. unfold existing_logs, sorted.
      apply (StronglySorted_merge_sort String.le).
  - intros lm w' Hinit. apply init_Return_inv in Hinit as (_ & _ & Hfiles & _).
    etransitivity; [apply (opened_count_le _ _ _ _ _ Hfiles)|].
    rewrite cleaned_count by done. lia.
  - intros stamps Hnd Hfresh. split.
    { intros Hdir Hnames.
      apply (construct_all_returns script_name max_log_files log_dir stamps Hmax Hnd Hnames w Hdir).
      unfold fresh_names in Hfresh. eapply Forall_impl; [exact Hfresh|]. by intros t [? _]. }
    intros lms w' Hrun.
    pose proof (construct_all_count script_name max_log_files log_dir stamps Hmax Hnd w w' lms
                  Hdel Hfresh Hrun) as Hcount.
    fold logs in Hcount. split.
    + intros Hne. destruct stamps; [done|]. exact Hcount.
    + intros Hlen. destruct stamps as [|t stamps]; [cbn in Hlen; lia|]. rewrite Hcount. lia.
Qed.

(** C9, as amended. A removal that fails is reported by [print], that is
    on standard output, and standard error is not written to. The loop goes
    on: every popped file that can be removed is removed, also after a
    failure, and the files that cannot be removed stay as they are. The
    failures do not change how the cleanup ends, and with
    [max_log_files >= 1] the construction completes whichever log files
    cannot be removed, as long as the directory and the new file can be
    made. *)
Theorem cleanup_failure_is_printed script_name log_dir max_log_files (w : OS) :
  let popped := attempted max_log_files (existing_logs script_name log_dir w) in
  let w1 := cleaned script_name log_dir max_log_files w in
  LoggerManager._cleanup_old_logs script_name log_dir max_log_files w =
    (cleanup_outcome max_log_files, w1) /\
  stdout w1 = stdout w ++ omap (fun p => report p <$> remove_error (files w) p) popped /\
  stderr w1 = stderr w /\
  (forall p, p ∈ popped -> remove_error (files w) p = None -> files w1 !! p = None) /\
  (forall p, p ∈ popped -> is_Some (remove_error (files w) p) -> files w1 !! p = files w !! p) /\
  ((1 <= max_log_files)%Z ->
   files w !! log_dir = None ->
   (forall f, files w !! LoggerManager.log_filename script_name log_dir (now w) = Some f ->
              locked f = false) ->
   exists lm w',
     LoggerManager.__init__ script_name max_log_files log_dir w = (Return lm, w') /\
     stdout w' = stdout w1 /\ stderr w' = stderr w).
Proof.
  intros popped w1.
  assert (NoDup popped) as Hnd.
  { pose proof (NoDup_existing_logs script_name log_dir w) as Hl.
    rewrite <- (attempted_kept max_log_files) in Hl. by apply NoDup_app in Hl as [? _]. }
  split_and!.
  - apply cleanup_eq.
  - unfold w1, cleaned. by apply attempts_stdout.
  - unfold w1, cleaned. apply attempts_untouched.
  - intros p Hp He. unfold w1. rewrite cleaned_files. by rewrite decide_True.
  - intros p Hp [e He]. unfold w1. rewrite cleaned_files. rewrite decide_False; [done|].
    intros [_ Hn]. congruence.
  - intros Hmax Hdir Hnew.
    destruct (init_returns script_name max_log_files log_dir w Hmax Hdir Hnew) as (lm & w' & Hinit).
    exists lm, w'. split; [done|].
    by apply init_Return_inv in Hinit as (_ & _ & _ & ? & ?).
Qed.

(** C10, as amended. Constructing a [LoggerManager], whether it completes
    or raises, leaves every file that was there as it was, except files that
    the cleanup popped; those are listed by the pattern
    [os.path.join(log_dir, "<script_name>-*.log")]. So a file that the
    pattern does not match is still there, unchanged, and a file that is
    gone matched the pattern. Nothing more holds: what the pattern matches
    need not be a log of the component, nor lie in the log directory. *)
Theorem construction_frame script_name max_log_files log_dir (w w' : OS) r (p : string) (f : file) :
  LoggerManager.__init__ script_name max_log_files log_dir w = (r, w') ->
  files w !! p = Some f ->
  let pattern := LoggerManager.log_pattern script_name log_dir in
  (files w' !! p = Some f \/
   p ∈ attempted max_log_files (existing_logs script_name log_dir w)) /\
  (p ∈ attempted max_log_files (existing_logs script_name log_dir w) ->
   glob_match pattern p = true) /\
  (glob_match pattern p = false -> files w' !! p = Some f) /\
  (files w' !! p = None -> glob_match pattern p = true).
Proof.
  intros Hinit Hp pattern.
  assert (files w' !! p = Some f \/
          p ∈ attempted max_log_files (existing_logs script_name log_dir w)) as Hframe.
  { set (w1 := cleaned script_name log_dir max_log_files w).
    assert (files w1 !! p = Some f \/
            p ∈ attempted max_log_files (existing_logs script_name log_dir w)) as Hw1.
    { unfold w1. rewrite cleaned_files. case_decide as Hc; [right; tauto|by left]. }
    apply init_cases in Hinit. cbv zeta in Hinit. fold w1 in Hinit.
    destruct Hinit as [(_ & _ & ->)|[Hc|[Hc|Hc]]].
    - by left.
    - destruct Hc as (_ & _ & _ & -> & _). done.
    - destruct Hc as (_ & _ & _ & _ & -> & _). done.
    - destruct Hc as (_ & _ & _ & _ & -> & _). destruct Hw1 as [Hw1|?]; [|by right].
      left. unfold opened.
      destruct (files w1 !! LoggerManager.log_filename script_name log_dir (now w)) eqn:Hnew;
        [done|].
      rewrite lookup_insert_ne; [done|]. intros <-. congruence. }
  assert (p ∈ attempted max_log_files (existing_logs script_name log_dir w) ->
          glob_match pattern p = true) as Hmatch.
  { intros Hin. by apply attempted_elem_of in Hin as [_ ?]. }
  split_and!; [done|done|..].
  - intros Hno. destruct Hframe as [?|Hin]; [done|]. rewrite (Hmatch Hin) in Hno. discriminate.
  - intros Hgone. destruct Hframe as [?|Hin]; [congruence|by apply Hmatch].
Qed.

End LoggerProperties.

(** ** The logger on concrete directories *)

(** Three removable logs, [max_log_files = 3], five constructions. *)
Lemma logger_retention_witness :
  let run := @construct_all star_glob "app" 3 "logs" five_stamps (log_dir_os false) in
  (exists lms, run = (Return lms, run.2)) /\
  length (@component_logs star_glob "app" "logs" run.2) = 3.
Proof.
  intros run.
  assert (run = (Return (returned run.1 []), run.2)) as Hrun by (vm_compute; reflexivity).
  split; [eauto|].
  assert (@deletable star_glob "app" "logs" (log_dir_os false)) as Hdel
    by (unfold deletable; apply (bool_decide_unpack _); vm_compute; exact I).
  destruct (@logger_retention star_glob "app" "logs" 3 (log_dir_os false) ltac:(lia) Hdel)
    as (_ & _ & Hseq).
  assert (NoDup five_stamps) as Hnd by (apply (bool_decide_unpack _); vm_compute; exact I).
  assert (@fresh_names star_glob "app" "logs" five_stamps (log_dir_os false)) as Hfresh
    by (unfold fresh_names; repeat constructor).
  destruct (Hseq five_stamps Hnd Hfresh) as [_ Hcount].
  exact (proj2 (Hcount _ _ Hrun) eq_refl).
Defined.

(** C5 as stated fails. With the oldest log locked and [max_log_files = 2]
    the loop pops two entries, removes only the second, and three log files
    of the component exist after the construction. With
    [max_log_files = 0] the loop empties its list and [pop(0)] raises. And
    five constructions with [max_log_files = 3] leave two log files when the
    last two file names are there from the start: the fourth and fifth
    construction open an existing file. *)
Lemma retention_exceeded_or_aborted :
  (let run := @LoggerManager.__init__ star_glob "app" 2 "logs" (log_dir_os true) in
   run.1 = Return {| LoggerManager.logger := "app" |} /\
   sorted (@component_logs star_glob "app" "logs" run.2) =
     [oldest_log; "logs/app-2024-01-03-00-00-00.log"; "logs/app-2024-01-04-00-00-00.log"] /\
   ¬ length (@component_logs star_glob "app" "logs" run.2) <= 2) /\
  (let run := @LoggerManager.__init__ star_glob "app" 0 "logs" (log_dir_os false) in
   run.1 = Raise {| exc_type := IndexError; exc_str := "pop from empty list" |} /\
   @component_logs star_glob "app" "logs" run.2 = []) /\
  (let run := @construct_all star_glob "app" 3 "logs" five_stamps future_os in
   NoDup five_stamps /\
   returned run.1 [] = replicate 5 {| LoggerManager.logger := "app" |} /\
   sorted (@component_logs star_glob "app" "logs" run.2) =
     ["logs/app-2024-01-04-00-00-03.log"; "logs/app-2024-01-04-00-00-04.log"]).
Proof.
  split_and!; intros run.
  - split; [vm_compute; reflexivity|]. split; [vm_compute; reflexivity|].
    assert (length (@component_logs star_glob "app" "logs" run.2) = 3) as ->
      by (vm_compute; reflexivity).
    lia.
  - split; vm_compute; reflexivity.
  - split; [apply (bool_decide_unpack _); vm_compute; exact I|].
    split; vm_compute; reflexivity.
Qed.

(** C9 as stated fails. The removal of the locked oldest log raises a
    [PermissionError]; the construction completes, the line is on standard
    output, and nothing is written to standard error. *)
Lemma removal_failure_not_on_stderr :
  let run := @LoggerManager.__init__ star_glob "app" 2 "logs" (log_dir_os true) in
  (os_remove oldest_log (log_dir_os true)).1 =
    Raise {| exc_type := PermissionError;
             exc_str := "[Errno 13] Permission denied: '" +:+ oldest_log +:+ "'" |} /\
  run.1 = Return {| LoggerManager.logger := "app" |} /\
  stderr run.2 = [] /\
  stdout run.2 =
    ["Error removing log file " +:+ oldest_log +:+ ": [Errno 13] Permission denied: '"
     +:+ oldest_log +:+ "'"] /\
  files run.2 !! "logs/app-2024-01-02-00-00-00.log" = None.
Proof. intros run. split_and!; vm_compute; reflexivity. Qed.

Lemma cleanup_failure_is_printed_witness :
  exists lm w',
    @LoggerManager.__init__ star_glob "app" 2 "logs" (log_dir_os true) = (Return lm, w') /\
    stdout w' =
      [report oldest_log
         {| exc_type := PermissionError;
            exc_str := "[Errno 13] Permission denied: '" +:+ oldest_log +:+ "'" |}] /\
    stderr w' = [].
Proof.
  destruct (@cleanup_failure_is_printed star_glob "app" "logs" 2 (log_dir_os true))
    as (_ & Hout & _ & _ & _ & Hinit).
  destruct Hinit as (lm & w' & Hrun & Hstdout & Hstderr);
    [lia|vm_compute; reflexivity|intros f Hf; vm_compute in Hf; discriminate|].
  exists lm, w'. split; [exact Hrun|]. split.
  - rewrite Hstdout, Hout. vm_compute. reflexivity.
  - rewrite Hstderr. reflexivity.
Defined.

(** The log of another component and the file that is no log are as they
    were after a construction for [app] that removes and fails to remove. *)
Lemma construction_frame_witness :
  let run := @LoggerManager.__init__ star_glob "app" 2 "logs" (log_dir_os true) in
  files run.2 !! "logs/web-2024-01-01-00-00-00.log" =
    Some {| locked := false; content := Text ["d"] |} /\
  files run.2 !! "logs/notes.txt" = Some {| locked := false; content := Text ["e"] |}.
Proof.
  intros run.
  assert (@LoggerManager.__init__ star_glob "app" 2 "logs" (log_dir_os true) = (run.1, run.2))
    as Hrun by (unfold run; by destruct (LoggerManager.__init__ _ _ _ _)).
  split.
  - apply (@construction_frame star_glob "app" 2 "logs" (log_dir_os true) run.2 run.1 _ _ Hrun);
      vm_compute; reflexivity.
  - apply (@construction_frame star_glob "app" 2 "logs" (log_dir_os true) run.2 run.1 _ _ Hrun);
      vm_compute; reflexivity.
Defined.

(** C10 as stated fails. [create_logger "app"] in a log directory with three
    logs of the component [app-web] lists them under its own pattern,
    [logs/app-*.log], and removes the oldest: a log file of another
    component. And with the log directory [l*] the pattern [l*/app-*.log]
    lists the files of the directory [lib], and the construction removes one
    there: a file outside the log directory. *)
Lemma cleanup_removes_other_logs :
  (let run := @create_logger star_glob "app" web_dir_os in
   run.1 = Return {| LoggerManager.logger := "app" |} /\
   star_match (LoggerManager.log_pattern "app-web" "logs")
     "logs/app-web-2024-01-01-00-00-00.log" = true /\
   files web_dir_os !! "logs/app-web-2024-01-01-00-00-00.log" =
     Some {| locked := false; content := Text ["a"] |} /\
   files run.2 !! "logs/app-web-2024-01-01-00-00-00.log" = None) /\
  (let run := @LoggerManager.__init__ star_glob "app" 3 "l*" lib_os in
   run.1 = Return {| LoggerManager.logger := "app" |} /\
   LoggerManager.log_filename "app" "l*" (now lib_os) = "l*/app-2024-01-04-00-00-00.log" /\
   files lib_os !! "lib/app-2024-01-01-00-00-00.log" =
     Some {| locked := false; content := Text ["a"] |} /\
   files run.2 !! "lib/app-2024-01-01-00-00-00.log" = None).
Proof. split; intros run; split_and!; vm_compute; reflexivity. Qed.

(** The pattern of a component also matches the log files of a component
    whose name extends it after a hyphen. *)
Example pattern_matches_longer_name :
  star_match (LoggerManager.log_pattern "app" "logs") "logs/app-web-2024-01-01-00-00-00.log" = true.
Proof. reflexivity. Qed.

(** ** Log records and the files *)

Lemma appended_nil (f : file) : appended [] f = f.
Proof. destruct f as [l [lines| |]]; cbn; by rewrite ?app_nil_r. Qed.

Lemma appended_app (m1 m2 : list string) (f : file) :
  appended m2 (appended m1 f) = appended (m1 ++ m2) f.
Proof. destruct f as [l [lines| |]]; cbn; by rewrite ?app_assoc. Qed.

Lemma appended_locked (more : list string) (f : file) : locked (appended more f) = locked f.
Proof. by destruct f as [l [lines| |]]. Qed.

#[global] Instance entry_kept_preorder (path : string) : PreOrder (entry_kept path).
Proof.
  split.
  - intros o. exists []. destruct (files o !! path) as [f|]; cbn; by rewrite ?appended_nil.
  - intros o1 o2 o3 [m1 H1] [m2 H2]. exists (m1 ++ m2). rewrite H2, H1.
    destruct (files o1 !! path) as [f|]; cbn; by rewrite ?appended_app.
Qed.

Lemma entry_kept_files (path : string) (o o' : OS) :
  files o' !! path = files o !! path -> entry_kept path o o'.
Proof.
  intros Heq. exists []. rewrite Heq. destruct (files o !! path); cbn; by rewrite ?appended_nil.
Qed.

Lemma Handler_emit_kept (line : string) (lvl : Z) (o : OS) (h : Handler) (path : string) :
  entry_kept path o (Handler_emit line lvl o h).
Proof.
  unfold Handler_emit. destruct (decide _); [|reflexivity].
  destruct (target h) as [p|]; [|by apply entry_kept_files].
  destruct (files o !! p) as [[lk [lines| |]]|] eqn:Hp; try reflexivity.
  destruct (decide (path = p)) as [->|Hne].
  - exists [line]. cbn. by rewrite lookup_insert_eq, Hp.
  - apply entry_kept_files. cbn. by rewrite lookup_insert_ne.
Qed.

Lemma Handler_emit_untouched (line : string) (lvl : Z) (o : OS) (h : Handler) :
  let o' := Handler_emit line lvl o h in
  dirs o' = dirs o /\ stdout o' = stdout o /\ loggers o' = loggers o /\ now o' = now o /\
  asctime o' = asctime o.
Proof.
  unfold Handler_emit. destruct (decide _); [|done].
  destruct (target h) as [p|]; [|done].
  by destruct (files o !! p) as [[lk [lines| |]]|].
Qed.

Lemma emits_kept (line : string) (lvl : Z) (hs : list Handler) (o : OS) (path : string) :
  entry_kept path o (foldl (Handler_emit line lvl) o hs).
Proof.
  revert o. induction hs as [|h hs IH]; intros o; [reflexivity|]. cbn [foldl].
  etransitivity; [apply Handler_emit_kept|apply IH].
Qed.

Lemma emits_untouched (line : string) (lvl : Z) (hs : list Handler) (o : OS) :
  let o' := foldl (Handler_emit line lvl) o hs in
  dirs o' = dirs o /\ stdout o' = stdout o /\ loggers o' = loggers o /\ now o' = now o /\
  asctime o' = asctime o.
Proof.
  revert o. induction hs as [|h hs IH]; intros o; [done|]. cbn [foldl].
  destruct (IH (Handler_emit line lvl o h)) as (-> & -> & -> & -> & ->).
  apply Handler_emit_untouched.
Qed.

Lemma log_record_kept (name : string) (lvl : Z) (message : string) (o : OS) (path : string) :
  entry_kept path o (log_record name lvl message o).
Proof.
  unfold log_record, Logger_log. destruct (loggers o !! name) as [lg|]; [|reflexivity].
  destruct (decide _); [|reflexivity]. apply emits_kept.
Qed.

Lemma log_record_untouched (name : string) (lvl : Z) (message : string) (o : OS) :
  let o' := log_record name lvl message o in
  dirs o' = dirs o /\ stdout o' = stdout o /\ loggers o' = loggers o /\ now o' = now o /\
  asctime o' = asctime o.
Proof.
  unfold log_record, Logger_log. destruct (loggers o !! name) as [lg|]; [|done].
  destruct (decide _); [|done]. apply emits_untouched.
Qed.

(** ** The logger a construction configures *)

Section InitState.

Context `{Glob}.

Lemma registry_configured (name filename : string) (registry : gmap string Logger) :
  alter (fun lg => {| level := level lg; handlers := handlers lg ++ [console_handler] |}) name
    (alter (fun lg => {| level := level lg; handlers := handlers lg ++ [file_handler filename] |}) name
       (alter (fun lg => {| level := INFO; handlers := handlers lg |}) name
          (match registry !! name with
           | Some _ => registry
           | None => <[name := {| level := NOTSET; handlers := [] |}]> registry
           end))) =
  configured name filename registry.
Proof.
  apply map_eq. intros i. unfold configured, handlers_of. destruct (decide (i = name)) as [->|Hne].
  - rewrite !lookup_alter_eq, lookup_insert_eq.
    destruct (registry !! name) as [lg|] eqn:Hlg.
    + rewrite Hlg. cbn. by rewrite <- app_assoc.
    + rewrite lookup_insert_eq. reflexivity.
  - rewrite !lookup_alter_ne, lookup_insert_ne by done.
    destruct (registry !! name); [done|]. by rewrite lookup_insert_ne.
Qed.

(** The state a completed construction leaves, in full. *)
Lemma init_Return_state script_name max_log_files log_dir (w w' : OS) lm :
  LoggerManager.__init__ script_name max_log_files log_dir w = (Return lm, w') ->
  let new := LoggerManager.log_filename script_name log_dir (now w) in
  let w1 := cleaned script_name log_dir max_log_files w in
  lm = {| LoggerManager.logger := script_name |} /\
  w' = set_loggers (configured script_name new (loggers w))
         (set_files (opened new (files w1)) (set_dirs ({[log_dir]} ∪ dirs w) w1)).
Proof.
  intros Hinit new w1.
  destruct (attempts_untouched
              (attempted max_log_files (existing_logs script_name log_dir w)) w)
    as (Hd & He & Hl & Hn & Ha).
  fold (cleaned script_name log_dir max_log_files w) in Hd, He, Hl, Hn, Ha. fold w1 in Hd, He, Hl, Hn, Ha.
  unfold LoggerManager.__init__ in Hinit.
  unfold bind at 1 in Hinit. unfold os_makedirs in Hinit.
  destruct (files w !! log_dir) as [f0|] eqn:Hdir; [discriminate|].
  unfold bind at 1 in Hinit. unfold datetime_now_strftime in Hinit. cbv zeta in Hinit.
  unfold bind at 1 in Hinit. rewrite cleanup_eq in Hinit.
  change (existing_logs script_name log_dir (set_dirs ({[log_dir]} ∪ dirs w) w))
    with (existing_logs script_name log_dir w) in Hinit.
  rewrite attempts_set_dirs in Hinit. fold (cleaned script_name log_dir max_log_files w) in Hinit.
  fold w1 in Hinit. cbn [now set_dirs] in Hinit. fold new in Hinit.
  unfold cleanup_outcome in Hinit. destruct (decide (1 <= max_log_files)%Z) as [Hmax|Hmax];
    [|discriminate].
  unfold bind, logging_getLogger, Logger_setLevel, logging_FileHandler,
    logging_StreamHandler, Logger_addHandler, ret in Hinit.
  pose proof (registry_configured script_name new (loggers w)) as Hreg.
  unfold opened. rewrite <- Hreg. rewrite <- Hl.
  cbn [loggers files set_dirs set_loggers set_files] in Hinit.
  destruct (loggers w1 !! script_name) as [lg|] eqn:Hlg;
    cbn [loggers files set_dirs set_loggers set_files] in Hinit;
    (destruct (files w1 !! new) as [f|] eqn:Hnew; [destruct (locked f)|]);
    cbn in Hinit; simplify_eq; split; try reflexivity.
  all: unfold set_loggers, set_files, set_dirs; cbn; f_equal.
Qed.

End InitState.

Section LoggerConfiguration.

Context `{Glob}.

Lemma console_handlers_app lvl (hs1 hs2 : list Handler) :
  console_handlers lvl (hs1 ++ hs2) = console_handlers lvl hs1 ++ console_handlers lvl hs2.
Proof. unfold console_handlers. apply filter_app. Qed.

Lemma init_Return_loggers script_name max_log_files log_dir (w w' : OS) lm :
  LoggerManager.__init__ script_name max_log_files log_dir w = (Return lm, w') ->
  lm = {| LoggerManager.logger := script_name |} /\
  loggers w' =
    configured script_name (LoggerManager.log_filename script_name log_dir (now w)) (loggers w) /\
  stderr w' = stderr w /\ asctime w' = asctime w.
Proof.
  intros Hinit. apply init_Return_state in Hinit as [-> ->]. cbn.
  split_and!; [done..| |]; unfold cleaned; apply attempts_untouched.
Qed.

(** X2. A construction that completes leaves the logger named
    [script_name] at level INFO with two handlers added after those it had:
    a file handler on the new log file and a console handler, both at level
    INFO. No other logger changes, the log file exists and the log directory
    is recorded. *)
Theorem init_configures_logger script_name max_log_files log_dir (w w' : OS) lm :
  LoggerManager.__init__ script_name max_log_files log_dir w = (Return lm, w') ->
  let new := LoggerManager.log_filename script_name log_dir (now w) in
  LoggerManager.logger lm = script_name /\
  loggers w' !! script_name =
    Some {| level := INFO;
            handlers := handlers_of script_name (loggers w) ++
                        [file_handler new; console_handler] |} /\
  (forall name, name ≠ script_name -> loggers w' !! name = loggers w !! name) /\
  is_Some (files w' !! new) /\
  log_dir ∈ dirs w'.
Proof.
  intros Hinit new. apply init_Return_state in Hinit as [-> ->]. fold new. cbn.
  split_and!.
  - reflexivity.
  - unfold configured. by rewrite lookup_insert_eq.
  - intros name Hne. unfold configured. by rewrite lookup_insert_ne.
  - unfold opened.
    destruct (files (cleaned script_name log_dir max_log_files w) !! new) eqn:Hnew; [by rewrite Hnew|].
    by rewrite lookup_insert_eq.
  - set_solver.
Qed.

Lemma construct_all_handlers script_name max_log_files log_dir (stamps : list string) :
  forall (w w' : OS) lms,
    construct_all script_name max_log_files log_dir stamps w = (Return lms, w') ->
    Forall (fun lm => lm = {| LoggerManager.logger := script_name |}) lms /\
    handlers_of script_name (loggers w') =
      handlers_of script_name (loggers w) ++
      flat_map (fun stamp =>
                  [file_handler (LoggerManager.log_filename script_name log_dir stamp);
                   console_handler]) stamps /\
    (stamps ≠ [] -> level <$> loggers w' !! script_name = Some INFO) /\
    stderr w' = stderr w /\
    (forall name, name ≠ script_name -> loggers w' !! name = loggers w !! name).
Proof.
  induction stamps as [|t stamps IH]; intros w w' lms Hrun.
  - cbn in Hrun. unfold ret in Hrun. simplify_eq. by rewrite app_nil_r.
  - cbn [construct_all] in Hrun.
    apply bind_Return_inv in Hrun as (lm & w1 & Hinit & Hrun).
    apply bind_Return_inv in Hrun as (lms' & w2 & Hrest & Hrun).
    unfold ret in Hrun. simplify_eq.
    apply init_Return_loggers in Hinit as (-> & Hreg & Herr & _). cbn in Hreg, Herr.
    destruct (IH _ _ _ Hrest) as (Hlms & Hhs & Hlvl & Herr' & Hother).
    assert (loggers w1 !! script_name =
            Some {| level := INFO;
                    handlers := handlers_of script_name (loggers w) ++
                      [file_handler (LoggerManager.log_filename script_name log_dir t);
                       console_handler] |}) as Hlg.
    { rewrite Hreg. unfold configured. by rewrite lookup_insert_eq. }
    split_and!.
    + by constructor.
    + rewrite Hhs. unfold handlers_of at 1. rewrite Hlg. cbn. by rewrite <- app_assoc.
    + intros _. destruct stamps as [|t' stamps]; [|by apply Hlvl].
      cbn in Hrest. unfold ret in Hrest. simplify_eq. by rewrite Hlg.
    + congruence.
    + intros name Hne. rewrite (Hother name Hne), Hreg. unfold configured.
      by rewrite lookup_insert_ne.
Qed.

Lemma console_handlers_constructed lvl script_name log_dir (stamps : list string) :
  (INFO <= lvl)%Z ->
  length (console_handlers lvl
            (flat_map (fun stamp =>
                         [file_handler (LoggerManager.log_filename script_name log_dir stamp);
                          console_handler]) stamps)) = length stamps.
Proof.
  intros Hlvl. induction stamps as [|t stamps IH]; [reflexivity|].
  cbn [flat_map]. rewrite console_handlers_app, length_app, IH.
  unfold console_handlers. rewrite filter_cons_False by (intros [Hx _]; discriminate).
  rewrite filter_cons_True by done. reflexivity.
Qed.

(** X4. Handlers accumulate. In a process in which no logger was
    registered before, k constructions for one script name leave that logger
    as the only one, with 2k handlers, and one call of [info] writes its
    line once per console handler: k times. *)
Theorem repeated_construction_repeats_records script_name max_log_files log_dir
    (stamps : list string) (w w' : OS) lms :
  construct_all script_name max_log_files log_dir stamps w = (Return lms, w') ->
  loggers w = ∅ ->
  forall lm message,
    lm ∈ lms ->
    (forall name, name ≠ script_name -> loggers w' !! name = None) /\
    length (handlers_of script_name (loggers w')) = 2 * length stamps /\
    stderr (LoggerManager.info lm message w').2 =
      stderr w' ++ replicate (length stamps) (format (asctime w') INFO message).
Proof.
  intros Hrun Hempty lm message Hlm.
  destruct (construct_all_handlers _ _ _ _ _ _ _ Hrun) as (Hlms & Hhs & Hlvl & _ & Hother).
  assert (handlers_of script_name (loggers w) = []) as Hold
    by (unfold handlers_of; by rewrite Hempty, lookup_empty).
  rewrite Hold in Hhs. cbn [app] in Hhs.
  rewrite Forall_forall in Hlms. rewrite (Hlms lm Hlm). split_and!.
  - intros name Hne. by rewrite (Hother name Hne), Hempty, lookup_empty.
  - rewrite Hhs. clear. induction stamps as [|t stamps IH]; cbn; lia.
  - assert (stamps ≠ []) as Hne.
    { intros ->. cbn in Hrun. unfold ret in Hrun. simplify_eq. by apply elem_of_nil in Hlm. }
    specialize (Hlvl Hne). unfold LoggerManager.info. cbn [LoggerManager.logger].
    destruct (loggers w' !! script_name) as [lg|] eqn:Hlg; [|discriminate].
    injection Hlvl as Hlvl.
    rewrite (Logger_log_stderr _ _ _ _ lg Hlg) by (rewrite Hlvl; done).
    f_equal. f_equal. unfold handlers_of in Hhs. rewrite Hlg in Hhs. cbn in Hhs.
    rewrite Hhs. by rewrite console_handlers_constructed.
Qed.

Lemma Logger_log_configured name filename lvl message (o : OS) lk lines :
  loggers o !! name =
    Some {| level := INFO; handlers := [file_handler filename; console_handler] |} ->
  files o !! filename = Some {| locked := lk; content := Text lines |} ->
  (INFO <= lvl)%Z ->
  Logger_log name lvl message o =
  (Return tt,
   set_stderr (stderr o ++ [format (asctime o) lvl message])
     (set_files
        (<[filename := {| locked := lk;
                          content := Text (lines ++ [format (asctime o) lvl message]) |}]>
           (files o)) o)).
Proof.
  intros Hlg Hfile Hlvl. unfold Logger_log. rewrite Hlg. cbn [level handlers].
  rewrite decide_True by done. cbn [foldl]. unfold Handler_emit at 2.
  cbn [file_handler handler_level target]. rewrite decide_True by done. rewrite Hfile.
  unfold Handler_emit. cbn [console_handler handler_level target].
  rewrite decide_True by done. reflexivity.
Qed.

(** X3. After a construction in a process in which no logger was
    registered before, the manager's logger is the only one, so that no
    handler of an ancestor takes part. Then each of [info], [warning],
    [error] and [critical] returns and writes one line,
    [<asctime> - <LEVEL> - <message>], to standard error and appends the
    same line to the manager's log file: none of the four levels is filtered
    out. This holds in every later state with that registry in which the
    log file is a text file. *)
Theorem manager_methods_write_file_and_console script_name max_log_files log_dir (w w' : OS) lm :
  LoggerManager.__init__ script_name max_log_files log_dir w = (Return lm, w') ->
  loggers w = ∅ ->
  let new := LoggerManager.log_filename script_name log_dir (now w) in
  loggers w' =
    {[ script_name := {| level := INFO; handlers := [file_handler new; console_handler] |} ]} /\
  forall (o : OS) lk lines message,
    loggers o = loggers w' ->
    files o !! new = Some {| locked := lk; content := Text lines |} ->
    let wrote lvl :=
      (Return tt,
       set_stderr (stderr o ++ [format (asctime o) lvl message])
         (set_files
            (<[new := {| locked := lk;
                         content := Text (lines ++ [format (asctime o) lvl message]) |}]>
               (files o)) o)) in
    LoggerManager.info lm message o = wrote INFO /\
    LoggerManager.warning lm message o = wrote WARNING /\
    LoggerManager.error lm message o = wrote ERROR /\
    LoggerManager.critical lm message o = wrote CRITICAL.
Proof.
  intros Hinit Hempty new.
  apply init_Return_loggers in Hinit as (-> & Hcfg & _). fold new in Hcfg.
  assert (loggers w' =
          {[ script_name :=
               {| level := INFO; handlers := [file_handler new; console_handler] |} ]})
    as Hsole.
  { rewrite Hcfg. unfold configured, handlers_of. rewrite Hempty, lookup_empty. cbn.
    by rewrite insert_empty. }
  split; [exact Hsole|]. intros o lk lines message Hreg Hfile wrote.
  assert (loggers o !! script_name =
          Some {| level := INFO; handlers := [file_handler new; console_handler] |}) as Hlg
    by by rewrite Hreg, Hsole, lookup_singleton_eq.
  unfold LoggerManager.info, LoggerManager.warning, LoggerManager.error, LoggerManager.critical.
  cbn [LoggerManager.logger].
  split_and!; apply Logger_log_configured; done.
Qed.

End LoggerConfiguration.

(** ** Edges of the cleanup and of the construction *)

Section CleanupEdges.

Context `{Glob}.

Lemma cleanup_noop script_name log_dir max_log_files (w : OS) :
  (Z.of_nat (length (component_logs script_name log_dir w)) < max_log_files)%Z ->
  LoggerManager._cleanup_old_logs script_name log_dir max_log_files w = (Return tt, w).
Proof.
  intros Hlt. rewrite cleanup_eq. rewrite attempted_nil.
  - unfold cleanup_outcome. rewrite decide_True by lia. reflexivity.
  - rewrite existing_logs_Permutation. lia.
Qed.

(** X5. With fewer than [max_log_files] log files of the component the
    cleanup removes nothing: it pops no entry, returns, and leaves the state
    as it is. *)
Theorem cleanup_below_limit_is_noop script_name log_dir max_log_files (w : OS) :
  (Z.of_nat (length (component_logs script_name log_dir w)) < max_log_files)%Z ->
  LoggerManager._cleanup_old_logs script_name log_dir max_log_files w = (Return tt, w) /\
  attempted max_log_files (existing_logs script_name log_dir w) = [].
Proof.
  intros Hlt. split; [by apply cleanup_noop|].
  apply attempted_nil. rewrite existing_logs_Permutation. lia.
Qed.

(** X6. When every log file of the component can be removed, a cleanup
    that has returned is idempotent: run again on the state it left, it
    returns and changes nothing. *)
Theorem cleanup_idempotent script_name log_dir max_log_files (w w1 : OS) :
  deletable script_name log_dir w ->
  LoggerManager._cleanup_old_logs script_name log_dir max_log_files w = (Return tt, w1) ->
  LoggerManager._cleanup_old_logs script_name log_dir max_log_files w1 = (Return tt, w1).
Proof.
  intros Hdel Hrun. rewrite cleanup_eq in Hrun. unfold cleanup_outcome in Hrun.
  destruct (decide (1 <= max_log_files)%Z) as [Hmax|]; [|discriminate].
  injection Hrun as <-. fold (cleaned script_name log_dir max_log_files w).
  apply cleanup_noop. rewrite cleaned_count by done. lia.
Qed.

Lemma attempted_all max_log_files (l : list string) :
  (max_log_files <= 0)%Z -> attempted max_log_files l = l.
Proof. intros Hmax. unfold attempted. apply take_ge. lia. Qed.

(** X7. With [max_log_files <= 0] the cleanup tries to remove every log
    file of the component, so every removable one is gone, and then raises
    [IndexError] from [pop(0)]. A construction ends in that exception (when
    the log directory can be made) with the logging registry as it was. *)
Theorem nonpositive_limit_removes_all_and_raises script_name log_dir max_log_files (w : OS) :
  (max_log_files <= 0)%Z ->
  let w1 := cleaned script_name log_dir max_log_files w in
  let e := {| exc_type := IndexError; exc_str := "pop from empty list" |} in
  LoggerManager._cleanup_old_logs script_name log_dir max_log_files w = (Raise e, w1) /\
  (forall p, p ∈ component_logs script_name log_dir w ->
             remove_error (files w) p = None -> files w1 !! p = None) /\
  (deletable script_name log_dir w -> component_logs script_name log_dir w1 = []) /\
  loggers w1 = loggers w /\
  (files w !! log_dir = None ->
   LoggerManager.__init__ script_name max_log_files log_dir w =
     (Raise e, set_dirs ({[log_dir]} ∪ dirs w) w1)).
Proof.
  intros Hmax w1 e.
  assert (LoggerManager._cleanup_old_logs script_name log_dir max_log_files w = (Raise e, w1))
    as Hrun.
  { rewrite cleanup_eq. unfold cleanup_outcome. rewrite decide_False by lia. reflexivity. }
  split_and!.
  - exact Hrun.
  - intros p Hp He. unfold w1. rewrite cleaned_files. rewrite decide_True; [done|].
    split; [|done]. rewrite attempted_all by done. by rewrite existing_logs_Permutation.
  - intros Hdel. apply Permutation_nil_r. unfold w1.
    rewrite cleaned_component_logs by done. unfold kept. rewrite drop_ge; [done|]. lia.
  - unfold w1, cleaned. apply attempts_untouched.
  - intros Hdir. unfold LoggerManager.__init__.
    unfold bind at 1. unfold os_makedirs. rewrite Hdir.
    unfold bind at 1. unfold datetime_now_strftime. cbv zeta.
    unfold bind at 1. rewrite cleanup_eq.
    change (existing_logs script_name log_dir (set_dirs ({[log_dir]} ∪ dirs w) w))
      with (existing_logs script_name log_dir w).
    rewrite attempts_set_dirs. fold (cleaned script_name log_dir max_log_files w). fold w1.
    unfold cleanup_outcome. rewrite decide_False by lia. reflexivity.
Qed.


(** X8. Whatever the outcome of a construction, the entries the loop keeps
    in its list, the last [max_log_files - 1] names in sorted order, are
    files and stay exactly as they were. *)
Theorem construction_spares_newest script_name max_log_files log_dir (w w' : OS) r (p : string) :
  LoggerManager.__init__ script_name max_log_files log_dir w = (r, w') ->
  p ∈ kept max_log_files (existing_logs script_name log_dir w) ->
  is_Some (files w !! p) /\ files w' !! p = files w !! p.
Proof.
  intros Hinit Hp.
  pose proof (NoDup_existing_logs script_name log_dir w) as Hnd.
  rewrite <- (attempted_kept max_log_files) in Hnd. apply NoDup_app in Hnd as (_ & Hdisj & _).
  assert (is_Some (files w !! p)) as Hsome.
  { apply (elem_of_component_logs script_name log_dir). rewrite <- existing_logs_Permutation.
    rewrite <- (attempted_kept max_log_files). apply elem_of_app. by right. }
  split; [done|].
  set (w1 := cleaned script_name log_dir max_log_files w).
  assert (files w1 !! p = files w !! p) as Hw1.
  { unfold w1. rewrite cleaned_files. rewrite decide_False; [done|].
    intros [Hin _]. by apply (Hdisj p). }
  apply init_cases in Hinit. cbv zeta in Hinit. fold w1 in Hinit.
  destruct Hinit as [(_ & _ & ->)|[Hc|[Hc|Hc]]].
  - done.
  - destruct Hc as (_ & _ & _ & -> & _). done.
  - destruct Hc as (_ & _ & _ & _ & -> & _). done.
  - destruct Hc as (_ & _ & _ & _ & -> & _). unfold opened.
    destruct (files w1 !! LoggerManager.log_filename script_name log_dir (now w)) eqn:Hnew;
      [done|].
    rewrite lookup_insert_ne; [done|]. intros <-. rewrite Hw1 in Hnew. rewrite Hnew in Hsome.
    by destruct Hsome.
Qed.

End CleanupEdges.

(** ** File names and time *)

Lemma ascii_compare_refl (c : ascii) : Ascii.compare c c = Eq.
Proof. unfold Ascii.compare. apply N.compare_refl. Qed.

Lemma string_compare_refl (s : string) : String.compare s s = Eq.
Proof.
  induction s as [|c s IH]; [reflexivity|].
  change (match Ascii.compare c c with
          | Eq => String.compare s s
          | o => o
          end = Eq).
  by rewrite ascii_compare_refl.
Qed.

Lemma compare_app_l (p a b : string) : String.compare (p +:+ a) (p +:+ b) = String.compare a b.
Proof.
  induction p as [|c p IH]; [reflexivity|].
  change (match Ascii.compare c c with
          | Eq => String.compare (p +:+ a) (p +:+ b)
          | o => o
          end = String.compare a b).
  by rewrite ascii_compare_refl.
Qed.

Lemma compare_app_same_length (a1 a2 r1 r2 : string) :
  String.length a1 = String.length a2 ->
  String.compare (a1 +:+ r1) (a2 +:+ r2) =
  match String.compare a1 a2 with
  | Eq => String.compare r1 r2
  | c => c
  end.
Proof.
  revert a2. induction a1 as [|c1 a1 IH]; intros [|c2 a2] Hlen; simpl in Hlen; try lia.
  - reflexivity.
  - change (match Ascii.compare c1 c2 with
            | Eq => String.compare (a1 +:+ r1) (a2 +:+ r2)
            | o => o
            end =
            match match Ascii.compare c1 c2 with
                  | Eq => String.compare a1 a2
                  | o => o
                  end with
            | Eq => String.compare r1 r2
            | c => c
            end).
    destruct (Ascii.compare c1 c2); [apply IH; lia|reflexivity..].
Qed.

Lemma two_digits_compare (m n : nat) :
  m < 100 -> n < 100 -> String.compare (two_digits m) (two_digits n) = Nat.compare m n.
Proof.
  assert (Forall (fun m => Forall (fun n =>
            String.compare (two_digits m) (two_digits n) = Nat.compare m n) (seq 0 100))
            (seq 0 100)) as Hall
    by (apply (bool_decide_unpack _); vm_compute; exact I).
  intros Hm Hn. rewrite Forall_forall in Hall.
  specialize (Hall m ltac:(apply elem_of_seq; lia)). rewrite Forall_forall in Hall.
  apply Hall. apply elem_of_seq. lia.
Qed.

Lemma year_compare (y1 y2 : nat) (rest : comparison) :
  match Nat.compare (y1 / 100) (y2 / 100) with
  | Eq => match Nat.compare (y1 mod 100) (y2 mod 100) with
          | Eq => rest
          | c => c
          end
  | c => c
  end =
  match Nat.compare y1 y2 with
  | Eq => rest
  | c => c
  end.
Proof.
  pose proof (Nat.div_mod_eq y1 100) as H1. pose proof (Nat.div_mod_eq y2 100) as H2.
  pose proof (Nat.mod_upper_bound y1 100 ltac:(lia)) as B1.
  pose proof (Nat.mod_upper_bound y2 100 ltac:(lia)) as B2.
  destruct (Nat.compare_spec (y1 / 100) (y2 / 100)) as [Hq|Hq|Hq];
    destruct (Nat.compare_spec (y1 mod 100) (y2 mod 100)) as [Hr|Hr|Hr];
    destruct (Nat.compare_spec y1 y2) as [Hy|Hy|Hy]; try reflexivity; exfalso; lia.
Qed.

Lemma strftime_compare (t1 t2 : datetime) (r : string) :
  datetime_valid t1 -> datetime_valid t2 ->
  String.compare (strftime t1 +:+ r) (strftime t2 +:+ r) = lex_compare (fields t1) (fields t2).
Proof.
  intros (Hy1 & Hm1 & Hd1 & Hh1 & Hi1 & Hs1) (Hy2 & Hm2 & Hd2 & Hh2 & Hi2 & Hs2).
  change (strftime t1 +:+ r)
    with (two_digits (year t1 / 100) +:+ two_digits (year t1 mod 100) +:+ "-" +:+
          two_digits (month t1) +:+ "-" +:+ two_digits (day t1) +:+ "-" +:+
          two_digits (hour t1) +:+ "-" +:+ two_digits (minute t1) +:+ "-" +:+
          two_digits (second t1) +:+ r).
  change (strftime t2 +:+ r)
    with (two_digits (year t2 / 100) +:+ two_digits (year t2 mod 100) +:+ "-" +:+
          two_digits (month t2) +:+ "-" +:+ two_digits (day t2) +:+ "-" +:+
          two_digits (hour t2) +:+ "-" +:+ two_digits (minute t2) +:+ "-" +:+
          two_digits (second t2) +:+ r).
  pose proof (Nat.mod_upper_bound (year t1) 100 ltac:(lia)).
  pose proof (Nat.mod_upper_bound (year t2) 100 ltac:(lia)).
  assert (year t1 / 100 < 100) by (apply Nat.Div0.div_lt_upper_bound; lia).
  assert (year t2 / 100 < 100) by (apply Nat.Div0.div_lt_upper_bound; lia).
  rewrite (compare_app_same_length (two_digits _) (two_digits _)) by reflexivity.
  rewrite two_digits_compare by lia.
  rewrite (compare_app_same_length (two_digits _) (two_digits _)) by reflexivity.
  rewrite two_digits_compare by lia.
  rewrite (compare_app_l "-").
  rewrite (compare_app_same_length (two_digits _) (two_digits _)) by reflexivity.
  rewrite two_digits_compare by lia.
  rewrite (compare_app_l "-").
  rewrite (compare_app_same_length (two_digits _) (two_digits _)) by reflexivity.
  rewrite two_digits_compare by lia.
  rewrite (compare_app_l "-").
  rewrite (compare_app_same_length (two_digits _) (two_digits _)) by reflexivity.
  rewrite two_digits_compare by lia.
  rewrite (compare_app_l "-").
  rewrite (compare_app_same_length (two_digits _) (two_digits _)) by reflexivity.
  rewrite two_digits_compare by lia.
  rewrite (compare_app_l "-").
  rewrite (compare_app_same_length (two_digits _) (two_digits _)) by reflexivity.
  rewrite two_digits_compare by lia.
  rewrite string_compare_refl, year_compare. reflexivity.
Qed.

Lemma log_filename_compare (script_name log_dir x1 x2 : string) :
  String.compare (LoggerManager.log_filename script_name log_dir x1)
    (LoggerManager.log_filename script_name log_dir x2) =
  String.compare (x1 +:+ ".log") (x2 +:+ ".log").
Proof.
  unfold LoggerManager.log_filename, os_path_join.
  rewrite (startswith_slash_name script_name (x1 +:+ ".log") (x2 +:+ ".log")).
  destruct (startswith "/" (script_name +:+ "-" +:+ x2 +:+ ".log"));
    [|destruct (decide (log_dir = "")); [|destruct (endswith_slash log_dir)]];
    by rewrite !compare_app_l.
Qed.

(** X9. For timestamps with a year of four digits the log file names of
    one component sort as their times do: the name for [t1] is at most the
    name for [t2] in string order if and only if [t1 <= t2] by year, month,
    day, hour, minute, second. So the oldest by name, which the cleanup
    removes, is the oldest by time. *)
Theorem log_filenames_sort_by_time (script_name log_dir : string) (t1 t2 : datetime) :
  datetime_valid t1 ->
  datetime_valid t2 ->
  String.le (LoggerManager.log_filename script_name log_dir (strftime t1))
    (LoggerManager.log_filename script_name log_dir (strftime t2)) <->
  datetime_le t1 t2.
Proof.
  intros Hv1 Hv2. unfold String.le, String.leb, datetime_le.
  rewrite log_filename_compare, strftime_compare by done.
  destruct (lex_compare (fields t1) (fields t2)); split; try done.
Qed.

Lemma log_filenames_sort_by_time_witness :
  let t1 := {| year := 2024; month := 9; day := 30; hour := 23; minute := 59; second := 59 |} in
  let t2 := {| year := 2024; month := 10; day := 1; hour := 0; minute := 0; second := 0 |} in
  strftime t1 = "2024-09-30-23-59-59" /\
  sorted [LoggerManager.log_filename "app" "logs" (strftime t2);
          LoggerManager.log_filename "app" "logs" (strftime t1)] =
    ["logs/app-2024-09-30-23-59-59.log"; "logs/app-2024-10-01-00-00-00.log"] /\
  String.le (LoggerManager.log_filename "app" "logs" (strftime t1))
    (LoggerManager.log_filename "app" "logs" (strftime t2)).
Proof.
  intros t1 t2. split; [vm_compute; reflexivity|]. split; [vm_compute; reflexivity|].
  apply (log_filenames_sort_by_time "app" "logs" t1 t2).
  - unfold datetime_valid, t1. cbn. lia.
  - unfold datetime_valid, t2. cbn. lia.
  - vm_compute. discriminate.
Defined.

(** ** The logger and the log directory on concrete states, continued *)

Lemma init_configures_logger_witness :
  init_app = (Return app_log, init_app.2) /\
  loggers init_app.2 !! "app" =
    Some {| level := INFO;
            handlers := [file_handler "logs/app-2024-01-04-00-00-00.log"; console_handler] |}.
Proof.
  assert (init_app = (Return app_log, init_app.2)) as Hrun by (vm_compute; reflexivity).
  split; [exact Hrun|].
  exact (proj1 (proj2 (@init_configures_logger star_glob "app" 3 "logs" (log_dir_os false)
                         init_app.2 app_log Hrun))).
Defined.


Lemma manager_methods_write_file_and_console_witness :
  (LoggerManager.error app_log "boom" init_app.2).1 = Return tt /\
  stderr (LoggerManager.error app_log "boom" init_app.2).2 =
    ["2024-01-04 00:00:00,000 - ERROR - boom"] /\
  content <$> files (LoggerManager.error app_log "boom" init_app.2).2
                !! "logs/app-2024-01-04-00-00-00.log" =
    Some (Text ["2024-01-04 00:00:00,000 - ERROR - boom"]).
Proof.
  assert (init_app = (Return app_log, init_app.2)) as Hrun by (vm_compute; reflexivity).
  destruct (@manager_methods_write_file_and_console star_glob "app" 3 "logs" (log_dir_os false)
              init_app.2 app_log Hrun eq_refl) as [_ Hmethods].
  destruct (Hmethods init_app.2 false [] "boom" eq_refl) as (_ & _ & Herror & _);
    [vm_compute; reflexivity|].
  rewrite Herror. split_and!; [reflexivity|vm_compute; reflexivity..].
Defined.

Lemma repeated_construction_repeats_records_witness :
  let run := @construct_all star_glob "app" 3 "logs" five_stamps (log_dir_os false) in
  stderr (LoggerManager.info app_log "hello" run.2).2 =
  replicate 5 "2024-01-04 00:00:00,000 - INFO - hello".
Proof.
  intros run.
  assert (run = (Return (replicate 5 app_log), run.2)) as Hrun by (vm_compute; reflexivity).
  destruct (@repeated_construction_repeats_records star_glob "app" 3 "logs" five_stamps
              (log_dir_os false) run.2 (replicate 5 app_log) Hrun eq_refl app_log "hello")
    as (_ & _ & Herr); [left|].
  rewrite Herr. vm_compute. reflexivity.
Defined.

Lemma cleanup_below_limit_is_noop_witness :
  @LoggerManager._cleanup_old_logs star_glob "app" "logs" 5 (log_dir_os false) =
  (Return tt, log_dir_os false).
Proof.
  apply (@cleanup_below_limit_is_noop star_glob "app" "logs" 5 (log_dir_os false)).
  vm_compute. reflexivity.
Defined.

Lemma cleanup_idempotent_witness :
  let w1 := (@LoggerManager._cleanup_old_logs star_glob "app" "logs" 2 (log_dir_os false)).2 in
  length (@component_logs star_glob "app" "logs" w1) = 1 /\
  @LoggerManager._cleanup_old_logs star_glob "app" "logs" 2 w1 = (Return tt, w1).
Proof.
  intros w1. split; [vm_compute; reflexivity|].
  apply (@cleanup_idempotent star_glob "app" "logs" 2 (log_dir_os false) w1).
  - unfold deletable. apply (bool_decide_unpack _). vm_compute. exact I.
  - vm_compute. reflexivity.
Defined.

Lemma nonpositive_limit_removes_all_and_raises_witness :
  let run := @LoggerManager.__init__ star_glob "app" 0 "logs" (log_dir_os false) in
  run.1 = Raise {| exc_type := IndexError; exc_str := "pop from empty list" |} /\
  @component_logs star_glob "app" "logs"
    (@cleaned star_glob "app" "logs" 0 (log_dir_os false)) = [].
Proof.
  intros run.
  destruct (@nonpositive_limit_removes_all_and_raises star_glob "app" "logs" 0 (log_dir_os false))
    as (_ & _ & Hall & _ & Hinit); [lia|].
  split.
  - unfold run. rewrite Hinit; [reflexivity|vm_compute; reflexivity].
  - apply Hall. unfold deletable. apply (bool_decide_unpack _). vm_compute. exact I.
Defined.

Lemma construction_spares_newest_witness :
  let run := @LoggerManager.__init__ star_glob "app" 2 "logs" (log_dir_os true) in
  files run.2 !! "logs/app-2024-01-03-00-00-00.log" =
  Some {| locked := false; content := Text ["c"] |}.
Proof.
  intros run.
  assert (@LoggerManager.__init__ star_glob "app" 2 "logs" (log_dir_os true) = (run.1, run.2))
    as Hrun by (unfold run; by destruct (LoggerManager.__init__ _ _ _ _)).
  destruct (@construction_spares_newest star_glob "app" 2 "logs" (log_dir_os true) run.2 run.1
              "logs/app-2024-01-03-00-00-00.log" Hrun) as [_ Hsame].
  - apply (bool_decide_unpack _). vm_compute. exact I.
  - rewrite Hsame. vm_compute. reflexivity.
Defined.

(** ** What a computation keeps *)

Lemma entry_kept_is_Some (path : string) (o o' : OS) :
  entry_kept path o o' -> is_Some (files o !! path) -> is_Some (files o' !! path).
Proof. intros [more ->] [f ->]. by eexists. Qed.

Lemma entry_kept_writable (path : string) (o o' : OS) :
  entry_kept path o o' -> writable path o -> writable path o'.
Proof.
  intros [more Hk] Hw f Hf. rewrite Hk in Hf.
  destruct (files o !! path) as [f0|] eqn:Hf0; [|discriminate].
  cbn in Hf. injection Hf as <-. rewrite appended_locked. by apply Hw.
Qed.

Lemma entry_kept_data (path : string) (o o' : OS) (f : file) :
  entry_kept path o o' ->
  files o !! path = Some f ->
  (forall lines, content f ≠ Text lines) ->
  files o' !! path = Some f.
Proof.
  intros [more ->] -> Hf. cbn. f_equal. unfold appended.
  destruct (content f) eqn:Hc; try reflexivity. by destruct (Hf lines).
Qed.

Section Preserves.

Context {S : Type} (R : relation S) `{!PreOrder R}.

Lemma preserves_ret {A} (a : A) : preserves R (ret a).
Proof. intros s. reflexivity. Qed.

Lemma preserves_raise {A} (e : Exception) : preserves R (@raise S A e).
Proof. intros s. reflexivity. Qed.

Lemma preserves_bind {A B} (m : M S A) (k : A -> M S B) :
  preserves R m -> (forall a, preserves R (k a)) -> preserves R (bind m k).
Proof.
  intros Hm Hk s. unfold bind. specialize (Hm s). destruct (m s) as [[a|e] s1]; [|exact Hm].
  etransitivity; [exact Hm|apply Hk].
Qed.

Lemma preserves_try_except {A} (body : M S A) catches (handler : Exception -> M S A) :
  preserves R body -> (forall e, preserves R (handler e)) ->
  preserves R (try_except body catches handler).
Proof.
  intros Hb Hh s. unfold try_except. specialize (Hb s).
  destruct (body s) as [[a|e] s1]; [exact Hb|].
  destruct (catches e); [|exact Hb]. etransitivity; [exact Hb|apply Hh].
Qed.

End Preserves.

Section WorldPreserves.

Context {G : Type} (R : relation (World G)) `{!Frame R}.

Lemma preserves_external {A} (m : M (World G) A) : preserves R m -> preserves R (external m).
Proof.
  intros Hm w. unfold external. destruct (head (faults w)) as [[e|]|].
  - apply frame_faults.
  - etransitivity; [apply frame_faults|apply Hm].
  - etransitivity; [apply frame_faults|apply Hm].
Qed.

Lemma preserves_call {A} (r : result A) : preserves R (call r).
Proof. apply preserves_external. intros w. reflexivity. Qed.

Lemma preserves_plot (f : Figure -> Figure) : preserves R (plot f).
Proof. apply preserves_external. intros w. apply frame_pyplot. Qed.

Lemma preserves_draw `{!RngFrame R} {A} (f : G -> A * G) : preserves R (draw f).
Proof.
  apply preserves_external. intros w. destruct (f (rng w)) as [a g]. apply frame_rng.
Qed.

Lemma preserves_log name lvl message : preserves R (in_os (Logger_log name lvl message)).
Proof.
  intros w. unfold in_os. pose proof (frame_log w name lvl message) as Hl. unfold log_record in Hl.
  by destruct (Logger_log name lvl message (os w)).
Qed.

Lemma preserves_makedirs `{!DirsFrame R} (path : string) : preserves R (in_os (os_makedirs path)).
Proof.
  intros w. unfold in_os, os_makedirs. destruct (files (os w) !! path).
  - cbn. destruct w; reflexivity.
  - apply frame_dirs.
Qed.

Lemma preserves_write (target : string) `{!WriteFrame target R} (d : World G -> data) :
  preserves R (fun w => in_os (write_file target (d w)) w).
Proof.
  intros w. unfold in_os, write_file.
  destruct (files (os w) !! target) as [f|]; [destruct (locked f)|]; try apply frame_write.
  cbn. destruct w; reflexivity.
Qed.

Lemma preserves_savefig (target : string) `{!WriteFrame target R} (d : World G -> data) :
  preserves R (fun w => in_os (savefig target (d w)) w).
Proof.
  intros w. unfold in_os, savefig. destruct (isdir _ _); [exact (preserves_write target d w)|].
  cbn. destruct w; reflexivity.
Qed.

Lemma preserves_to_csv (target : string) `{!WriteFrame target R} (d : World G -> data) :
  preserves R (fun w => in_os (to_csv target (d w)) w).
Proof.
  intros w. unfold in_os, to_csv. destruct (isdir _ _); [exact (preserves_write target d w)|].
  cbn. destruct w; reflexivity.
Qed.

End WorldPreserves.

Section Frames.

Context {G : Type}.

#[global] Instance os_kept_frame (path : string) : Frame (@os_kept G path).
Proof.
  split.
  - split; [intros w; unfold os_kept; reflexivity|].
    intros w1 w2 w3; unfold os_kept; apply transitivity.
  - intros w. unfold os_kept. reflexivity.
  - intros w f. unfold os_kept. reflexivity.
  - intros w name lvl message. apply log_record_kept.
Qed.

#[global] Instance os_kept_rng (path : string) : RngFrame (@os_kept G path).
Proof. intros w g. unfold os_kept. reflexivity. Qed.

#[global] Instance os_kept_dirs (path : string) : DirsFrame (@os_kept G path).
Proof. intros w dir. by apply entry_kept_files. Qed.

Lemma os_kept_write (path target : string) : path ≠ target -> WriteFrame target (@os_kept G path).
Proof. intros Hne w d. apply entry_kept_files. cbn. by rewrite lookup_insert_ne. Qed.

#[global] Instance rng_kept_frame : Frame (@rng_kept G).
Proof.
  split.
  - split; [by intros w|]. intros w1 w2 w3; unfold rng_kept; congruence.
  - by intros w.
  - by intros w f.
  - by intros w name lvl message.
Qed.

#[global] Instance rng_kept_dirs : DirsFrame (@rng_kept G).
Proof. by intros w dir. Qed.

#[global] Instance rng_kept_write (target : string) : WriteFrame target (@rng_kept G).
Proof. by intros w d. Qed.

#[global] Instance quiet_frame : Frame (@quiet G).
Proof.
  split.
  - split; [intros w Hf; exact Hf|]. intros w1 w2 w3 H12 H23 Hf. by apply H23, H12.
  - intros w Hf. cbn. by rewrite Hf.
  - intros w f Hf. exact Hf.
  - intros w name lvl message Hf. exact Hf.
Qed.

#[global] Instance quiet_rng : RngFrame (@quiet G).
Proof. intros w g Hf. exact Hf. Qed.

#[global] Instance quiet_dirs : DirsFrame (@quiet G).
Proof. intros w dir Hf. exact Hf. Qed.

#[global] Instance quiet_write (target : string) : WriteFrame target (@quiet G).
Proof. intros w d Hf. exact Hf. Qed.

#[global] Instance dirs_grow_frame : Frame (@dirs_grow G).
Proof.
  split.
  - split; [intros w; split; done|].
    intros w1 w2 w3 [Hd1 Ho1] [Hd2 Ho2]. split; [set_solver|congruence].
  - intros w. split; done.
  - intros w f. split; done.
  - intros w name lvl message.
    destruct (log_record_untouched name lvl message (os w)) as (Hd & Ho & _).
    unfold dirs_grow. cbn. by rewrite Hd, Ho.
Qed.

#[global] Instance dirs_grow_rng : RngFrame (@dirs_grow G).
Proof. intros w g. split; done. Qed.

#[global] Instance dirs_grow_dirs : DirsFrame (@dirs_grow G).
Proof. intros w dir. split; [cbn; set_solver|done]. Qed.

#[global] Instance dirs_grow_write (target : string) : WriteFrame target (@dirs_grow G).
Proof. intros w d. split; done. Qed.

End Frames.

#[global] Instance registry_kept_frame {G} : Frame (@registry_kept G).
Proof.
  split.
  - split; [by intros w|]. intros w1 w2 w3; unfold registry_kept; congruence.
  - by intros w.
  - by intros w f.
  - intros w name lvl message. unfold registry_kept. cbn. apply log_record_untouched.
Qed.

#[global] Instance registry_kept_rng {G} : RngFrame (@registry_kept G).
Proof. by intros w g. Qed.

#[global] Instance registry_kept_dirs {G} : DirsFrame (@registry_kept G).
Proof. by intros w dir. Qed.

#[global] Instance registry_kept_write {G} (target : string) :
  WriteFrame target (@registry_kept G).
Proof. by intros w d. Qed.

Section ScriptFrames.

Context `{RandomState G}.
Variable log : LoggerManager.t.
Context (R : relation (World G)) `{!Frame R}.

Ltac preserve :=
  repeat first
    [ apply preserves_log; [apply _]
    | apply preserves_makedirs; [apply _..]
    | apply preserves_draw; [apply _..]
    | apply preserves_call; [apply _]
    | apply preserves_plot; [apply _]
    | apply preserves_ret; [apply _]
    | apply preserves_raise; [apply _]
    | apply preserves_external; [apply _|]
    | apply preserves_try_except; [apply _| |intros ?]
    | apply preserves_bind; [apply _| |intros ?] ].

Lemma create_output_directories_preserves {Hdirs : DirsFrame R} :
  preserves R (create_output_directories log).
Proof.
  unfold create_output_directories, create_output_directories_try, log_info, log_error,
    LoggerManager.info, LoggerManager.error.
  preserve.
Qed.

Lemma generate_preserves {Hrng : RngFrame R} : preserves R (generate_synthetic_data log).
Proof.
  unfold generate_synthetic_data, generate_synthetic_data_try, log_info, log_error,
    LoggerManager.info, LoggerManager.error.
  cbv zeta. preserve.
Qed.

Lemma visualize_preserves {Hwrite : WriteFrame fig_filepath R} (df : DataFrame) :
  preserves R (visualize_data_distribution log df).
Proof.
  unfold visualize_data_distribution, visualize_data_distribution_try, log_info, log_error,
    LoggerManager.info, LoggerManager.error.
  cbv zeta. preserve.
  - intros w. destruct (scatter _ _ _); [apply frame_pyplot|reflexivity].
  - by apply (preserves_savefig R fig_filepath).
Qed.

Lemma save_preserves {Hwrite : WriteFrame output_path R} (df : DataFrame) :
  preserves R (save_generated_data log df).
Proof.
  unfold save_generated_data, save_generated_data_try, log_info, log_error,
    LoggerManager.info, LoggerManager.error.
  cbv zeta. preserve.
  by apply (preserves_to_csv R output_path (fun _ => table_of (rows df))).
Qed.

Lemma main_preserves {Hrng : RngFrame R} {Hdirs : DirsFrame R}
    {Hfig : WriteFrame fig_filepath R} {Hout : WriteFrame output_path R} :
  preserves R (main log).
Proof.
  unfold main, main_try. apply preserves_try_except; [apply _| |intros e; by apply preserves_log].
  apply preserves_bind; [apply _|by apply preserves_log|intros _].
  apply preserves_bind; [apply _|apply create_output_directories_preserves|intros _].
  apply preserves_bind; [apply _|apply generate_preserves|intros df].
  apply preserves_bind; [apply _|apply visualize_preserves|intros _].
  apply preserves_bind; [apply _|apply save_preserves|intros _].
  by apply preserves_log.
Qed.

End ScriptFrames.

(** ** The phases of the script *)

Section ScriptRuns.

Context `{RandomState G}.
Variable log : LoggerManager.t.

Lemma preserves_run {A} (R : relation (World G)) (m : M (World G) A) (w w' : World G) r :
  preserves R m -> m w = (r, w') -> R w w'.
Proof. intros Hm Hrun. specialize (Hm w). by rewrite Hrun in Hm. Qed.

Lemma external_cases {A} (m : M (World G) A) (w : World G) :
  (exists e, external m w = (Raise e, set_faults (tail (faults w)) w)) \/
  external m w = m (set_faults (tail (faults w)) w).
Proof. unfold external. destruct (head (faults w)) as [[e|]|]; eauto. Qed.

Lemma log_record_data name lvl message (o : OS) (path : string) (f : file) :
  files o !! path = Some f ->
  (forall lines, content f ≠ Text lines) ->
  files (log_record name lvl message o) !! path = Some f.
Proof. apply entry_kept_data, log_record_kept. Qed.

Lemma log_record_None name lvl message (o : OS) (path : string) :
  files o !! path = None -> files (log_record name lvl message o) !! path = None.
Proof. apply entry_kept_None, log_record_kept. Qed.

Lemma log_record_writable name lvl message (o : OS) (path : string) :
  writable path o -> writable path (log_record name lvl message o).
Proof. apply entry_kept_writable, log_record_kept. Qed.

Lemma write_file_writable (path : string) (d : data) (o : OS) :
  writable path o ->
  write_file path d o =
  (Return tt, set_files (<[path := {| locked := false; content := d |}]> (files o)) o).
Proof.
  intros Hw. unfold write_file. destruct (files o !! path) as [f|] eqn:Hf; [|reflexivity].
  by rewrite (Hw f Hf).
Qed.

Lemma isdir_elem_of (dir : string) (o : OS) : dir ∈ dirs o -> isdir dir o = true.
Proof. intros Hd. unfold isdir. apply bool_decide_eq_true. by right. Qed.

Lemma savefig_writable (path dir : string) (d : data) (o : OS) :
  os_path_dirname path = dir ->
  dir ∈ dirs o ->
  writable path o ->
  savefig path d o =
  (Return tt, set_files (<[path := {| locked := false; content := d |}]> (files o)) o).
Proof.
  intros <- Hd Hw. unfold savefig. rewrite isdir_elem_of by done. by apply write_file_writable.
Qed.

Lemma to_csv_writable (path dir : string) (d : data) (o : OS) :
  os_path_dirname path = dir ->
  dir ∈ dirs o ->
  writable path o ->
  to_csv path d o =
  (Return tt, set_files (<[path := {| locked := false; content := d |}]> (files o)) o).
Proof.
  intros <- Hd Hw. unfold to_csv. rewrite isdir_elem_of by done. by apply write_file_writable.
Qed.

Lemma log_record_dirs name lvl message (o : OS) (dir : string) :
  dir ∈ dirs o -> dir ∈ dirs (log_record name lvl message o).
Proof. intros Hd. by destruct (log_record_untouched name lvl message o) as (-> & _). Qed.

(** A chain of log records on top of a state keeps every entry. *)
Ltac kept :=
  cbn [os set_os set_faults set_pyplot set_rng];
  repeat first
    [ reflexivity
    | etransitivity; [|apply log_record_kept] ].

Ltac ext_step :=
  unfold bind at 1; rewrite external_no_fault by (cbn; done); cbv beta iota.

Lemma create_output_directories_returns (w : World G) :
  faults w = [] ->
  files (os w) !! "data/raw" = None ->
  files (os w) !! "artifacts/charts" = None ->
  exists w',
    create_output_directories log w = (Return tt, w') /\
    "data/raw" ∈ dirs (os w') /\ "artifacts/charts" ∈ dirs (os w').
Proof.
  intros Hf H1 H2. unfold create_output_directories. rewrite log_and_reraise.
  unfold create_output_directories_try.
  rewrite (bind_Return _ _ _ _ _ (log_info_eq log _ w)).
  fold (log_record (LoggerManager.logger log) INFO "Creating output directories" (os w)).
  set (o1 := log_record _ _ _ (os w)).
  rewrite (bind_Return _ _ (set_os o1 w) tt
             (set_os (set_dirs ({[ "data/raw" ]} ∪ dirs o1) o1) w)).
  2:{ rewrite external_no_fault by done. unfold in_os, os_makedirs. cbn [os set_os].
      unfold o1. by rewrite log_record_None. }
  set (o2 := set_dirs _ o1).
  rewrite (bind_Return _ _ (set_os o2 w) tt
             (set_os (set_dirs ({[ "artifacts/charts" ]} ∪ dirs o2) o2) w)).
  2:{ rewrite external_no_fault by done. unfold in_os, os_makedirs. cbn [os set_os].
      unfold o2. cbn [files set_dirs]. unfold o1. by rewrite log_record_None. }
  rewrite log_info_eq. eexists. split; [reflexivity|].
  cbn [os set_os]. fold (log_record (LoggerManager.logger log) INFO
                           (tab +:+ "Output directories created successfully")
                           (set_dirs ({[ "artifacts/charts" ]} ∪ dirs o2) o2)).
  destruct (log_record_untouched (LoggerManager.logger log) INFO
              (tab +:+ "Output directories created successfully")
              (set_dirs ({[ "artifacts/charts" ]} ∪ dirs o2) o2)) as (-> & _).
  cbn. set_solver.
Qed.

Lemma visualize_returns (df : DataFrame) (w : World G) :
  faults w = [] ->
  length (Price df) = length (Quantity df) ->
  "artifacts/charts" ∈ dirs (os w) ->
  writable fig_filepath (os w) ->
  exists w',
    visualize_data_distribution log df w = (Return tt, w') /\
    files (os w') !! fig_filepath = Some {| locked := false; content := chart_of (rows df) |}.
Proof.
  intros Hf Hlen Hdir Hw. unfold visualize_data_distribution. rewrite log_and_reraise.
  unfold visualize_data_distribution_try. cbv zeta.
  rewrite (bind_Return _ _ _ _ _ (log_info_eq log _ w)).
  fold (log_record (LoggerManager.logger log) INFO "Creating data distribution visualizations"
          (os w)).
  set (o1 := log_record _ _ _ (os w)).
  unfold plot. ext_step. ext_step.
  cbn [pyplot set_pyplot set_os]. unfold scatter. rewrite decide_True by done.
  cbn [points xlabel ylabel title app]. cbv beta iota.
  do 4 ext_step. unfold in_os at 1.
  cbn [pyplot set_pyplot set_os os points xlabel ylabel title].
  rewrite (savefig_writable _ "artifacts/charts")
    by (first [reflexivity|by apply log_record_dirs|by apply log_record_writable]).
  rewrite log_info_eq. eexists. split; [reflexivity|].
  cbn [os set_os]. apply log_record_data; [|done].
  cbn. by rewrite lookup_insert_eq.
Qed.

Lemma save_returns (df : DataFrame) (w : World G) :
  faults w = [] ->
  "data/raw" ∈ dirs (os w) ->
  writable output_path (os w) ->
  exists w',
    save_generated_data log df w = (Return tt, w') /\
    files (os w') !! output_path = Some {| locked := false; content := table_of (rows df) |}.
Proof.
  intros Hf Hdir Hw. unfold save_generated_data. rewrite log_and_reraise.
  unfold save_generated_data_try. cbv zeta.
  ext_step. unfold in_os at 1.
  rewrite (to_csv_writable _ "data/raw") by done.
  rewrite log_info_eq. eexists. split; [reflexivity|].
  cbn [os set_os]. apply log_record_data; [|done].
  cbn. by rewrite lookup_insert_eq.
Qed.

End ScriptRuns.

Section ScriptOutcomes.

Context `{RandomState G}.
Variable log : LoggerManager.t.

Ltac ext_cases Hbody :=
  unfold bind at 1 in Hbody;
  match type of Hbody with
  | context [external ?m ?W] =>
      let e := fresh "e" in
      let Hx := fresh "Hx" in
      destruct (external_cases m W) as [[e Hx]|Hx]; rewrite Hx in Hbody; clear Hx;
      cbv beta iota in Hbody
  end.

Ltac kept_chain :=
  unfold os_kept; cbn [os set_os set_faults set_pyplot set_rng];
  repeat first [ reflexivity | etransitivity; [|apply log_record_kept] ].

Lemma bind_plot_cases {A} (f : Figure -> Figure) (k : unit -> M (World G) A)
    (w w' : World G) r :
  bind (plot f) k w = (r, w') ->
  (exists e, r = Raise e /\ os w' = os w) \/
  (exists w1, os w1 = os w /\ pyplot w1 = f (pyplot w) /\ k tt w1 = (r, w')).
Proof.
  unfold bind, plot. destruct (external_cases (fun w => (Return tt, set_pyplot (f (pyplot w)) w)) w)
    as [[e ->]| ->].
  - intros Heq. simplify_eq. left. eauto.
  - intros Hk. right. eexists. split_and!; [| |exact Hk]; reflexivity.
Qed.

Lemma bind_scatter_cases {A} (x y : ndarray) (k : unit -> M (World G) A) (w w' : World G) r :
  bind (external (fun w =>
          match scatter x y (pyplot w) with
          | Return f => (Return tt, set_pyplot f w)
          | Raise e => (Raise e, w)
          end)) k w = (r, w') ->
  (exists e, r = Raise e /\ os w' = os w) \/
  (exists w1,
     os w1 = os w /\ length x = length y /\
     pyplot w1 = {| points := points (pyplot w) ++ zip x y; xlabel := xlabel (pyplot w);
                    ylabel := ylabel (pyplot w); title := title (pyplot w) |} /\
     k tt w1 = (r, w')).
Proof.
  unfold bind.
  destruct (external_cases (fun w => match scatter x y (pyplot w) with
                                     | Return f => (Return tt, set_pyplot f w)
                                     | Raise e => (Raise e, w)
                                     end) w) as [[e ->]| ->].
  - intros Heq. simplify_eq. left. eauto.
  - cbv beta. unfold scatter. cbn [pyplot set_faults].
    destruct (decide (length x = length y)) as [Hlen|Hlen].
    + intros Hk. right. eexists. split_and!; [| | |exact Hk]; done.
    + intros Heq. simplify_eq. left. eauto.
Qed.

Lemma bind_savefig_cases {A} (k : unit -> M (World G) A) (w w' : World G) r :
  bind (external (fun w =>
          in_os (savefig "artifacts/charts/raw_data_distribution.png"
                   (Png (title (pyplot w)) (xlabel (pyplot w)) (ylabel (pyplot w))
                      (points (pyplot w)))) w)) k w = (r, w') ->
  (exists e, r = Raise e /\ os w' = os w) \/
  (exists w1,
     files (os w1) !! fig_filepath =
       Some {| locked := false;
               content := Png (title (pyplot w)) (xlabel (pyplot w)) (ylabel (pyplot w))
                            (points (pyplot w)) |} /\
     k tt w1 = (r, w')).
Proof.
  unfold bind.
  destruct (external_cases
              (fun w => in_os (savefig "artifacts/charts/raw_data_distribution.png"
                                 (Png (title (pyplot w)) (xlabel (pyplot w)) (ylabel (pyplot w))
                                    (points (pyplot w)))) w) w) as [[e ->]| ->].
  - intros Heq. simplify_eq. left. eauto.
  - cbv beta. unfold in_os, savefig. cbn [os pyplot set_faults].
    destruct (isdir _ (os w)); [|intros Heq; simplify_eq; left; eauto].
    unfold write_file.
    destruct (files (os w) !! "artifacts/charts/raw_data_distribution.png") as [f|] eqn:Hfile;
      [destruct (locked f)|].
    + intros Heq. simplify_eq. left. eauto.
    + intros Hk. right. eexists. split; [|exact Hk]. cbn. by rewrite lookup_insert_eq.
    + intros Hk. right. eexists. split; [|exact Hk]. cbn. by rewrite lookup_insert_eq.
Qed.

(** The chart file after the [try] block of [visualize_data_distribution]:
    written when the block returns, kept when it raises. *)
Lemma visualize_try_cases (df : DataFrame) (w w' : World G) r :
  visualize_data_distribution_try log df w = (r, w') ->
  match r with
  | Raise _ => os_kept fig_filepath w w'
  | Return _ =>
      length (Price df) = length (Quantity df) /\
      files (os w') !! fig_filepath = Some {| locked := false; content := chart_of (rows df) |}
  end.
Proof.
  unfold visualize_data_distribution_try. cbv zeta. intros Hbody.
  rewrite (bind_Return _ _ _ _ _ (log_info_eq log _ w)) in Hbody.
  fold (log_record (LoggerManager.logger log) INFO "Creating data distribution visualizations"
          (os w)) in Hbody.
  assert (entry_kept fig_filepath (os w)
            (log_record (LoggerManager.logger log) INFO
               "Creating data distribution visualizations" (os w))) as Hk0
    by apply log_record_kept.
  apply bind_plot_cases in Hbody as [(e & -> & Ho)|(w1 & Ho1 & Hp1 & Hbody)];
    [unfold os_kept; by rewrite Ho|].
  cbn [os set_os] in Ho1.
  apply bind_scatter_cases in Hbody as [(e & -> & Ho)|(w2 & Ho2 & Hlen & Hp2 & Hbody)];
    [unfold os_kept; by rewrite Ho, Ho1|].
  apply bind_plot_cases in Hbody as [(e & -> & Ho)|(w3 & Ho3 & Hp3 & Hbody)];
    [unfold os_kept; by rewrite Ho, Ho2, Ho1|].
  apply bind_plot_cases in Hbody as [(e & -> & Ho)|(w4 & Ho4 & Hp4 & Hbody)];
    [unfold os_kept; by rewrite Ho, Ho3, Ho2, Ho1|].
  apply bind_plot_cases in Hbody as [(e & -> & Ho)|(w5 & Ho5 & Hp5 & Hbody)];
    [unfold os_kept; by rewrite Ho, Ho4, Ho3, Ho2, Ho1|].
  apply bind_savefig_cases in Hbody as [(e & -> & Ho)|(w6 & Hfile & Hbody)];
    [unfold os_kept; by rewrite Ho, Ho5, Ho4, Ho3, Ho2, Ho1|].
  rewrite log_info_eq in Hbody. simplify_eq. split; [done|].
  cbn [os set_os]. apply log_record_data; [|done].
  rewrite Hfile, Hp5, Hp4, Hp3, Hp2, Hp1. reflexivity.
Qed.

Lemma visualize_cases (df : DataFrame) (w w' : World G) r :
  visualize_data_distribution log df w = (r, w') ->
  match r with
  | Raise _ => os_kept fig_filepath w w'
  | Return _ =>
      length (Price df) = length (Quantity df) /\
      files (os w') !! fig_filepath = Some {| locked := false; content := chart_of (rows df) |}
  end.
Proof.
  unfold visualize_data_distribution. rewrite log_and_reraise.
  destruct (visualize_data_distribution_try log df w) as [[[]|e] w1] eqn:Hbody; intros Heq;
    simplify_eq.
  - by apply visualize_try_cases in Hbody.
  - apply visualize_try_cases in Hbody.
    unfold os_kept in *. cbn [os set_os]. etransitivity; [exact Hbody|apply log_record_kept].
Qed.

Lemma save_try_cases (df : DataFrame) (w w' : World G) r :
  save_generated_data_try log df w = (r, w') ->
  match r with
  | Raise _ => os_kept output_path w w'
  | Return _ =>
      files (os w') !! output_path = Some {| locked := false; content := table_of (rows df) |}
  end.
Proof.
  unfold save_generated_data_try. cbv zeta. intros Hbody.
  ext_cases Hbody; [simplify_eq; kept_chain|].
  unfold in_os at 1 in Hbody. cbn [os set_faults] in Hbody. unfold to_csv in Hbody.
  destruct (isdir _ (os w)); [|simplify_eq; kept_chain].
  unfold write_file in Hbody.
  destruct (files (os w) !! "data/raw/synthetic_pricing_data.csv") as [f|] eqn:Hfile;
    [destruct (locked f)|]; cbv beta iota in Hbody.
  - simplify_eq. kept_chain.
  - rewrite log_info_eq in Hbody. simplify_eq.
    cbn [os set_os]. apply log_record_data; [|done]. cbn. by rewrite lookup_insert_eq.
  - rewrite log_info_eq in Hbody. simplify_eq.
    cbn [os set_os]. apply log_record_data; [|done]. cbn. by rewrite lookup_insert_eq.
Qed.

Lemma save_cases (df : DataFrame) (w w' : World G) r :
  save_generated_data log df w = (r, w') ->
  match r with
  | Raise _ => os_kept output_path w w'
  | Return _ =>
      files (os w') !! output_path = Some {| locked := false; content := table_of (rows df) |}
  end.
Proof.
  unfold save_generated_data. rewrite log_and_reraise.
  destruct (save_generated_data_try log df w) as [[[]|e] w1] eqn:Hbody; intros Heq;
    simplify_eq.
  - by apply save_try_cases in Hbody.
  - apply save_try_cases in Hbody.
    unfold os_kept in *. cbn [os set_os]. etransitivity; [exact Hbody|apply log_record_kept].
Qed.

End ScriptOutcomes.

Section ScriptProperties.

Context `{RandomState G}.
Variable log : LoggerManager.t.

Lemma create_output_directories_run (w : World G) :
  faults w = [] ->
  files (os w) !! "data/raw" = None ->
  files (os w) !! "artifacts/charts" = None ->
  exists w',
    create_output_directories log w = (Return tt, w') /\
    "data/raw" ∈ dirs (os w') /\ "artifacts/charts" ∈ dirs (os w') /\
    (forall p, entry_kept p (os w) (os w')) /\
    faults w' = [] /\ rng w' = rng w /\
    dirs (os w) ⊆ dirs (os w') /\ stdout (os w') = stdout (os w).
Proof.
  intros Hf H1 H2.
  destruct (create_output_directories_returns log w Hf H1 H2) as (w' & Hrun & Hd1 & Hd2).
  exists w'. split_and!; try done.
  - intros p. exact (preserves_run (os_kept p) _ _ _ _
                       (create_output_directories_preserves log _) Hrun).
  - by apply (preserves_run quiet _ _ _ _ (create_output_directories_preserves log _) Hrun).
  - exact (preserves_run rng_kept _ _ _ _ (create_output_directories_preserves log _) Hrun).
  - apply (preserves_run dirs_grow _ _ _ _ (create_output_directories_preserves log _) Hrun).
  - apply (preserves_run dirs_grow _ _ _ _ (create_output_directories_preserves log _) Hrun).
Qed.

(** X10. When neither [data/raw] nor [artifacts/charts] is the name of a
    file and no library call fails, [create_output_directories] returns with
    both directories made; directories are only added, every file is as it
    was apart from log lines, the random state is untouched, and a second
    call returns as well ([exist_ok=True]). *)
Theorem create_output_directories_creates (w : World G) :
  faults w = [] ->
  files (os w) !! "data/raw" = None ->
  files (os w) !! "artifacts/charts" = None ->
  exists w',
    create_output_directories log w = (Return tt, w') /\
    "data/raw" ∈ dirs (os w') /\ "artifacts/charts" ∈ dirs (os w') /\
    dirs (os w) ⊆ dirs (os w') /\
    (forall p, entry_kept p (os w) (os w')) /\
    rng w' = rng w /\
    exists w'',
      create_output_directories log w' = (Return tt, w'') /\
      "data/raw" ∈ dirs (os w'') /\ "artifacts/charts" ∈ dirs (os w'').
Proof.
  intros Hf H1 H2.
  destruct (create_output_directories_run w Hf H1 H2)
    as (w' & Hrun & Hd1 & Hd2 & Hkept & Hf' & Hrng & Hsub & _).
  exists w'. split_and!; try done.
  destruct (create_output_directories_run w' Hf') as (w'' & Hrun' & Hd1' & Hd2' & _).
  - by apply (entry_kept_None _ _ _ (Hkept _)).
  - by apply (entry_kept_None _ _ _ (Hkept _)).
  - eauto.
Qed.

(** X11. [create_output_directories] is not atomic. With a file named
    [data/raw] it raises [FileExistsError] for that path and makes no
    directory. With a file named [artifacts/charts] only, it raises
    [FileExistsError] for that path after [data/raw] has been made, and
    [data/raw] stays. *)
Theorem create_output_directories_file_in_the_way (w : World G) :
  faults w = [] ->
  let exists_error path :=
    {| exc_type := FileExistsError; exc_str := "[Errno 17] File exists: '" +:+ path +:+ "'" |} in
  (is_Some (files (os w) !! "data/raw") ->
   exists w',
     create_output_directories log w = (Raise (exists_error "data/raw"), w') /\
     dirs (os w') = dirs (os w)) /\
  (files (os w) !! "data/raw" = None ->
   is_Some (files (os w) !! "artifacts/charts") ->
   exists w',
     create_output_directories log w = (Raise (exists_error "artifacts/charts"), w') /\
     dirs (os w') = {[ "data/raw" ]} ∪ dirs (os w)).
Proof.
  intros Hf exists_error.
  set (o1 := log_record (LoggerManager.logger log) INFO "Creating output directories" (os w)).
  assert (forall path, is_Some (files (os w) !! path) -> is_Some (files o1 !! path)) as Hsome.
  { intros path [f Hp]. destruct (log_record_kept (LoggerManager.logger log) INFO
                                    "Creating output directories" (os w) path) as [more Hk].
    fold o1 in Hk. rewrite Hk, Hp. by eexists. }
  assert (dirs o1 = dirs (os w)) as Hdirs by apply log_record_untouched.
  split.
  - intros Hfile. apply Hsome in Hfile as [f Hfile].
    unfold create_output_directories. rewrite log_and_reraise.
    unfold create_output_directories_try.
    rewrite (bind_Return _ _ _ _ _ (log_info_eq log _ w)).
    fold (log_record (LoggerManager.logger log) INFO "Creating output directories" (os w)).
    fold o1.
    rewrite (bind_Raise _ _ (set_os o1 w) (exists_error "data/raw") (set_os o1 w)).
    2:{ rewrite external_no_fault by done. unfold in_os, os_makedirs. cbn [os set_os].
        by rewrite Hfile. }
    eexists. split; [reflexivity|]. cbn [os set_os].
    fold (log_record (LoggerManager.logger log) ERROR
            (tab +:+ "Failed to create output directories: " +:+ exc_str (exists_error "data/raw"))
            o1).
    rewrite <- Hdirs. apply log_record_untouched.
  - intros Hnone Hfile. apply Hsome in Hfile as [f Hfile].
    unfold create_output_directories. rewrite log_and_reraise.
    unfold create_output_directories_try.
    rewrite (bind_Return _ _ _ _ _ (log_info_eq log _ w)).
    fold (log_record (LoggerManager.logger log) INFO "Creating output directories" (os w)).
    fold o1.
    rewrite (bind_Return _ _ (set_os o1 w) tt
               (set_os (set_dirs ({[ "data/raw" ]} ∪ dirs o1) o1) w)).
    2:{ rewrite external_no_fault by done. unfold in_os, os_makedirs. cbn [os set_os].
        unfold o1. by rewrite log_record_None. }
    set (o2 := set_dirs _ o1).
    rewrite (bind_Raise _ _ (set_os o2 w) (exists_error "artifacts/charts") (set_os o2 w)).
    2:{ rewrite external_no_fault by done. unfold in_os, os_makedirs. cbn [os set_os].
        unfold o2. cbn [files set_dirs]. by rewrite Hfile. }
    eexists. split; [reflexivity|]. cbn [os set_os].
    fold (log_record (LoggerManager.logger log) ERROR
            (tab +:+ "Failed to create output directories: " +:+
             exc_str (exists_error "artifacts/charts")) o2).
    destruct (log_record_untouched (LoggerManager.logger log) ERROR
                (tab +:+ "Failed to create output directories: " +:+
                 exc_str (exists_error "artifacts/charts")) o2) as (-> & _).
    unfold o2. cbn. by rewrite Hdirs.
Qed.

Lemma visualize_run (df : DataFrame) (w : World G) :
  faults w = [] ->
  length (Price df) = length (Quantity df) ->
  "artifacts/charts" ∈ dirs (os w) ->
  writable fig_filepath (os w) ->
  exists w',
    visualize_data_distribution log df w = (Return tt, w') /\
    files (os w') !! fig_filepath = Some {| locked := false; content := chart_of (rows df) |} /\
    (forall p, p ≠ fig_filepath -> entry_kept p (os w) (os w')) /\
    rng w' = rng w /\ faults w' = [] /\
    dirs (os w) ⊆ dirs (os w') /\ stdout (os w') = stdout (os w).
Proof.
  intros Hf Hlen Hdir Hw.
  destruct (visualize_returns log df w Hf Hlen Hdir Hw) as (w' & Hrun & Hfile).
  exists w'. split_and!; try done.
  - intros p Hp.
    exact (preserves_run (os_kept p) _ _ _ _
             (visualize_preserves log _ (Hwrite := os_kept_write _ _ Hp) df) Hrun).
  - exact (preserves_run rng_kept _ _ _ _ (visualize_preserves log _ df) Hrun).
  - by apply (preserves_run quiet _ _ _ _ (visualize_preserves log _ df) Hrun).
  - apply (preserves_run dirs_grow _ _ _ _ (visualize_preserves log _ df) Hrun).
  - apply (preserves_run dirs_grow _ _ _ _ (visualize_preserves log _ df) Hrun).
Qed.

Lemma save_run (df : DataFrame) (w : World G) :
  faults w = [] ->
  "data/raw" ∈ dirs (os w) ->
  writable output_path (os w) ->
  exists w',
    save_generated_data log df w = (Return tt, w') /\
    files (os w') !! output_path = Some {| locked := false; content := table_of (rows df) |} /\
    (forall p, p ≠ output_path -> entry_kept p (os w) (os w')) /\
    rng w' = rng w /\ faults w' = [] /\
    dirs (os w) ⊆ dirs (os w') /\ stdout (os w') = stdout (os w).
Proof.
  intros Hf Hdir Hw. destruct (save_returns log df w Hf Hdir Hw) as (w' & Hrun & Hfile).
  exists w'. split_and!; try done.
  - intros p Hp.
    exact (preserves_run (os_kept p) _ _ _ _
             (save_preserves log _ (Hwrite := os_kept_write _ _ Hp) df) Hrun).
  - exact (preserves_run rng_kept _ _ _ _ (save_preserves log _ df) Hrun).
  - by apply (preserves_run quiet _ _ _ _ (save_preserves log _ df) Hrun).
  - apply (preserves_run dirs_grow _ _ _ _ (save_preserves log _ df) Hrun).
  - apply (preserves_run dirs_grow _ _ _ _ (save_preserves log _ df) Hrun).
Qed.

(** X12. For a frame whose columns have the same length, when the
    directory [artifacts/charts] exists, the chart file can be written and
    no library call fails, [visualize_data_distribution] returns and the
    chart file holds the scatter of exactly the rows of the frame, with the
    labels Price and Quantity and the title Data Distribution, whatever
    figure was current before. Every other file is as it was apart from log
    lines, and the random state is untouched. *)
Theorem visualize_saves_chart (df : DataFrame) (w : World G) :
  faults w = [] ->
  length (Price df) = length (Quantity df) ->
  "artifacts/charts" ∈ dirs (os w) ->
  writable fig_filepath (os w) ->
  exists w',
    visualize_data_distribution log df w = (Return tt, w') /\
    files (os w') !! fig_filepath = Some {| locked := false; content := chart_of (rows df) |} /\
    (forall p, p ≠ fig_filepath -> entry_kept p (os w) (os w')) /\
    rng w' = rng w.
Proof.
  intros Hf Hlen Hdir Hw.
  destruct (visualize_run df w Hf Hlen Hdir Hw) as (w' & ? & ? & ? & ? & _).
  by exists w'.
Qed.

(** X13. When the directory [data/raw] exists, the CSV file can be written
    and no library call fails, [save_generated_data] returns and the file
    holds the header Price, Quantity and exactly the rows of the frame, in
    order, replacing what the file held. Every other file is as it was apart
    from log lines, and the random state is untouched. *)
Theorem save_writes_table (df : DataFrame) (w : World G) :
  faults w = [] ->
  "data/raw" ∈ dirs (os w) ->
  writable output_path (os w) ->
  exists w',
    save_generated_data log df w = (Return tt, w') /\
    files (os w') !! output_path = Some {| locked := false; content := table_of (rows df) |} /\
    (forall p, p ≠ output_path -> entry_kept p (os w) (os w')) /\
    rng w' = rng w.
Proof.
  intros Hf Hdir Hw. destruct (save_run df w Hf Hdir Hw) as (w' & ? & ? & ? & ? & _).
  by exists w'.
Qed.

Lemma main_try_returns (w : World G) :
  faults w = [] ->
  files (os w) !! "data/raw" = None ->
  files (os w) !! "artifacts/charts" = None ->
  writable output_path (os w) ->
  writable fig_filepath (os w) ->
  exists df w',
    main_try log w = (Return tt, w') /\
    rows df = spec_dataset (draws_of (rng w)).1 /\
    files (os w') !! output_path = Some {| locked := false; content := table_of (rows df) |} /\
    files (os w') !! fig_filepath = Some {| locked := false; content := chart_of (rows df) |} /\
    rng w' = (draws_of (rng w)).2 /\
    "data/raw" ∈ dirs (os w') /\ "artifacts/charts" ∈ dirs (os w') /\
    stdout (os w') = stdout (os w) /\ faults w' = [].
Proof.
  intros Hf Hraw Hcharts Hcsv Hpng. unfold main_try.
  rewrite (bind_Return _ _ _ _ _ (log_info_eq log _ w)).
  fold (log_record (LoggerManager.logger log) INFO "Starting data generation script" (os w)).
  set (w1 := set_os _ w).
  assert (forall p, entry_kept p (os w) (os w1)) as Hk1 by (intros p; apply log_record_kept).
  destruct (create_output_directories_run w1) as (w2 & Hrun2 & Hd1 & Hd2 & Hk2 & Hf2 & Hg2 & Hs2 & Ho2);
    [done|by apply (entry_kept_None _ _ _ (Hk1 _))..|].
  rewrite (bind_Return _ _ _ _ _ Hrun2). change (rng w1) with (rng w) in Hg2.
  destruct (generate_returns log w2 Hf2) as (df & w3 & Hrun3).
  rewrite (bind_Return _ _ _ _ _ Hrun3).
  destruct (generate_Return_spec _ _ _ _ Hrun3) as (Hrows & Hp & Hq & Hg3).
  pose proof (fun p => preserves_run (os_kept p) _ _ _ _ (generate_preserves log _) Hrun3) as Hk3.
  pose proof (preserves_run quiet _ _ _ _ (generate_preserves log _) Hrun3 Hf2) as Hf3.
  destruct (preserves_run dirs_grow _ _ _ _ (generate_preserves log _) Hrun3) as [Hs3 Ho3].
  assert (forall p, entry_kept p (os w) (os w3)) as Hk03.
  { intros p. etransitivity; [apply Hk1|]. etransitivity; [apply Hk2|apply Hk3]. }
  destruct (visualize_run df w3) as (w4 & Hrun4 & Hfile4 & Hk4 & Hg4 & Hf4 & Hs4 & Ho4).
  { done. }
  { by rewrite Hp, Hq, !length_fmap. }
  { by apply Hs3. }
  { by apply (entry_kept_writable _ _ _ (Hk03 _)). }
  rewrite (bind_Return _ _ _ _ _ Hrun4).
  destruct (save_run df w4) as (w5 & Hrun5 & Hfile5 & Hk5 & Hg5 & Hf5 & Hs5 & Ho5).
  { done. }
  { by apply Hs4, Hs3. }
  { apply (entry_kept_writable _ _ _ (Hk4 output_path ltac:(done))).
    by apply (entry_kept_writable _ _ _ (Hk03 _)). }
  rewrite (bind_Return _ _ _ _ _ Hrun5). rewrite log_info_eq.
  fold (log_record (LoggerManager.logger log) INFO "Data generation completed successfully"
          (os w5)).
  exists df. eexists. split; [reflexivity|]. cbn [os set_os rng faults].
  destruct (log_record_untouched (LoggerManager.logger log) INFO
              "Data generation completed successfully" (os w5)) as (Hdl & Hol & _).
  split_and!.
  - by rewrite Hrows, Hg2.
  - by apply log_record_data.
  - apply log_record_data; [|done].
    by apply (entry_kept_data _ _ _ _ (Hk5 fig_filepath ltac:(done))).
  - congruence.
  - rewrite Hdl. by apply Hs5, Hs4, Hs3.
  - rewrite Hdl. by apply Hs5, Hs4, Hs3.
  - rewrite Hol, Ho5, Ho4, Ho3, Ho2. apply log_record_untouched.
  - done.
Qed.

End ScriptProperties.

(** ** Whole runs *)

Lemma outputs_log_record dataset (o o' : OS) name lvl message :
  outputs dataset o o' -> outputs dataset o (log_record name lvl message o').
Proof.
  intros [Hc Hf|Hc Hf|Hc Hf].
  - apply outputs_untouched; (etransitivity; [eassumption|apply log_record_kept]).
  - apply outputs_chart_only; [etransitivity; [eassumption|apply log_record_kept]|].
    by apply log_record_data.
  - apply outputs_both; by apply log_record_data.
Qed.

Lemma output_path_fig_filepath : output_path ≠ fig_filepath.
Proof. unfold output_path, fig_filepath. discriminate. Qed.

Lemma fig_filepath_output_path : fig_filepath ≠ output_path.
Proof. unfold output_path, fig_filepath. discriminate. Qed.

Section ScriptEndToEnd.

Context `{RandomState G}.
Variable log : LoggerManager.t.

(** X14. A run of the main block in which nothing fails: it returns, both
    directories exist, and the CSV file and the chart hold the same
    dataset, the one the generator builds from the random state the run
    starts with; the random state is advanced by the draws of one
    generation and nothing is printed to standard output. *)
Theorem main_writes_dataset (w : World G) :
  faults w = [] ->
  files (os w) !! "data/raw" = None ->
  files (os w) !! "artifacts/charts" = None ->
  writable output_path (os w) ->
  writable fig_filepath (os w) ->
  let dataset := spec_dataset (draws_of (rng w)).1 in
  exists w',
    main log w = (Return tt, w') /\
    files (os w') !! output_path =
      Some {| locked := false; content := Csv ["Price"; "Quantity"] dataset |} /\
    files (os w') !! fig_filepath =
      Some {| locked := false;
              content := Png "Data Distribution" "Price" "Quantity" dataset |} /\
    rng w' = (draws_of (rng w)).2 /\
    "data/raw" ∈ dirs (os w') /\ "artifacts/charts" ∈ dirs (os w') /\
    stdout (os w') = stdout (os w).
Proof.
  intros Hf Hraw Hcharts Hcsv Hpng dataset.
  destruct (main_try_returns log w Hf Hraw Hcharts Hcsv Hpng)
    as (df & w' & Hrun & Hrows & Htable & Hchart & Hrng & Hd1 & Hd2 & Hout & _).
  exists w'. rewrite main_unfold, Hrun. rewrite Hrows in Htable, Hchart. done.
Qed.

Lemma main_try_outputs (w w' : World G) r :
  main_try log w = (r, w') ->
  let dataset := spec_dataset (draws_of (rng w)).1 in
  outputs dataset (os w) (os w') /\
  (r = Return tt ->
   files (os w') !! output_path = Some {| locked := false; content := table_of dataset |} /\
   files (os w') !! fig_filepath = Some {| locked := false; content := chart_of dataset |}).
Proof.
  unfold main_try. rewrite (bind_Return _ _ _ _ _ (log_info_eq log _ w)).
  fold (log_record (LoggerManager.logger log) INFO "Starting data generation script" (os w)).
  set (w1 := set_os _ w).
  assert (forall p, entry_kept p (os w) (os w1)) as Hk1 by (intros p; apply log_record_kept).
  unfold bind at 1.
  destruct (create_output_directories log w1) as [[[]|e] w2] eqn:Hrun2.
  2:{ intros Heq. simplify_eq.
      pose proof (fun p => preserves_run (os_kept p) _ _ _ _
                             (create_output_directories_preserves log _) Hrun2) as Hk2.
      split; [|discriminate].
      apply outputs_untouched; (etransitivity; [apply Hk1|apply Hk2]). }
  pose proof (fun p => preserves_run (os_kept p) _ _ _ _
                         (create_output_directories_preserves log _) Hrun2) as Hk2.
  pose proof (preserves_run rng_kept _ _ _ _ (create_output_directories_preserves log _) Hrun2)
    as Hg2.
  change (rng w2 = rng w) in Hg2.
  unfold bind at 1.
  destruct (generate_synthetic_data log w2) as [[df|e] w3] eqn:Hrun3.
  2:{ intros Heq. simplify_eq.
      pose proof (fun p => preserves_run (os_kept p) _ _ _ _ (generate_preserves log _) Hrun3)
        as Hk3.
      split; [|discriminate].
      apply outputs_untouched;
        (etransitivity; [apply Hk1|]; etransitivity; [apply Hk2|apply Hk3]). }
  pose proof (fun p => preserves_run (os_kept p) _ _ _ _ (generate_preserves log _) Hrun3) as Hk3.
  destruct (generate_Return_spec _ _ _ _ Hrun3) as (Hrows & _). rewrite Hg2 in Hrows.
  assert (forall p, entry_kept p (os w) (os w3)) as Hk03.
  { intros p. etransitivity; [apply Hk1|]. etransitivity; [apply Hk2|apply Hk3]. }
  unfold bind at 1.
  destruct (visualize_data_distribution log df w3) as [[[]|e] w4] eqn:Hrun4.
  2:{ intros Heq. simplify_eq. apply visualize_cases in Hrun4 as Hfig.
      pose proof (preserves_run (os_kept output_path) _ _ _ _
                    (visualize_preserves log _ (Hwrite := os_kept_write _ _ output_path_fig_filepath) df)
                    Hrun4) as Hk4.
      split; [|discriminate].
      apply outputs_untouched;
        [etransitivity; [apply Hk03|exact Hk4]|etransitivity; [apply Hk03|exact Hfig]]. }
  apply visualize_cases in Hrun4 as Hfig. destruct Hfig as [_ Hfig]. rewrite Hrows in Hfig.
  pose proof (preserves_run (os_kept output_path) _ _ _ _
                (visualize_preserves log _ (Hwrite := os_kept_write _ _ output_path_fig_filepath) df)
                Hrun4) as Hk4.
  unfold bind at 1.
  destruct (save_generated_data log df w4) as [[[]|e] w5] eqn:Hrun5.
  2:{ intros Heq. simplify_eq. apply save_cases in Hrun5 as Hcsv.
      pose proof (preserves_run (os_kept fig_filepath) _ _ _ _
                    (save_preserves log _ (Hwrite := os_kept_write _ _ fig_filepath_output_path) df)
                    Hrun5) as Hk5.
      split; [|discriminate].
      apply outputs_chart_only.
      - etransitivity; [apply Hk03|]. etransitivity; [exact Hk4|exact Hcsv].
      - by apply (entry_kept_data _ _ _ _ Hk5). }
  apply save_cases in Hrun5 as Hcsv. rewrite Hrows in Hcsv.
  pose proof (preserves_run (os_kept fig_filepath) _ _ _ _
                (save_preserves log _ (Hwrite := os_kept_write _ _ fig_filepath_output_path) df)
                Hrun5) as Hk5.
  rewrite log_info_eq. intros Heq. simplify_eq. cbn [os set_os].
  assert (files (os w5) !! fig_filepath =
          Some {| locked := false;
                  content := chart_of (spec_dataset (draws_of (rng w)).1) |}) as Hfig5
    by by apply (entry_kept_data _ _ _ _ Hk5).
  split; [apply outputs_both|intros _; split]; by apply log_record_data.
Qed.

(** X16. The order of the two outputs. Whatever fails during a run of the
    main block, the block returns, and the CSV file is touched only after
    the chart has been written: at the end either the CSV file is as it was
    (apart from log lines, should a handler write to it) or the chart holds
    the whole dataset. When no exception reaches the handler of the main
    block, the CSV file and the chart both hold the whole dataset. *)
Theorem csv_written_after_chart (w : World G) :
  let dataset := spec_dataset (draws_of (rng w)).1 in
  let w' := (main log w).2 in
  (main log w).1 = Return tt /\
  (entry_kept output_path (os w) (os w') \/
   files (os w') !! fig_filepath = Some {| locked := false; content := chart_of dataset |}) /\
  (forall w1,
     main_try log w = (Return tt, w1) ->
     files (os w') !! output_path = Some {| locked := false; content := table_of dataset |} /\
     files (os w') !! fig_filepath = Some {| locked := false; content := chart_of dataset |}).
Proof.
  intros dataset w'. split; [apply main_never_raises|]. unfold w'. rewrite main_unfold.
  destruct (main_try log w) as [[[]|e] w1] eqn:Hrun; apply main_try_outputs in Hrun as [Hout Hret].
  - cbn [snd]. split; [|intros _ _; by apply Hret].
    destruct Hout as [Hc _|Hc _|_ Hf]; [by left|by left|by right].
  - split; [|intros w2 Heq; discriminate].
    apply (outputs_log_record _ _ _ (LoggerManager.logger log) CRITICAL
             ("Script execution failed: " +:+ exc_str e)) in Hout.
    cbn [snd os set_os].
    destruct Hout as [Hc _|Hc _|_ Hf]; [by left|by left|by right].
Qed.

End ScriptEndToEnd.

Lemma script_log_filename (timestamp : string) :
  LoggerManager.log_filename SCRIPT_NAME "logs" timestamp =
  "logs/01_generate-synthetic-data-" +:+ timestamp +:+ ".log".
Proof. reflexivity. Qed.

(** X15. A run of the whole script in which nothing fails writes the
    dataset of seed 1, whatever random state the process starts with: the
    logger is made, the state is seeded, and the CSV file and the chart hold
    the rows generated from [seed 1]. The log file of the run exists
    afterwards. *)
Theorem script_writes_seeded_dataset `{Glob} `{RandomState G} (w : World G) :
  faults w = [] ->
  files (os w) !! "logs" = None ->
  writable (LoggerManager.log_filename SCRIPT_NAME "logs" (now (os w))) (os w) ->
  files (os w) !! "data/raw" = None ->
  files (os w) !! "artifacts/charts" = None ->
  writable output_path (os w) ->
  writable fig_filepath (os w) ->
  let dataset := spec_dataset (draws_of (seed 1)).1 in
  exists w',
    script w = (Return tt, w') /\
    files (os w') !! output_path =
      Some {| locked := false; content := Csv ["Price"; "Quantity"] dataset |} /\
    files (os w') !! fig_filepath =
      Some {| locked := false;
              content := Png "Data Distribution" "Price" "Quantity" dataset |} /\
    rng w' = (draws_of (seed 1)).2 /\
    is_Some (files (os w') !! LoggerManager.log_filename SCRIPT_NAME "logs" (now (os w))).
Proof.
  intros Hf Hlogs Hnew Hraw Hcharts Hcsv Hpng dataset. unfold script, create_logger.
  destruct (init_returns SCRIPT_NAME 3 "logs" (os w) ltac:(lia) Hlogs Hnew) as (lm & o1 & Hinit).
  rewrite (bind_Return _ _ w lm (set_os o1 w)) by (unfold in_os; by rewrite Hinit).
  apply init_Return_inv in Hinit as (_ & _ & Hfiles & Hstdout & _).
  set (new := LoggerManager.log_filename SCRIPT_NAME "logs" (now (os w))) in *.
  assert (forall p, p ≠ new -> files (os w) !! p = None -> files o1 !! p = None) as Hnone.
  { intros p Hp Hn. rewrite Hfiles. unfold opened.
    pose proof (cleaned_lookup_None SCRIPT_NAME "logs" 3 (os w) p Hn) as Hc.
    destruct (files (cleaned SCRIPT_NAME "logs" 3 (os w)) !! new); [done|].
    by rewrite lookup_insert_ne. }
  assert (forall p, p ≠ new -> writable p (os w) -> writable p o1) as Hwr.
  { intros p Hp Hw f Hfile. rewrite Hfiles in Hfile. unfold opened in Hfile.
    destruct (files (cleaned SCRIPT_NAME "logs" 3 (os w)) !! new);
      [|rewrite lookup_insert_ne in Hfile by done];
      apply cleaned_lookup_Some in Hfile; by apply Hw. }
  assert (is_Some (files o1 !! new)) as Hlog.
  { rewrite Hfiles. unfold opened.
    destruct (files (cleaned SCRIPT_NAME "logs" 3 (os w)) !! new) eqn:Hc; [by rewrite Hc|].
    by rewrite lookup_insert_eq. }
  unfold bind at 1. rewrite external_no_fault by done.
  set (w2 := set_rng (seed 1) (set_os o1 w)).
  destruct (main_try_returns lm w2)
    as (df & w' & Hrun & Hrows & Htable & Hchart & Hrng & _).
  { done. }
  { apply Hnone; [|done]. unfold new. rewrite script_log_filename. discriminate. }
  { apply Hnone; [|done]. unfold new. rewrite script_log_filename. discriminate. }
  { apply Hwr; [|done]. unfold new. rewrite script_log_filename. discriminate. }
  { apply Hwr; [|done]. unfold new. rewrite script_log_filename. discriminate. }
  assert (main lm w2 = (Return tt, w')) as Hmain by by rewrite main_unfold, Hrun.
  exists w'. rewrite Hrows in Htable, Hchart. split_and!; try done.
  assert (new ≠ fig_filepath /\ new ≠ output_path) as [Hn1 Hn2]
    by (unfold new; rewrite script_log_filename; split; discriminate).
  pose proof (preserves_run (os_kept new) _ _ _ _
                (main_preserves lm _ (Hfig := os_kept_write _ _ Hn1)
                   (Hout := os_kept_write _ _ Hn2)) Hmain) as Hkept.
  by apply (entry_kept_is_Some _ _ _ Hkept).
Qed.

Section FailureReports.

Context `{RandomState G}.
Variable log : LoggerManager.t.



End FailureReports.

Section Mirror.

Context {G : Type}.

Lemma mirrored_same (name filename : string) (w w' : World G) :
  loggers (os w') = loggers (os w) ->
  stderr (os w') = stderr (os w) ->
  files (os w') !! filename = files (os w) !! filename ->
  mirrored name filename w w'.
Proof.
  intros Hl He Hf [Hreg (lk & lines & Hfile)]. split.
  - split; [by rewrite Hl|]. exists lk, lines. by rewrite Hf.
  - exists []. rewrite He, app_nil_r, Hf, Hfile. cbn. by rewrite app_nil_r.
Qed.

#[global] Instance mirrored_frame (name filename : string) : Frame (@mirrored G name filename).
Proof.
  split.
  - split.
    + intros w. by apply mirrored_same.
    + intros w1 w2 w3 H12 H23 Hs1.
      destruct (H12 Hs1) as (Hs2 & l1 & He1 & Hf1).
      destruct (H23 Hs2) as (Hs3 & l2 & He2 & Hf2).
      split; [done|]. exists (l1 ++ l2). rewrite He2, He1, Hf2, Hf1, <- app_assoc.
      split; [done|]. destruct (files (os w1) !! filename); cbn; by rewrite ?appended_app.
  - intros w. by apply mirrored_same.
  - intros w f. by apply mirrored_same.
  - intros w name' lvl message.
    destruct (decide (name' = name /\ (INFO <= lvl)%Z)) as [[-> Hlvl]|Hno].
    + intros [Hreg (lk & lines & Hfile)].
      assert (Logger_log name lvl message (os w) =
              (Return tt,
               set_stderr (stderr (os w) ++ [format (asctime (os w)) lvl message])
                 (set_files
                    (<[filename := {| locked := lk;
                                      content := Text (lines ++ [format (asctime (os w)) lvl message]) |}]>
                       (files (os w))) (os w)))) as Hlog.
      { apply Logger_log_configured; [|done..]. rewrite Hreg. by rewrite lookup_singleton_eq. }
      unfold log_record. rewrite Hlog.
      cbn [os set_os snd files stderr loggers set_stderr set_files]. split.
      * split; [done|]. exists lk, (lines ++ [format (asctime (os w)) lvl message]).
        cbn [files set_stderr set_files]. by rewrite lookup_insert_eq.
      * exists [format (asctime (os w)) lvl message]. split; [done|].
        by rewrite lookup_insert_eq, Hfile.
    + intros Hsole. pose proof Hsole as [Hreg _].
      assert (log_record name' lvl message (os w) = os w) as Hlog.
      { unfold log_record, Logger_log. rewrite Hreg.
        destruct (decide (name' = name)) as [->|Hne].
        - rewrite lookup_singleton_eq. cbn [level]. rewrite decide_False; [done|]. tauto.
        - by rewrite lookup_singleton_ne. }
      cbn [os set_os]. rewrite Hlog. revert Hsole. by apply mirrored_same.
Qed.

#[global] Instance mirrored_rng (name filename : string) : RngFrame (@mirrored G name filename).
Proof. intros w g. by apply mirrored_same. Qed.

#[global] Instance mirrored_dirs (name filename : string) : DirsFrame (@mirrored G name filename).
Proof. intros w dir. by apply mirrored_same. Qed.

Lemma mirrored_write (name filename target : string) :
  filename ≠ target -> WriteFrame target (@mirrored G name filename).
Proof. intros Hne w d. apply mirrored_same; [done..|]. cbn. by rewrite lookup_insert_ne. Qed.

End Mirror.

Section MirrorTheorem.

Context `{RandomState G}.
Variable log : LoggerManager.t.

(** X18. When the only logger registered is the one a construction
    configured, its log file not being one of the two output files, a run of
    the main block, however it ends, appends to the log file exactly the
    lines it writes to standard error, in the same order. *)
Theorem log_file_mirrors_console (filename : string) (w : World G) :
  filename ≠ output_path ->
  filename ≠ fig_filepath ->
  sole_logger (LoggerManager.logger log) filename (os w) ->
  let w' := (main log w).2 in
  exists lines,
    stderr (os w') = stderr (os w) ++ lines /\
    files (os w') !! filename = appended lines <$> files (os w) !! filename.
Proof.
  intros Hout Hfig Hsole w'.
  pose proof (main_preserves log (mirrored (LoggerManager.logger log) filename)
                (Hfig := mirrored_write _ _ _ Hfig) (Hout := mirrored_write _ _ _ Hout) w)
    as Hm.
  by destruct (Hm Hsole) as [_ ?].
Qed.

End MirrorTheorem.

(** After [create_logger] in a fresh process, a whole run of the main block:
    the log file holds the nine lines that went to the console. *)
Lemma log_file_mirrors_console_witness :
  let w' := (main the_log (world1 0 [])).2 in
  length (stderr (os w')) = 9 /\
  content <$> files (os w') !! "logs/01_generate-synthetic-data-2024-01-01-00-00-00.log" =
    Some (Text (stderr (os w'))).
Proof.
  intros w'.
  destruct (log_file_mirrors_console the_log
              "logs/01_generate-synthetic-data-2024-01-01-00-00-00.log" (world1 0 []))
    as (lines & Herr & Hfile); [discriminate|discriminate| |].
  { split; [vm_compute; reflexivity|]. exists false, []. vm_compute. reflexivity. }
  fold w' in Herr, Hfile. split; [vm_compute; reflexivity|].
  rewrite Hfile, Herr. vm_compute. reflexivity.
Defined.

Section Footprint.

Context `{RandomState G}.
Variable log : LoggerManager.t.

(** X19. What the phases and the main block never do, however they end.
    None of them removes a directory, writes to standard output or changes
    the logging registry. [create_output_directories] and
    [generate_synthetic_data] leave every file as it was apart from log
    lines; [visualize_data_distribution] and [save_generated_data] leave
    every file but their own output so, and so does the main block for
    every file but the two outputs. Only the generation draws from the
    random state. *)
Theorem run_touches_only_its_outputs (df : DataFrame) (w : World G) :
  let surroundings_kept (w' : World G) :=
    dirs (os w) ⊆ dirs (os w') /\ stdout (os w') = stdout (os w) /\
    loggers (os w') = loggers (os w) in
  ((forall p, entry_kept p (os w) (os (create_output_directories log w).2)) /\
   rng (create_output_directories log w).2 = rng w /\
   surroundings_kept (create_output_directories log w).2) /\
  ((forall p, entry_kept p (os w) (os (generate_synthetic_data log w).2)) /\
   surroundings_kept (generate_synthetic_data log w).2) /\
  ((forall p, p ≠ fig_filepath ->
              entry_kept p (os w) (os (visualize_data_distribution log df w).2)) /\
   rng (visualize_data_distribution log df w).2 = rng w /\
   surroundings_kept (visualize_data_distribution log df w).2) /\
  ((forall p, p ≠ output_path -> entry_kept p (os w) (os (save_generated_data log df w).2)) /\
   rng (save_generated_data log df w).2 = rng w /\
   surroundings_kept (save_generated_data log df w).2) /\
  ((forall p, p ≠ output_path -> p ≠ fig_filepath -> entry_kept p (os w) (os (main log w).2)) /\
   surroundings_kept (main log w).2).
Proof.
  intros surroundings_kept.
  assert (forall {A} (m : M (World G) A),
            preserves dirs_grow m -> preserves registry_kept m -> surroundings_kept (m w).2)
    as Hsur.
  { intros A m Hd Hr. destruct (Hd w) as [? ?]. specialize (Hr w). done. }
  split_and!.
  - intros p. apply (create_output_directories_preserves log (os_kept p)).
  - apply (create_output_directories_preserves log rng_kept).
  - apply Hsur; apply create_output_directories_preserves; apply _.
  - intros p. apply (generate_preserves log (os_kept p)).
  - apply Hsur; apply generate_preserves; apply _.
  - intros p Hp. apply (visualize_preserves log (os_kept p) (Hwrite := os_kept_write _ _ Hp)).
  - apply (visualize_preserves log rng_kept).
  - apply Hsur; apply visualize_preserves; apply _.
  - intros p Hp. apply (save_preserves log (os_kept p) (Hwrite := os_kept_write _ _ Hp)).
  - apply (save_preserves log rng_kept).
  - apply Hsur; apply save_preserves; apply _.
  - intros p Hout Hfig.
    apply (main_preserves log (os_kept p) (Hfig := os_kept_write _ _ Hfig)
             (Hout := os_kept_write _ _ Hout)).
  - apply Hsur; apply main_preserves; apply _.
Qed.

End Footprint.



(** ** The script on concrete runs, continued *)

Lemma create_output_directories_creates_witness :
  exists w',
    create_output_directories the_log (world1 0 []) = (Return tt, w') /\
    "data/raw" ∈ dirs (os w') /\ "artifacts/charts" ∈ dirs (os w').
Proof.
  destruct (create_output_directories_creates the_log (world1 0 []))
    as (w' & Hrun & Hd1 & Hd2 & _); [reflexivity|vm_compute; reflexivity..|].
  exists w'. split; [exact Hrun|]. split; [exact Hd1|exact Hd2].
Defined.

Lemma create_output_directories_file_in_the_way_witness :
  (exists w',
     create_output_directories the_log (set_os (blocked_os "data/raw") (world1 0 [])) =
       (Raise {| exc_type := FileExistsError;
                 exc_str := "[Errno 17] File exists: 'data/raw'" |}, w') /\
     "data/raw" ∉ dirs (os w')) /\
  (exists w',
     create_output_directories the_log (set_os (blocked_os "artifacts/charts") (world1 0 [])) =
       (Raise {| exc_type := FileExistsError;
                 exc_str := "[Errno 17] File exists: 'artifacts/charts'" |}, w') /\
     "data/raw" ∈ dirs (os w')).
Proof.
  split.
  - destruct (create_output_directories_file_in_the_way the_log
                (set_os (blocked_os "data/raw") (world1 0 [])) eq_refl) as [Hfirst _].
    destruct Hfirst as (w' & Hrun & Hdirs);
      [exists {| locked := false; content := Text [] |}; vm_compute; reflexivity|].
    exists w'. split; [exact Hrun|]. rewrite Hdirs. vm_compute. set_solver.
  - destruct (create_output_directories_file_in_the_way the_log
                (set_os (blocked_os "artifacts/charts") (world1 0 [])) eq_refl) as [_ Hsecond].
    destruct Hsecond as (w' & Hrun & Hdirs);
      [vm_compute; reflexivity
      |exists {| locked := false; content := Text [] |}; vm_compute; reflexivity|].
    exists w'. split; [exact Hrun|]. rewrite Hdirs. set_solver.
Defined.

Lemma visualize_saves_chart_witness :
  exists w',
    visualize_data_distribution the_log small_frame made_world = (Return tt, w') /\
    files (os w') !! fig_filepath =
      Some {| locked := false;
              content := Png "Data Distribution" "Price" "Quantity" [(6, 970); (7, 965)]%Q |}.
Proof.
  destruct (visualize_saves_chart the_log small_frame made_world)
    as (w' & Hrun & Hfile & _);
    [vm_compute; reflexivity|reflexivity|apply (bool_decide_unpack _); vm_compute; exact I
    |intros f Hf; vm_compute in Hf; discriminate|].
  exists w'. split; [exact Hrun|exact Hfile].
Defined.

Lemma save_writes_table_witness :
  exists w',
    save_generated_data the_log small_frame made_world = (Return tt, w') /\
    files (os w') !! output_path =
      Some {| locked := false;
              content := Csv ["Price"; "Quantity"] [(6, 970); (7, 965)]%Q |}.
Proof.
  destruct (save_writes_table the_log small_frame made_world)
    as (w' & Hrun & Hfile & _);
    [vm_compute; reflexivity|apply (bool_decide_unpack _); vm_compute; exact I
    |intros f Hf; vm_compute in Hf; discriminate|].
  exists w'. split; [exact Hrun|exact Hfile].
Defined.

(** A run in which nothing fails writes the CSV file. *)
Lemma csv_written_after_chart_witness :
  files (os (main the_log (world1 0 [])).2) !! output_path =
    Some {| locked := false;
            content := Csv ["Price"; "Quantity"] (spec_dataset (draws_of 0).1) |}.
Proof.
  destruct (main_try_returns the_log (world1 0 [])) as (df & w1 & Hrun & _);
    [reflexivity|vm_compute; reflexivity|vm_compute; reflexivity
    |intros f Hf; vm_compute in Hf; discriminate
    |intros f Hf; vm_compute in Hf; discriminate|].
  exact (proj1 (proj2 (proj2 (csv_written_after_chart the_log (world1 0 []))) w1 Hrun)).
Defined.

Lemma main_writes_dataset_witness :
  exists w',
    main the_log (world1 0 []) = (Return tt, w') /\
    files (os w') !! output_path =
      Some {| locked := false;
              content := Csv ["Price"; "Quantity"] (spec_dataset (draws_of 0).1) |}.
Proof.
  destruct (main_writes_dataset the_log (world1 0 []))
    as (w' & Hrun & Hfile & _);
    [reflexivity|vm_compute; reflexivity|vm_compute; reflexivity
    |intros f Hf; vm_compute in Hf; discriminate
    |intros f Hf; vm_compute in Hf; discriminate|].
  exists w'. split; [exact Hrun|exact Hfile].
Defined.

Lemma script_writes_seeded_dataset_witness :
  exists w',
    @script star_glob nat _ (world0 5) = (Return tt, w') /\
    files (os w') !! output_path =
      Some {| locked := false;
              content := Csv ["Price"; "Quantity"] (spec_dataset (draws_of 1).1) |}.
Proof.
  destruct (@script_writes_seeded_dataset star_glob nat _ (world0 5))
    as (w' & Hrun & Hfile & _);
    [reflexivity|reflexivity
    |intros f Hf; vm_compute in Hf; discriminate
    |reflexivity|reflexivity
    |intros f Hf; vm_compute in Hf; discriminate
    |intros f Hf; vm_compute in Hf; discriminate|].
  exists w'. split; [exact Hrun|exact Hfile].
Defined.

